(* ===== verification/_CoqProject ===== *)
-Q . S2P
Prelude.v
Regex.v
Rules.v
Extract.v
Client.v
Json.v
Report.v
Index.v
Orchestrator.v
Answer.v
Harness.v
Api.v
Pyfmt.v
Dax.v
Explore.v
Prompt.v
