(* ===== verification/Prelude.v ===== *)
(** * A verified model of the document classifier of homeowner-assistant

    This development models, in Rocq, the document-classification
    pipeline of the repository (src/scripts/classify_documents.py), the
    answer extraction around an LLM call (src/src/optimized_extraction.py)
    the query test harness (src/scripts/run_300_tests.py) and the three
    Power BI exploration scripts (src/scripts/explore_*.py), and proves
    the properties that make them correct, together with the places where
    the code and its specification disagree.

    ** The program and how its parts interact

    The script classifies the documents of an Azure AI Search index by
    their SharePoint path and file name and writes the results back:

    - the Rule Engine ([CLASSIFICATION_RULES], [classify_document]): an
      ordered list of rules, each with path patterns and name patterns
      (Python regular expressions, searched case-insensitively); the first
      rule one of whose patterns matches wins, and a document matching no
      rule is ("uncategorized", "staff_only");
    - the Metadata Extractors ([COMMUNITY_PATTERNS],
      [extract_community_name], [OWNER_ACCOUNT_PATTERNS],
      [extract_owner_account]): first-match regular expressions with a
      capturing group, the community name then normalised with
      [str.replace], [re.sub] and [str.strip];
    - the Index Client ([search_documents], [update_document],
      [update_documents_batch], [get_classification_stats]): HTTP calls to
      the search service, decoding its JSON answers;
    - the Sync Orchestrator ([run_classification]): counts the documents
      in scope, pages through them, classifies each and extracts its
      metadata, accumulates merge updates, flushes them in batches and
      prints statistics;
    - the Stats Reporter ([show_stats]) and the command line ([__main__]).

    The rule engine and the extractors go through Python's [re] module,
    so the development first models the part of [re] the script uses.
    The answer extraction is independent of the pipeline:
    [extract_answer_with_claude_v2] builds a prompt from the documents
    ([build_document_context]), posts it to the Anthropic API, finds the
    JSON object in the reply and validates it with the pure helpers
    (category detection, follow-up questions, confidence score);
    [synthesize_multiple_documents] does the same for several documents.
    The test harness sends 315 queries to a search service
    ([test_endpoint]), scores each answer with one of four evaluators and
    accumulates per-category statistics ([run_tests]).
    The exploration scripts stand alone: each reads the [power_bi]
    section of a configuration file, obtains a token from MSAL, and sends
    DAX queries to a Power BI dataset ([run_dax]), printing the columns,
    counts and sample rows it finds and probing lists of table names.

    ** Files, modules and the code they model

    - [Prelude.v] (this file): Python-level data shared by every file:
      the exceptions ([exn], the [res] error monad and its notation in
      [py_scope]), Python's string primitives on Latin-1 code points
      ([py_lower], [is_space], [str.strip], [str.replace], slicing,
      [startswith]), truthiness and [or], [first_some] (the loop
      [for ...: if ...: return]), the hint databases [pyhints] and [pyrw]
      and the tactics [inv] and [unbind].
    - [Regex.v], [Module Re]: [re] on the syntax the patterns use (groups,
      non-capturing groups, alternation, classes, [\s], [\d], [.], [*],
      [+], [?], [^], [$], negative look-ahead): the parser ([compile]),
      a backtracking matcher [m] returning every match in priority order,
      [re.search] ([re_search]) and [re.sub] ([re_sub]); a declarative
      semantics [sem]; the matcher is sound and complete for it ([m_sem])
      and [re.search] returns the leftmost match.
    - [Rules.v], [Module Rules]: the 22 rules verbatim, [classify_document]
      (lines 249-277) with its loops [any_search], [rule_matches],
      [classify_rules]; the abstract first-match specification
      [classify_spec] and the refinement theorem; precedence, fallback,
      totality, the closed set of access levels, the specification's
      scenarios and the misclassifications of substring patterns.
    - [Extract.v], [Module Extract]: the extractors (lines 233-306).
    - [Client.v], [Module Client]: the search service as a typeclass
      [Backend] (one operation per endpoint); the monad [M] whose state is
      the service's state, the trace of requests, the printed lines and a
      clock for [datetime.utcnow()]; the four client functions (lines
      309-406); three program logics for [M]: [keeps] (an invariant of the
      trace), [post] (a postcondition of the value) and [py_safe] (only
      Python exceptions, never [FuelExhausted]).
    - [Report.v], [Module Report]: [sorted(..., key=lambda x: -x[1])] as a
      stable insertion sort, proved to be Python's sort; [show_stats].
    - [Index.v], [Module Index]: an in-memory search service, an instance
      of [Backend] written from the specification's protocol (the service
      is not repository code): filter, paging, count, merge, facets, and
      injected HTTP failures.
    - [Orchestrator.v], [Module Orchestrator]: [run_classification] (lines
      409-516) as [process_doc], [flush], the page loop [pages], the final
      flush and the report, over any [Backend]; the [__main__] dispatch.
    - [Answer.v], [Module Answer]: the tables and the pure helpers of
      optimized_extraction.py (lines 34-374).
    - [Json.v], [Module Json]: JSON values as [json.loads] produces them,
      with Python's truthiness, [dict.get], [d[k] = v], [setdefault],
      [len] and [v[0]], and the rewrite database [jsonrw].
    - [Harness.v], [Module Harness]: run_300_tests.py: [TEST_QUERIES]
      verbatim, [test_endpoint] (lines 446-475) on the outcome of the GET,
      the four evaluators (lines 479-554), the routing of a query, the
      statistics and rows of [run_tests] (lines 557-664) in a section whose
      variable [server] is the service.
    - [Api.v], [Module Api]: [extract_answer_with_claude_v2] (lines
      381-478) and [synthesize_multiple_documents] (lines 517-564) in a
      section whose variables are the API key, the HTTP call, [json.loads]
      and the two prompt templates; the [try]/[except] blocks are [res]
      values turned into [None] by [catch_all].
    - [Pyfmt.v], [Module Pyfmt]: the Python builtins the exploration
      scripts print with: [str] and [repr] of JSON values ([py_str],
      [py_repr], the quote choice and escapes of [py_repr_str]), the
      format [f"{n:,}"] ([format_comma], [comma_int]) and [sorted] on
      strings ([py_sorted]).
    - [Dax.v], [Module Dax]: what the three scripts share: the monad
      [io] (a trace of [EQuery] and [EPrint] events and a result or an
      exception), [authorize] (configuration and MSAL token), [run_dax],
      the table probe loop [probe], and the program logic [ikeeps] (an
      invariant of the trace) with its tactic [ikeep].
    - [Explore.v], [Module Explore]: explore_activity_data.py,
      explore_activity_data_v2.py and explore_m360_owner_activity.py, one
      definition per numbered section, in a section whose variables are
      the configuration, MSAL and the HTTP endpoint; scenarios on an
      in-memory Power BI service.
    - [Prompt.v], [Module Prompt]: [EXTRACTION_PROMPT_V2] and
      [SYNTHESIS_PROMPT] verbatim, and [str.format] with keyword
      arguments ([fmt], CPython's left-to-right markup walk with its
      [ValueError], [KeyError] and [IndexError]), with the pieces of a
      template ([parse], [subst]) as the means of proof.  Api.v takes
      the formatted prompts as section variables; Prompt.v shows they
      are total functions of their arguments, which is what that
      abstraction assumes.

    ** What the theorems show

    - Regex: the matcher is sound and complete for [sem]; [re.search] finds
      the leftmost match; [re.sub] agrees with Python on empty matches.
    - Rules: [classify_document] refines the first-match specification;
      an earlier rule always wins; the fallback is returned exactly when
      no rule applies; it never raises; access levels are one of five;
      names containing "ccr" or "statement ... .pdf" are misrouted.
    - Extract: names are stripped; [None] exactly when nothing matches;
      the only exception the extractors raise is [TypeError].
    - Client and Orchestrator: the batch accounting; a dry run issues
      searches only; the counters are loop invariants; the loop
      terminates; the result of processing one document (its update
      dict field by field, the extracted or else stored community, the
      owner account only for owner_ categories, the counters); a null
      name among the first ten documents always crashes with
      [TypeError]; HTTP errors crash the run; on the in-memory index, scenario 6 with
      [--all] and as a dry run, and the paging defect of live
      unclassified-only runs (100 of 250 documents never classified).
    - Report: the report order is Python's stable sort.
    - Orchestrator, whole runs: every run of [__main__] with [--stats] or a
      positive batch size finishes ([main_finishes], proved through
      [py_safe]); [d[k] = d.get(k, 0) + 1] counts from 0, other keys
      unchanged ([incr_spec]).
    - Answer: detection returns the first category of highest score;
      follow-ups are filtered suggestions; the confidence score lies in
      [-5, 100] and is one of three levels; the context fails exactly on
      null content; substring keywords and punctuation misdirect scoring.
    - Api: a returned dict has a truthy answer, a valid confidence, every
      expected key and the query's category; the outcome on every branch
      (no key, no documents, failed request, bad document, success); the
      guards and the only exception of the synthesis; every reply with
      an answer but without "found" is labelled "not_found".
    - Harness: a completed run has one row per query and consistent
      counters summing to 315; failed requests are scored ERROR, never
      raise; [test_endpoint] has an error exactly off 200; the suite has
      315 queries, and one edge case is scored by the document evaluator.
    - Pyfmt: [py_sorted] is the unique sorted permutation, hence Python's
      [sorted]; [f"{n:,}"] round-trips through [int(s.replace(',', ''))].
    - Dax and Explore: every query the scripts send carries the MSAL
      token's header and goes to a configured dataset; the probe loop
      sends one query per table in order and returns the tables found; an
      existing empty table crashes a probe with [TypeError] and stops the
      script; a zero value prints as NULL and "arc" flags ParcelID.
    - Prompt: both templates format without raising for all arguments
      and hold each argument verbatim; formatting a parsed template is
      substituting its pieces; doubling every brace of a text is
      undone by [format].

    ** Fuel and bounds

    - The matcher's [*] loop runs on fuel [length s - i]: each iteration
      that continues consumes a character, so the fuel is never the
      limit ([star_loop_complete]).
    - [compile] runs on fuel [4 * length + 4], chosen above the parser's
      recursion depth on a pattern of that length; running out would make
      a pattern fail to compile, and every pattern of the tables is
      checked to compile, by evaluation.
    - [re.sub] runs on fuel [2 * length + 2]: each step advances or sets
      the must-advance flag, which forces the next step to advance.  This
      bound is argued, not proved; the [re.sub] results used are checked
      by evaluation.
    - The page loop runs on [loop_fuel] = 1 + ceil(total / batch_size);
      [loop_terminates] shows it never runs out when batch_size > 0 and
      that more fuel changes nothing.  For batch_size <= 0 the Python loop
      need not terminate and the model reports [FuelExhausted].
    - [main] gives the page loop [loop_fuel] of the count it reads, so
      [main_finishes] holds for every answer of the service.

    ** Modelling choices and what is not modelled

    - Python [str] values are Rocq [string]s of Latin-1 code points
      (0..255); [None] is [option]'s [None].  [str.lower], [str.isspace],
      [str.split] and the [\s], [\d] classes of [re] are Python's on that
      range.  JSON objects are lists of string-or-null fields ([jobj]).
    - Exceptions are values of [exn], propagated by [res] and by [M].
    - Integers are Rocq's [Z]: Python's are unbounded.
    - Not modelled: the HTTP transport and JSON decoding (the backend's,
      the Anthropic API's and [json.loads], which are parameters);
      conversions, format specs and attribute access in [str.format]
      fields (the templates have none); argparse's parsing; the logger calls; the progress lines,
      [time.sleep] and the results file of run_300_tests.py (output only);
      the configuration file, MSAL and the Power BI endpoint of the
      exploration scripts (parameters), and Power BI's decimal numbers
      (the JSON model has integers only).
*)

From Stdlib Require Import String Ascii List Lia ZArith Bool.
Import ListNotations.

Declare Scope py_scope.
Delimit Scope py_scope with py.

(** ** Exceptions and the error monad *)

(** The exceptions the modelled code can raise. *)
Inductive exn :=
| ReError        (** [re.error]: a pattern that does not compile *)
| TypeError      (** an operation applied to [None] *)
| ValueError     (** unpacking a value of the wrong arity *)
| AttributeError (** a method called on [None] *)
| KeyError       (** subscripting a dict with a missing key *)
| IndexError     (** subscripting a sequence out of range *)
| ConnectionError (** [requests.exceptions.ConnectionError]: the request failed *)
| FuelExhausted. (** not a Python exception: the model ran out of fuel *)

Definition res (A : Type) : Type := sum exn A.

Definition ret {A} (a : A) : res A := inr a.
Definition raise {A} (e : exn) : res A := inl e.

Definition bind {A B} (m : res A) (k : A -> res B) : res B :=
  match m with
  | inl e => inl e
  | inr a => k a
  end.

Notation "x <- m ;; k" := (bind m (fun x => k))
  (at level 61, m at next level, right associativity) : py_scope.
Notation "' p <- m ;; k" := (bind m (fun x => match x with p => k end))
  (at level 61, p pattern, m at next level, right associativity) : py_scope.

Open Scope py_scope.

Lemma bind_inr {A B} (m : res A) (k : A -> res B) (b : B) :
  bind m k = inr b -> exists a, m = inr a /\ k a = inr b.
Proof. destruct m; simpl; [discriminate | eauto]. Qed.

Lemma bind_ret {A B} (a : A) (k : A -> res B) : bind (ret a) k = k a.
Proof. reflexivity. Qed.


(** ** Characters: Python's view of the Latin-1 range *)

Definition code (a : ascii) : nat := nat_of_ascii a.

(** [str.lower] on one code point below 256: A-Z and the Latin-1
    capitals U+00C0..U+00DE except U+00D7 (multiplication sign). *)
Definition py_lower (a : ascii) : ascii :=
  let n := code a in
  if ((65 <=? n) && (n <=? 90)) || ((192 <=? n) && (n <=? 222) && negb (n =? 215))
  then ascii_of_nat (n + 32) else a.

(** [str.isspace] (and [re]'s [\s] for str patterns) below 256. *)
Definition is_space (a : ascii) : bool :=
  let n := code a in
  ((9 <=? n) && (n <=? 13)) || ((28 <=? n) && (n <=? 32)) || (n =? 133) || (n =? 160).

(** [re]'s [\d] for str patterns below 256: the ASCII digits. *)
Definition is_digit (a : ascii) : bool :=
  let n := code a in (48 <=? n) && (n <=? 57).

Definition newline : ascii := ascii_of_nat 10.

(** ** Strings *)

Definition chars (s : string) : list ascii := list_ascii_of_string s.
Definition of_chars (l : list ascii) : string := string_of_list_ascii l.

(** [s.lower()] *)
Definition str_lower (s : string) : string := of_chars (map py_lower (chars s)).

(** [s.startswith(p)] *)
Definition startswith (s p : string) : bool := String.prefix p s.

(** [s[:n]] for [n >= 0] *)
Definition str_take (n : nat) (s : string) : string := of_chars (firstn n (chars s)).

(** [s.strip()]: drop leading and trailing white space. *)
Fixpoint lstrip_l (l : list ascii) : list ascii :=
  match l with
  | a :: l' => if is_space a then lstrip_l l' else l
  | [] => []
  end.

Definition strip_l (l : list ascii) : list ascii := rev (lstrip_l (rev (lstrip_l l))).

Definition str_strip (s : string) : string := of_chars (strip_l (chars s)).

(** [p] is a prefix of [l]. *)
Fixpoint is_prefix (p l : list ascii) : bool :=
  match p, l with
  | [], _ => true
  | a :: p', b :: l' => Ascii.eqb a b && is_prefix p' l'
  | _ :: _, [] => false
  end.

(** [s.replace(old, new)]: non-overlapping occurrences, left to right.
    An empty [old] is not used by the code and is treated as no match. *)
Fixpoint replace_l (fuel : nat) (old new l : list ascii) : list ascii :=
  match fuel with
  | O => l
  | S fuel' =>
      match l with
      | [] => []
      | a :: l' =>
          if (0 <? length old) && is_prefix old l
          then new ++ replace_l fuel' old new (skipn (length old) l)
          else a :: replace_l fuel' old new l'
      end
  end.

Definition str_replace (s old new : string) : string :=
  of_chars (replace_l (String.length s) (chars old) (chars new) (chars s)).

(** Python truthiness of an optional string: [None] and [""] are false. *)
Definition truthy (o : option string) : bool :=
  match o with
  | Some (String _ _) => true
  | _ => false
  end.

(** [a or b] on optional strings. *)
Definition py_or (a b : option string) : option string := if truthy a then a else b.

(** [f"{x}"] of an optional string: [None] prints as "None". *)
Definition py_fmt (o : option string) : string :=
  match o with Some s => s | None => "None" end.

(** ** The first element of a list on which a function succeeds *)

Fixpoint first_some {A B} (f : A -> option B) (l : list A) : option B :=
  match l with
  | [] => None
  | x :: l' => match f x with Some y => Some y | None => first_some f l' end
  end.

(** ** Tactics and hints *)

Create HintDb pyhints discriminated.

(** A result that is a value or a Python exception: never the model's
    [FuelExhausted]. *)
Definition py_exn {A} (r : res A) : Prop :=
  match r with inl e => e <> FuelExhausted | inr _ => True end.

Lemma py_exn_bind {A B} (m : res A) (k : A -> res B) :
  py_exn m -> (forall a, py_exn (k a)) -> py_exn (bind m k).
Proof. destruct m; simpl; auto. Qed.

Lemma py_exn_ret {A} (a : A) : py_exn (ret a).
Proof. exact I. Qed.

Lemma py_exn_raise {A} e : e <> FuelExhausted -> py_exn (@raise A e).
Proof. intros H. exact H. Qed.

Lemma py_exn_not_fuel {A} (r : res A) : py_exn r -> r <> inl FuelExhausted.
Proof. destruct r; simpl; congruence. Qed.

#[export] Hint Resolve py_exn_ret py_exn_raise : pyhints.

(** Splits a [py_exn] goal along the binds and branches of pure code. *)
Ltac pyexn :=
  repeat (match goal with
          | |- forall _, _ => intro
          | |- py_exn ((fun _ => _) _) => cbv beta
          | |- py_exn (bind _ _) => apply py_exn_bind
          | |- py_exn (match ?x with _ => _ end) => destruct x
          | |- py_exn (if ?b then _ else _) => destruct b
          | |- py_exn (raise _) => apply py_exn_raise; discriminate
          | |- py_exn (ret _) => apply py_exn_ret
          end || (progress eauto with pyhints)).
Create Rewrite HintDb pyrw.

Ltac inv H := inversion H; subst; clear H.

(** Split every [bind] equal to [inr] in the context. *)
Ltac unbind :=
  repeat match goal with
  | H : bind _ _ = inr _ |- _ =>
      let a := fresh "a" in let Ha := fresh "Ha" in
      apply bind_inr in H; destruct H as (a & Ha & H)
  end.

(** ** Generic lemmas *)

Section FirstSome.
Context {A B : Type} (f : A -> option B).

Lemma first_some_Some (l : list A) (y : B) :
  first_some f l = Some y <->
  exists l1 x l2, l = l1 ++ x :: l2 /\ Forall (fun z => f z = None) l1 /\ f x = Some y.
Proof.
  induction l as [|x l IH]; simpl.
  - split; [discriminate|]. intros (l1 & x & l2 & E & _). destruct l1; discriminate.
  - destruct (f x) eqn:Hx; split.
    + intros H; inv H. exists [], x, l. repeat split; auto.
    + intros (l1 & x' & l2 & E & Hl1 & Hx'). destruct l1 as [|z l1]; simpl in E; inv E.
      * congruence.
      * inv Hl1. congruence.
    + intros H. apply IH in H as (l1 & x' & l2 & E & Hl1 & Hx').
      exists (x :: l1), x', l2. subst. repeat split; auto.
    + intros (l1 & x' & l2 & E & Hl1 & Hx'). apply IH.
      destruct l1 as [|z l1]; simpl in E; inv E; [congruence|].
      inv Hl1. exists l1, x', l2. auto.
Qed.

Lemma first_some_None (l : list A) :
  first_some f l = None <-> Forall (fun z => f z = None) l.
Proof.
  induction l as [|x l IH]; simpl; [split; auto|].
  destruct (f x) eqn:Hx; split; intros H.
  - discriminate.
  - inv H. congruence.
  - constructor; [auto | apply IH, H].
  - inv H. apply IH; auto.
Qed.

Lemma first_some_app (l1 l2 : list A) :
  first_some f (l1 ++ l2) =
  match first_some f l1 with Some y => Some y | None => first_some f l2 end.
Proof.
  induction l1 as [|x l1 IH]; simpl; [reflexivity|].
  destruct (f x); [reflexivity | exact IH].
Qed.

Lemma first_some_In (l : list A) (y : B) :
  first_some f l = Some y -> exists x, In x l /\ f x = Some y.
Proof.
  intros H. apply first_some_Some in H as (l1 & x & l2 & -> & _ & Hx).
  exists x. split; [apply in_or_app; simpl; auto | exact Hx].
Qed.
(** Over [seq a n]: the least index on which [f] succeeds. *)
Lemma first_some_seq_least (a n : nat) (y : B) (g : nat -> option B) :
  first_some g (seq a n) = Some y ->
  exists i, a <= i < a + n /\ g i = Some y /\ forall i', a <= i' < i -> g i' = None.
Proof.
  revert a. induction n as [|n IH]; simpl; intros a H; [discriminate|].
  destruct (g a) eqn:Ha.
  - inv H. exists a. split; [lia|]. split; [exact Ha|]. intros; lia.
  - apply IH in H as (i & Hi & Hgi & Hlt). exists i. split; [lia|]. split; [exact Hgi|].
    intros i' Hi'. destruct (Nat.eq_dec i' a) as [->|]; [exact Ha | apply Hlt; lia].
Qed.
End FirstSome.

(** ** [str.strip] leaves no white space at either end *)

Lemma lstrip_hd (l : list ascii) a : hd_error (lstrip_l l) = Some a -> is_space a = false.
Proof.
  induction l as [|b l IH]; simpl; [discriminate|].
  destruct (is_space b) eqn:Hb; [exact IH|]. simpl. intros H. injection H as <-. exact Hb.
Qed.

Lemma lstrip_suffix (l : list ascii) : exists p, l = p ++ lstrip_l l.
Proof.
  induction l as [|b l [p Hp]]; simpl; [exists []; reflexivity|].
  destruct (is_space b); [exists (b :: p); simpl; congruence | exists []; reflexivity].
Qed.

Lemma in_firstn {A} n (l : list A) x : In x (firstn n l) -> In x l.
Proof. intros H. rewrite <- (firstn_skipn n l). apply in_or_app. left. exact H. Qed.

Lemma hd_error_app_l {A} (x y : list A) a : hd_error x = Some a -> hd_error (x ++ y) = Some a.
Proof. destruct x; simpl; [discriminate | auto]. Qed.

Lemma strip_ends (l : list ascii) :
  (forall a, hd_error (strip_l l) = Some a -> is_space a = false) /\
  (forall a, hd_error (rev (strip_l l)) = Some a -> is_space a = false).
Proof.
  unfold strip_l. split.
  - intros a Ha.
    destruct (lstrip_suffix (rev (lstrip_l l))) as [p Hp].
    set (v := lstrip_l (rev (lstrip_l l))) in *.
    apply (lstrip_hd l). rewrite <- (rev_involutive (lstrip_l l)), Hp, rev_app_distr.
    apply hd_error_app_l, Ha.
  - intros a Ha. rewrite rev_involutive in Ha. exact (lstrip_hd _ _ Ha).
Qed.

Lemma chars_of_chars (l : list ascii) : chars (of_chars l) = l.
Proof. apply list_ascii_of_string_of_list_ascii. Qed.

Lemma of_chars_chars (s : string) : of_chars (chars s) = s.
Proof. apply string_of_list_ascii_of_string. Qed.

Lemma chars_app (s1 s2 : string) : chars (s1 ++ s2) = chars s1 ++ chars s2.
Proof. induction s1 as [|a s1 IH]; simpl; [reflexivity | unfold chars in *; simpl; rewrite IH; reflexivity]. Qed.

#[export] Hint Rewrite chars_of_chars of_chars_chars : pyrw.

Lemma truthy_Some_iff (o : option string) :
  truthy o = true <-> exists s, o = Some s /\ s <> EmptyString.
Proof.
  split.
  - destruct o as [s0|]; [destruct s0 as [|a t]|]; simpl; intros H; try discriminate.
    exists (String a t). split; [reflexivity | discriminate].
  - intros (u & -> & Hu). destruct u; [congruence | reflexivity].
Qed.

Lemma py_or_truthy (a b : option string) : truthy a = true -> py_or a b = a.
Proof. unfold py_or. intros ->. reflexivity. Qed.

Lemma py_or_falsy (a b : option string) : truthy a = false -> py_or a b = b.
Proof. unfold py_or. intros ->. reflexivity. Qed.

#[export] Hint Resolve py_or_truthy py_or_falsy : pyhints.
