(* ===== verification/Regex.v ===== *)
(** * Python's [re] on the subset of syntax the classifier uses

    [re.compile] is modelled by a recursive-descent parser from the
    pattern text to [regex]; [re.search] by a backtracking matcher that
    returns every way a pattern matches at a position, in the order the
    backtracking engine of [re] tries them, so that the head of the list is
    the match Python reports.  [sem] is the declarative meaning of a
    pattern, and [m_sem] proves the matcher sound and complete for it. *)

From Stdlib Require Import String Ascii List Arith Lia Bool Relations.
From S2P Require Import Prelude.
Import ListNotations.
Open Scope py_scope.

Module Re.

(** ** Syntax *)

Inductive class_item :=
| CChar (c : ascii)   (** a literal character inside [[...]] *)
| CDigit              (** [\d] *)
| CSpace              (** [\s] *)
| CNotDigit           (** [\D] *)
| CNotSpace.          (** [\S] *)

Inductive regex :=
| Eps                          (** the empty pattern *)
| Chr (c : ascii)              (** a literal character *)
| Any                          (** [.]: any character but a newline *)
| Cls (neg : bool) (items : list class_item)  (** [[...]], [[^...]], [\d], [\s] *)
| Cat (r1 r2 : regex)          (** concatenation *)
| Alt (r1 r2 : regex)          (** [r1|r2]: r1 is tried first *)
| Star (r : regex)             (** greedy [r*] *)
| Bol                          (** [^] *)
| Eol                          (** [$] *)
| NegLook (r : regex)          (** [(?!r)] *)
| Group (n : nat) (r : regex). (** capturing group number [n] *)

(** ** Characters *)

(** A literal character against an input character; [ic] is
    [re.IGNORECASE]. *)
Definition chr_eq (ic : bool) (a b : ascii) : bool :=
  if ic then Ascii.eqb (py_lower a) (py_lower b) else Ascii.eqb a b.

Definition item_mem (ic : bool) (b : ascii) (it : class_item) : bool :=
  match it with
  | CChar c => chr_eq ic c b
  | CDigit => is_digit b
  | CSpace => is_space b
  | CNotDigit => negb (is_digit b)
  | CNotSpace => negb (is_space b)
  end.

Definition cls_mem (ic neg : bool) (items : list class_item) (b : ascii) : bool :=
  xorb neg (existsb (item_mem ic b) items).

(** [$] without MULTILINE: at the end, or before a final newline. *)
Definition eol_at (s : list ascii) (i : nat) : bool :=
  (i =? length s) || ((S i =? length s) && match nth_error s i with
                                             | Some b => Ascii.eqb b newline
                                             | None => false
                                             end).

(** One-character patterns. *)
Definition char_ok (ic : bool) (r : regex) (b : ascii) : bool :=
  match r with
  | Chr a => chr_eq ic a b
  | Any => negb (Ascii.eqb b newline)
  | Cls neg items => cls_mem ic neg items b
  | _ => false
  end.

(** ** The backtracking matcher *)

(** Captured groups, most recent first. *)
Definition capt := list (nat * (nat * nat)).

(** Greedy iteration of a matcher [f]: every non-empty iteration first,
    then stopping at [i].  The fuel bounds the number of iterations;
    [length s - i] is enough because each iteration consumes input. *)
Fixpoint star_loop (f : nat -> capt -> list (nat * capt)) (fuel i : nat) (c : capt)
  : list (nat * capt) :=
  match fuel with
  | O => [(i, c)]
  | S fuel' =>
      flat_map (fun p => if i <? fst p then star_loop f fuel' (fst p) (snd p) else [])
               (f i c) ++ [(i, c)]
  end.

(** [m ic r s i c]: the end positions and captures of the matches of [r]
    at position [i] of [s], in the order [re] tries them. *)
Fixpoint m (ic : bool) (r : regex) (s : list ascii) (i : nat) (c : capt)
  : list (nat * capt) :=
  match r with
  | Eps => [(i, c)]
  | Chr _ | Any | Cls _ _ =>
      match nth_error s i with
      | Some b => if char_ok ic r b then [(S i, c)] else []
      | None => []
      end
  | Cat r1 r2 => flat_map (fun p => m ic r2 s (fst p) (snd p)) (m ic r1 s i c)
  | Alt r1 r2 => m ic r1 s i c ++ m ic r2 s i c
  | Star r1 => star_loop (m ic r1 s) (length s - i) i c
  | Bol => if i =? 0 then [(i, c)] else []
  | Eol => if eol_at s i then [(i, c)] else []
  | NegLook r1 => match m ic r1 s i c with [] => [(i, c)] | _ => [] end
  | Group n r1 => map (fun p => (fst p, (n, (i, fst p)) :: snd p)) (m ic r1 s i c)
  end.

(** A match object: start, end and captured groups. *)
Record mobj := MObj { mo_start : nat; mo_end : nat; mo_caps : capt }.

Definition search_at (ic : bool) (r : regex) (s : list ascii) (i : nat) : option mobj :=
  match m ic r s i [] with
  | (j, c) :: _ => Some (MObj i j c)
  | [] => None
  end.

(** [re.search]: the leftmost start at which the pattern matches, with
    the first match there. *)
Definition search (ic : bool) (r : regex) (s : list ascii) : option mobj :=
  first_some (search_at ic r s) (seq 0 (S (length s))).

(** [match.group(n)] *)
Definition group (mo : mobj) (n : nat) (s : list ascii) : option (list ascii) :=
  match find (fun p => fst p =? n) (mo_caps mo) with
  | Some (_, (a, b)) => Some (firstn (b - a) (skipn a s))
  | None => None
  end.

(** ** The pattern parser ([re.compile]) *)

Definition ch (n : nat) : ascii := ascii_of_nat n.

Definition is_alnum (a : ascii) : bool :=
  let n := code a in
  ((48 <=? n) && (n <=? 57)) || ((65 <=? n) && (n <=? 90)) || ((97 <=? n) && (n <=? 122)).

Definition is_quant (a : ascii) : bool :=
  Ascii.eqb a "*" || Ascii.eqb a "+" || Ascii.eqb a "?".

(** An escape outside a class: [\d], [\D], [\s], [\S], or an escaped
    punctuation character.  Other escaped letters and digits are outside
    the modelled subset (Python reads them as classes, back-references or
    errors). *)
Definition escape (e : ascii) : option regex :=
  if Ascii.eqb e "d" then Some (Cls false [CDigit])
  else if Ascii.eqb e "D" then Some (Cls true [CDigit])
  else if Ascii.eqb e "s" then Some (Cls false [CSpace])
  else if Ascii.eqb e "S" then Some (Cls true [CSpace])
  else if is_alnum e then None
  else Some (Chr e).

(** The items of a class up to its closing bracket.  [first] is true at
    the first position, where [']'] is a literal.  Ranges [a-b] are
    outside the modelled subset.  Each call consumes a character, so the
    length of the text is enough fuel. *)
Fixpoint p_class (fuel : nat) (s : list ascii) (first : bool)
  : option (list class_item * list ascii) :=
  match fuel, s with
  | O, _ | _, [] => None
  | S fuel', a :: rest =>
      if Ascii.eqb a "]" && negb first then Some ([], rest)
      else
        let item_rest :=
          if Ascii.eqb a "\" then
            match rest with
            | e :: rest' =>
                if Ascii.eqb e "d" then Some (CDigit, rest')
                else if Ascii.eqb e "s" then Some (CSpace, rest')
                else if Ascii.eqb e "D" then Some (CNotDigit, rest')
                else if Ascii.eqb e "S" then Some (CNotSpace, rest')
                else if is_alnum e then None
                else Some (CChar e, rest')
            | [] => None
            end
          else
            match rest with
            | d :: e :: _ => if Ascii.eqb d "-" && negb (Ascii.eqb e "]") then None
                             else Some (CChar a, rest)
            | _ => Some (CChar a, rest)
            end in
        match item_rest with
        | Some (it, rest') =>
            match p_class fuel' rest' false with
            | Some (its, rest'') => Some (it :: its, rest'')
            | None => None
            end
        | None => None
        end
  end.

Definition cat (r1 r2 : regex) : regex :=
  match r2 with Eps => r1 | _ => Cat r1 r2 end.

(** A quantifier after an atom ([*], [+], [?]); a second quantifier
    ([*?] lazy, or a repeated repeat) is outside the subset. *)
Definition quantify (a : regex) (s : list ascii) : option (regex * list ascii) :=
  match s with
  | q :: rest =>
      let r := if Ascii.eqb q "*" then Some (Star a)
               else if Ascii.eqb q "+" then Some (Cat a (Star a))
               else if Ascii.eqb q "?" then Some (Alt a Eps)
               else None in
      match r with
      | Some r' =>
          match a with
          | Bol | Eol => None
          | _ => match rest with
                 | q' :: _ => if is_quant q' then None else Some (r', rest)
                 | [] => Some (r', rest)
                 end
          end
      | None => Some (a, s)
      end
  | [] => Some (a, s)
  end.

(** Alternation, sequence and atom, with the number of the next
    capturing group threaded through.  The fuel is the nesting depth;
    the length of the pattern is enough. *)
Fixpoint p_alt (fuel : nat) (s : list ascii) (g : nat) : option (regex * list ascii * nat) :=
  match fuel with
  | O => None
  | S f =>
      match p_seq f s g with
      | Some (r, a :: rest, g') =>
          if Ascii.eqb a "|" then
            match p_alt f rest g' with
            | Some (r2, rest2, g2) => Some (Alt r r2, rest2, g2)
            | None => None
            end
          else Some (r, a :: rest, g')
      | x => x
      end
  end
with p_seq (fuel : nat) (s : list ascii) (g : nat) : option (regex * list ascii * nat) :=
  match fuel with
  | O => None
  | S f =>
      match s with
      | [] => Some (Eps, [], g)
      | a :: _ =>
          if Ascii.eqb a ")" || Ascii.eqb a "|" then Some (Eps, s, g)
          else
            match p_atom f s g with
            | Some (atm, rest, g') =>
                match quantify atm rest with
                | Some (q, rest') =>
                    match p_seq f rest' g' with
                    | Some (r, rest'', g'') => Some (cat q r, rest'', g'')
                    | None => None
                    end
                | None => None
                end
            | None => None
            end
      end
  end
with p_atom (fuel : nat) (s : list ascii) (g : nat) : option (regex * list ascii * nat) :=
  match fuel with
  | O => None
  | S f =>
      match s with
      | [] => None
      | a :: rest =>
          if Ascii.eqb a "(" then
            match rest with
            | q :: k :: rest' =>
                if Ascii.eqb q "?" then
                  if Ascii.eqb k ":" then close f rest' g (fun r => r)
                  else if Ascii.eqb k "!" then close f rest' g NegLook
                  else None
                else close f rest (S g) (Group g)
            | _ => close f rest (S g) (Group g)
            end
          else if Ascii.eqb a "[" then
            match rest with
            | n :: rest' =>
                let neg := Ascii.eqb n "^" in
                match p_class (length rest) (if neg then rest' else rest) true with
                | Some (its, rest'') => Some (Cls neg its, rest'', g)
                | None => None
                end
            | [] => None
            end
          else if Ascii.eqb a "." then Some (Any, rest, g)
          else if Ascii.eqb a "^" then Some (Bol, rest, g)
          else if Ascii.eqb a "$" then Some (Eol, rest, g)
          else if Ascii.eqb a "\" then
            match rest with
            | e :: rest' => match escape e with Some r => Some (r, rest', g) | None => None end
            | [] => None
            end
          else if is_quant a || Ascii.eqb a "{" then None
          else Some (Chr a, rest, g)
      end
  end
(** The body of a parenthesised group and its closing parenthesis. *)
with close (fuel : nat) (s : list ascii) (g : nat) (wrap : regex -> regex)
  : option (regex * list ascii * nat) :=
  match fuel with
  | O => None
  | S f =>
      match p_alt f s g with
      | Some (r, a :: rest, g') => if Ascii.eqb a ")" then Some (wrap r, rest, g') else None
      | _ => None
      end
  end.

(** [re.compile(pattern)]: [None] for a pattern that is invalid or
    outside the modelled subset. *)
Definition compile (pat : string) : option regex :=
  let s := chars pat in
  match p_alt (4 * length s + 4) s 1 with
  | Some (r, [], _) => Some r
  | _ => None
  end.

(** [re.search(pattern, text, flags)] with [ic] for [re.IGNORECASE]. *)
Definition re_search (pat text : string) (ic : bool) : res (option mobj) :=
  match compile pat with
  | Some r => ret (search ic r (chars text))
  | None => raise ReError
  end.

(** ** Declarative semantics *)

(** [sem ic r s i j]: [r] matches the characters of [s] from [i] to [j]. *)
Fixpoint sem (ic : bool) (r : regex) (s : list ascii) (i j : nat) : Prop :=
  match r with
  | Eps => j = i
  | Chr _ | Any | Cls _ _ => exists b, nth_error s i = Some b /\ char_ok ic r b = true /\ j = S i
  | Cat r1 r2 => exists k, sem ic r1 s i k /\ sem ic r2 s k j
  | Alt r1 r2 => sem ic r1 s i j \/ sem ic r2 s i j
  | Star r1 => clos_refl_trans_1n nat (sem ic r1 s) i j
  | Bol => i = 0 /\ j = 0
  | Eol => j = i /\ eol_at s i = true
  | NegLook r1 => j = i /\ forall k, ~ sem ic r1 s i k
  | Group _ r1 => sem ic r1 s i j
  end.

(** [r] matches somewhere in [s]: what [re.search] decides. *)
Definition matches (ic : bool) (r : regex) (s : list ascii) : Prop :=
  exists i j, i <= length s /\ sem ic r s i j.

(** ** Matches stay inside the text *)

Definition bounded (len i j : nat) : Prop := i <= j /\ (i <= len -> j <= len).

Lemma bounded_trans len i j k : bounded len i j -> bounded len j k -> bounded len i k.
Proof. unfold bounded. lia. Qed.

Lemma bounded_refl len i : bounded len i i.
Proof. unfold bounded. lia. Qed.

#[local] Hint Resolve bounded_refl : pyhints.

Lemma in_map_fst {A B} (l : list (A * B)) (a : A) :
  In a (map fst l) <-> exists b, In (a, b) l.
Proof.
  rewrite in_map_iff. split.
  - intros ([a' b] & E & H). simpl in E. subst. eauto.
  - intros (b & H). exists (a, b). auto.
Qed.

Lemma nth_error_bounded {A} (s : list A) i b :
  nth_error s i = Some b -> bounded (length s) i (S i).
Proof.
  intros H. assert (i < length s) by (apply nth_error_Some; congruence).
  unfold bounded. lia.
Qed.

Section StarLoop.
Variable f : nat -> capt -> list (nat * capt).
Variable R : nat -> nat -> Prop.
Variable len : nat.

Hypothesis f_bounded : forall i c j c', In (j, c') (f i c) -> bounded len i j.

Lemma star_loop_bounded fuel i c j c' :
  In (j, c') (star_loop f fuel i c) -> bounded len i j.
Proof.
  revert i c. induction fuel as [|fuel IH]; simpl; intros i c H.
  - destruct H as [H|[]]. inv H. apply bounded_refl.
  - apply in_app_iff in H as [H|[H|[]]].
    + apply in_flat_map in H as ([k ck] & Hk & H). simpl in H.
      destruct (i <? k); [|destruct H].
      eapply bounded_trans; [eapply f_bounded, Hk | eapply IH, H].
    + inv H. apply bounded_refl.
Qed.

Hypothesis f_sem : forall i c j, i <= len -> (In j (map fst (f i c)) <-> R i j).
Hypothesis R_bounded : forall i j, R i j -> bounded len i j.

Lemma star_loop_sound fuel i c j :
  i <= len -> In j (map fst (star_loop f fuel i c)) -> clos_refl_trans_1n nat R i j.
Proof.
  revert i c. induction fuel as [|fuel IH]; simpl; intros i c Hi H.
  - destruct H as [H|[]]. subst. constructor.
  - rewrite map_app, in_app_iff in H. destruct H as [H|[H|[]]]; [|subst; constructor].
    apply in_map_fst in H as (c' & H).
    apply in_flat_map in H as ([k ck] & Hk & H). simpl in H.
    destruct (i <? k); [|destruct H].
    assert (Rik : R i k) by (apply (f_sem i c k Hi), in_map_fst; eauto).
    econstructor; [exact Rik|].
    eapply IH; [apply (R_bounded _ _ Rik), Hi | apply in_map_fst; eauto].
Qed.

Lemma star_loop_complete i j :
  clos_refl_trans_1n nat R i j ->
  forall fuel c, i <= len -> len - i <= fuel -> In j (map fst (star_loop f fuel i c)).
Proof.
  induction 1 as [i|i k j Rik Hkj IH]; intros fuel c Hi Hfuel.
  - destruct fuel; simpl; [auto|].
    rewrite map_app, in_app_iff. right. simpl. auto.
  - destruct (R_bounded _ _ Rik) as [Hik Hk]. specialize (Hk Hi).
    destruct (Nat.eq_dec i k) as [<-|Hne]; [apply IH; assumption|].
    destruct fuel as [|fuel]; [lia|]. simpl.
    rewrite map_app, in_app_iff. left.
    pose proof (proj2 (f_sem i c k Hi) Rik) as Hin.
    apply in_map_fst in Hin as (ck & Hin).
    pose proof (IH fuel ck Hk ltac:(lia)) as Hj. apply in_map_fst in Hj as (cj & Hj).
    apply in_map_fst.
    exists cj. apply in_flat_map. exists (k, ck). split; [exact Hin|]. simpl.
    replace (i <? k) with true by (symmetry; apply Nat.ltb_lt; lia). exact Hj.
Qed.
End StarLoop.

Lemma m_bounded ic r s i c j c' :
  In (j, c') (m ic r s i c) -> bounded (length s) i j.
Proof.
  revert i c j c'.
  induction r as [|a| |neg its|r1 IH1 r2 IH2|r1 IH1 r2 IH2|r1 IH1| | |r1 IH1|n r1 IH1];
    intros i c j c' H; simpl in H.
  2-4: destruct (nth_error s i) eqn:E; [|destruct H];
       match type of H with context [if ?b then _ else _] => destruct b end; [|destruct H];
       destruct H as [H|[]]; inv H; eapply nth_error_bounded; eauto.
  - destruct H as [H|[]]. inv H. apply bounded_refl.
  - apply in_flat_map in H as ([k ck] & Hk & H).
    eapply bounded_trans; [eapply IH1, Hk | eapply IH2, H].
  - apply in_app_iff in H as [H|H]; eauto.
  - eapply star_loop_bounded; [|exact H]. intros; eapply IH1; eauto.
  - destruct (i =? 0); [|destruct H]. destruct H as [H|[]]. inv H. apply bounded_refl.
  - destruct (eol_at s i); [|destruct H]. destruct H as [H|[]]. inv H. apply bounded_refl.
  - destruct (m ic r1 s i c); [|destruct H]. destruct H as [H|[]]. inv H. apply bounded_refl.
  - apply in_map_iff in H as ([k ck] & E & H). inv E. eapply IH1; eauto.
Qed.

Lemma sem_bounded ic r s i j : sem ic r s i j -> bounded (length s) i j.
Proof.
  revert i j.
  induction r as [|a| |neg its|r1 IH1 r2 IH2|r1 IH1 r2 IH2|r1 IH1| | |r1 IH1|n r1 IH1];
    intros i j H; simpl in H.
  2-4: destruct H as (b & Hb & _ & ->); eapply nth_error_bounded; eauto.
  - subst. apply bounded_refl.
  - destruct H as (k & H1 & H2). eapply bounded_trans; eauto.
  - destruct H; eauto.
  - induction H; [apply bounded_refl | eapply bounded_trans; eauto].
  - destruct H as [-> ->]. apply bounded_refl.
  - destruct H as [-> _]. apply bounded_refl.
  - destruct H as [-> _]. apply bounded_refl.
  - eauto.
Qed.

(** ** The matcher is sound and complete *)

Lemma one_char_sem ic r s i (c : capt) j :
  In j (map fst (match nth_error s i with
                 | Some b => if char_ok ic r b then [(S i, c)] else []
                 | None => []
                 end)) <->
  exists b, nth_error s i = Some b /\ char_ok ic r b = true /\ j = S i.
Proof.
  destruct (nth_error s i) as [b|]; simpl.
  - destruct (char_ok ic r b) eqn:Hb; simpl; split.
    + intros [<-|[]]. eauto.
    + intros (b' & E & _ & ->). auto.
    + intros [].
    + intros (b' & E & Hb' & _). inv E. congruence.
  - split; [intros []|]. intros (b & E & _). discriminate.
Qed.

(** Every end position the matcher returns is a match of the declarative
    semantics, and every match is returned, whatever the captures. *)
Theorem m_sem ic r s i c j :
  i <= length s -> (In j (map fst (m ic r s i c)) <-> sem ic r s i j).
Proof.
  revert i c j.
  induction r as [|a| |neg its|r1 IH1 r2 IH2|r1 IH1 r2 IH2|r1 IH1| | |r1 IH1|n r1 IH1];
    intros i c j Hi.
  2-4: apply (one_char_sem ic _ s i c j).
  - simpl. split; [intros [<-|[]]; reflexivity | intros ->; auto].
  - simpl. rewrite in_map_fst. split.
    + intros (cj & H). apply in_flat_map in H as ([k ck] & Hk & H). simpl in H.
      exists k. pose proof (m_bounded _ _ _ _ _ _ _ Hk) as [_ Hk'].
      split; [apply (IH1 i c k Hi), in_map_fst; eauto|].
      apply (IH2 k ck j (Hk' Hi)), in_map_fst. eauto.
    + intros (k & H1 & H2).
      destruct (sem_bounded _ _ _ _ _ H1) as [_ Hk].
      apply (IH1 i c k Hi), in_map_fst in H1 as (ck & H1).
      apply (IH2 k ck j (Hk Hi)), in_map_fst in H2 as (cj & H2).
      exists cj. apply in_flat_map. exists (k, ck). auto.
  - simpl. rewrite map_app, in_app_iff, IH1, IH2 by exact Hi. reflexivity.
  - simpl. split.
    + apply star_loop_sound with (len := length s); auto;
        intros; first [eapply sem_bounded; eassumption | eapply m_bounded; eassumption].
    + intros H. eapply star_loop_complete with (len := length s); eauto;
        intros; first [eapply sem_bounded; eassumption | eapply m_bounded; eassumption].
  - simpl. destruct (Nat.eqb_spec i 0); simpl.
    + split; [intros [<-|[]]; auto | intros [_ ->]; auto].
    + split; [intros [] | intros [? _]; contradiction].
  - simpl. destruct (eol_at s i) eqn:E; simpl.
    + split; [intros [<-|[]]; auto | intros [-> _]; auto].
    + split; [intros [] | intros [_ ?]; congruence].
  - simpl. destruct (m ic r1 s i c) as [|[k ck] l] eqn:E; simpl.
    + split; [intros [<-|[]] | intros [-> _]; auto].
      split; [reflexivity|]. intros k Hk.
      apply (IH1 i c k Hi) in Hk. rewrite E in Hk. destruct Hk.
    + split; [intros []|]. intros [_ Hno]. exfalso. apply (Hno k).
      apply (IH1 i c k Hi). rewrite E. simpl. auto.
  - simpl. rewrite map_map. simpl. apply IH1. exact Hi.
Qed.

(** ** [re.search] *)

Lemma search_at_Some ic r s i mo :
  i <= length s -> search_at ic r s i = Some mo ->
  mo_start mo = i /\ sem ic r s i (mo_end mo).
Proof.
  unfold search_at. intros Hi H.
  destruct (m ic r s i []) as [|[j c] l] eqn:E; inv H. simpl. split; [reflexivity|].
  apply (m_sem ic r s i [] j Hi). rewrite E. simpl. auto.
Qed.

Lemma search_at_None ic r s i :
  i <= length s -> search_at ic r s i = None <-> forall j, ~ sem ic r s i j.
Proof.
  unfold search_at. intros Hi.
  destruct (m ic r s i []) as [|[j c] l] eqn:E; split; try discriminate; try (intros; reflexivity).
  - intros _ j Hj. apply (m_sem ic r s i [] j Hi) in Hj. rewrite E in Hj. destruct Hj.
  - intros Hno. exfalso. apply (Hno j). apply (m_sem ic r s i [] j Hi). rewrite E. simpl. auto.
Qed.

(** [re.search] finds nothing exactly when the pattern matches nowhere. *)
Theorem search_None_iff ic r s :
  search ic r s = None <-> ~ matches ic r s.
Proof.
  unfold search, matches. rewrite first_some_None, Forall_forall. split.
  - intros H (i & j & Hi & Hj).
    apply (search_at_None ic r s i Hi) with (j := j); [|exact Hj].
    apply H, in_seq. lia.
  - intros H i Hin. apply in_seq in Hin.
    apply search_at_None; [lia|]. intros j Hj. apply H. exists i, j. split; [lia | exact Hj].
Qed.

(** What [re.search] returns is a match, and the leftmost one. *)
Theorem search_Some ic r s mo :
  search ic r s = Some mo ->
  mo_start mo <= length s /\ sem ic r s (mo_start mo) (mo_end mo) /\
  forall i j, i < mo_start mo -> ~ sem ic r s i j.
Proof.
  unfold search. intros H. apply first_some_seq_least in H as (i & Hi & Hat & Hbefore).
  apply search_at_Some in Hat as [-> Hsem]; [|lia].
  split; [lia|]. split; [exact Hsem|].
  intros i' j Hlt. apply search_at_None; [lia|]. apply Hbefore. lia.
Qed.

(** ** Matching literal text, [.*] and [$] *)

(** A chain of literal characters followed by [r], the shape [compile]
    gives a pattern that starts with plain text. *)
Fixpoint lits (w : list ascii) (r : regex) : regex :=
  match w with
  | [] => r
  | a :: w' => Cat (Chr a) (lits w' r)
  end.

Lemma chr_eq_refl ic a : chr_eq ic a a = true.
Proof. unfold chr_eq. destruct ic; apply Ascii.eqb_refl. Qed.

Lemma nth_error_middle {A} (x : list A) (a : A) (y : list A) :
  nth_error (x ++ a :: y) (length x) = Some a.
Proof. rewrite nth_error_app2, Nat.sub_diag by lia. reflexivity. Qed.

Lemma sem_lits ic w r x y j :
  sem ic r (x ++ w ++ y) (length x + length w) j ->
  sem ic (lits w r) (x ++ w ++ y) (length x) j.
Proof.
  revert x. induction w as [|a w IH]; intros x H; simpl in *.
  - rewrite Nat.add_0_r in H. exact H.
  - exists (S (length x)). split.
    + exists a. split; [apply nth_error_middle|]. split; [apply chr_eq_refl | reflexivity].
    + specialize (IH (x ++ [a])). rewrite <- app_assoc, length_app, Nat.add_1_r in IH. simpl in IH.
      apply IH. replace (S (length x + length w)) with (length x + S (length w)) by lia. exact H.
Qed.

(** [.*] runs over any text without a newline. *)
Lemma sem_star_any ic x y z :
  ~ In newline y -> sem ic (Star Any) (x ++ y ++ z) (length x) (length x + length y).
Proof.
  revert x. induction y as [|a y IH]; intros x Hy; simpl.
  - rewrite Nat.add_0_r. constructor.
  - eapply (Relation_Operators.rt1n_trans _ _ _ (S (length x))).
    + exists a. split; [apply nth_error_middle|]. split; [|reflexivity].
      simpl. apply negb_true_iff, Ascii.eqb_neq. intros ->. apply Hy. left. reflexivity.
    + specialize (IH (x ++ [a])). rewrite <- app_assoc, length_app, Nat.add_1_r in IH. simpl in IH.
      replace (length x + S (length y)) with (S (length x + length y)) by lia.
      apply IH. intros H. apply Hy. right. exact H.
Qed.

Lemma sem_eol_end ic s : sem ic Eol s (length s) (length s).
Proof. simpl. split; [reflexivity|]. unfold eol_at. rewrite Nat.eqb_refl. reflexivity. Qed.

(** [re.search] with a compiling pattern finds nothing exactly when the
    pattern matches nowhere. *)
Lemma re_search_None pat r text ic :
  compile pat = Some r -> re_search pat text ic = inr None <-> ~ matches ic r (chars text).
Proof.
  intros Hc. unfold re_search. rewrite Hc. rewrite <- search_None_iff.
  split; [intros H; injection H as H; exact H | intros ->; reflexivity].
Qed.

(** ** [re.sub] *)

(** A match at [i]; when [adv] is set (the previous match was empty and
    ended at [i]) an empty match at [i] is refused, as [re]'s
    must-advance rule does. *)
Definition search_at_adv (ic : bool) (r : regex) (s : list ascii) (i : nat) (adv : bool)
  : option mobj :=
  if adv then
    match find (fun p => i <? fst p) (m ic r s i []) with
    | Some (j, c) => Some (MObj i j c)
    | None => None
    end
  else search_at ic r s i.

(** The leftmost match at or after [pos]. *)
Definition search_from (ic : bool) (r : regex) (s : list ascii) (pos : nat) (adv : bool)
  : option mobj :=
  first_some (fun i => search_at_adv ic r s i (adv && (i =? pos))) (seq pos (S (length s) - pos)).

(** Replace every match from [pos] on by [repl].  Each step moves [pos]
    forward or sets [adv], which makes the next step move forward, so
    [2 * length s + 2] steps are enough. *)
Fixpoint sub_loop (fuel : nat) (ic : bool) (r : regex) (repl s : list ascii) (pos : nat)
  (adv : bool) : list ascii :=
  match fuel with
  | O => skipn pos s
  | S f =>
      match search_from ic r s pos adv with
      | None => skipn pos s
      | Some mo =>
          firstn (mo_start mo - pos) (skipn pos s) ++ repl ++
          sub_loop f ic r repl s (mo_end mo) (mo_start mo =? mo_end mo)
      end
  end.

Definition sub (ic : bool) (r : regex) (repl s : list ascii) : list ascii :=
  sub_loop (2 * length s + 2) ic r repl s 0 false.

(** [re.sub(pattern, repl, text)] with a replacement without escapes. *)
Definition re_sub (pat repl text : string) (ic : bool) : res string :=
  match compile pat with
  | Some r => ret (of_chars (sub ic r (chars repl) (chars text)))
  | None => raise ReError
  end.

(** [match.group()]: the whole match as a Python string. *)
Definition match_str (mo : mobj) (text : string) : string :=
  of_chars (firstn (mo_end mo - mo_start mo) (skipn (mo_start mo) (chars text))).

(** [match.group(n)] as a Python string. *)
Definition group_str (mo : mobj) (n : nat) (text : string) : option string :=
  option_map of_chars (group mo n (chars text)).

(** ** [re.search] and [re.sub] raise only [re.error] *)

Lemma re_search_py pat text ic : py_exn (re_search pat text ic).
Proof. unfold re_search. destruct (compile pat); [exact I | discriminate]. Qed.

Lemma re_sub_py pat repl text ic : py_exn (re_sub pat repl text ic).
Proof. unfold re_sub. destruct (compile pat); [exact I | discriminate]. Qed.

(** ** [re.search] and [re.sub] on a compiled pattern *)

(** [re.search] is correct on every pattern it compiles: it returns
    [None] exactly when the pattern matches nowhere in the text, and
    otherwise a match of the declarative semantics that starts inside the
    text and is the leftmost one. *)
Theorem re_search_correct pat r text ic :
  compile pat = Some r ->
  (re_search pat text ic = inr None <-> ~ matches ic r (chars text)) /\
  (forall mo, re_search pat text ic = inr (Some mo) ->
     mo_start mo <= length (chars text) /\ sem ic r (chars text) (mo_start mo) (mo_end mo) /\
     forall i j, i < mo_start mo -> ~ sem ic r (chars text) i j).
Proof.
  intros Hc. split; [apply re_search_None, Hc|].
  intros mo. unfold re_search. rewrite Hc. intros H. injection H as H. apply search_Some, H.
Qed.

Lemma re_search_correct_witness :
  exists r, compile "Acct[:\s#]*(\d+)" = Some r /\
  (re_search "Acct[:\s#]*(\d+)" "x Acct: 42" true = inr None <-> ~ matches true r (chars "x Acct: 42")) /\
  (forall mo, re_search "Acct[:\s#]*(\d+)" "x Acct: 42" true = inr (Some mo) ->
     mo_start mo <= length (chars "x Acct: 42") /\
     sem true r (chars "x Acct: 42") (mo_start mo) (mo_end mo) /\
     forall i j, i < mo_start mo -> ~ sem true r (chars "x Acct: 42") i j).
Proof.
  destruct (compile "Acct[:\s#]*(\d+)") as [r|] eqn:E; [|vm_compute in E; discriminate].
  exists r. split; [reflexivity|]. exact (re_search_correct _ _ _ _ E).
Defined.

(** [re.sub] follows Python 3.7+ on empty matches: an empty match is
    replaced, also next to a non-empty one, and a match may not be empty
    right where the previous one ended ([re.sub('x*', '-', 'abxd')] is
    ['-a-b--d-']); runs of white space, tabs included, collapse to one
    space. *)
Example re_sub_python :
  re_sub "x*" "-" "abxd" false = inr "-a-b--d-"%string /\
  re_sub "\s+" " " ("a " ++ String (ascii_of_nat 9) " b  c")%string false = inr "a b c"%string /\
  re_sub "" "-" "ab" false = inr "-a-b-"%string.
Proof. vm_compute. repeat split. Qed.

End Re.

#[export] Hint Resolve Re.re_search_py Re.re_sub_py : pyhints.
