(* ===== verification/Rules.v ===== *)
(** * The rule engine: [CLASSIFICATION_RULES] and [classify_document]

    The rules of src/scripts/classify_documents.py (lines 44-231) are
    transcribed verbatim, their pattern strings included, and
    [classify_document] (lines 249-277) is the loop over them.  The
    abstract specification [classify_spec] says what the loop computes
    (the first rule one of whose patterns matches, else the default), and
    [classify_document_refines] proves the loop implements it. *)

From Stdlib Require Import String Ascii List Arith Lia Bool.
From S2P Require Import Prelude Regex.
Import ListNotations.
Open Scope py_scope.
Open Scope string_scope.

Module Rules.

(** A rule: its category, its access level and its two pattern lists
    ([rule['patterns']['path']], [rule['patterns']['name']]; every rule of
    the table has both keys, so [.get(..., [])] never takes its default). *)
Record rule := mk_rule {
  category : string;
  access_level : string;
  path_patterns : list string;
  name_patterns : list string
}.

(** [classify_documents.py], lines 46-53. *)
Definition rule_owner_statement : rule :=
  {| category := "owner_statement"; access_level := "owner_only";
     path_patterns := ["/Statement/"; "/Statements/"; "/Billing/"];
     name_patterns := ["^\d+.*statement"; "statement.*\.pdf$"; "^R\d+L\d+"] |}.

(** [classify_documents.py], lines 54-61. *)
Definition rule_owner_ledger : rule :=
  {| category := "owner_ledger"; access_level := "owner_only";
     path_patterns := ["/Ledger/"; "/Account History/"];
     name_patterns := ["ledger"; "account.*history"] |}.

(** [classify_documents.py], lines 62-69. *)
Definition rule_owner_letter : rule :=
  {| category := "owner_letter"; access_level := "owner_only";
     path_patterns := ["/Owner Letters/"; "/Homeowner Letters/"];
     name_patterns := ["letter.*to.*"; "demand.*letter"; "collection.*letter"; "notice.*to.*owner"] |}.

(** [classify_documents.py], lines 70-77. *)
Definition rule_owner_arc_submission : rule :=
  {| category := "owner_arc_submission"; access_level := "arc_review";
     path_patterns := ["/ARC.*Submission/"; "/ARC.*Application/"; "/Architectural.*Request/"];
     name_patterns := ["arc.*application"; "arc.*request"; "architectural.*submission"] |}.

(** [classify_documents.py], lines 80-87. *)
Definition rule_governing_ccr : rule :=
  {| category := "governing_ccr"; access_level := "community_public";
     path_patterns := ["/Govern/"; "/Governing/"; "/CCR/"];
     name_patterns := ["ccr"; "cc&r"; "covenants?"; "declaration"; "deed.*restriction"; "restrictions"] |}.

(** [classify_documents.py], lines 88-95. *)
Definition rule_governing_bylaws : rule :=
  {| category := "governing_bylaws"; access_level := "community_public";
     path_patterns := ["/Govern/"; "/Governing/"; "/Bylaws/"];
     name_patterns := ["bylaw"; "by-law"; "by\s+law"] |}.

(** [classify_documents.py], lines 96-103. *)
Definition rule_governing_rules : rule :=
  {| category := "governing_rules"; access_level := "community_public";
     path_patterns := ["/Govern/"; "/Governing/"; "/Rules/"];
     name_patterns := ["rules?.*regulation"; "regulation"; "policies"; "policy(?!.*insurance)"; "guidelines?(?!.*arc)"] |}.

(** [classify_documents.py], lines 104-111. *)
Definition rule_governing_arc_guidelines : rule :=
  {| category := "governing_arc_guidelines"; access_level := "community_public";
     path_patterns := ["/ARC/"; "/Architectural/"; "/Design/"];
     name_patterns := ["arc.*guide"; "architectural.*guide"; "architectural.*standard"; "design.*guide"; "design.*standard"] |}.

(** [classify_documents.py], lines 114-121. *)
Definition rule_community_minutes : rule :=
  {| category := "community_minutes"; access_level := "community_public";
     path_patterns := ["/Minutes/"; "/Meeting Minutes/"; "/Board Meeting/"];
     name_patterns := ["minutes"; "meeting.*notes"; "board.*meeting"] |}.

(** [classify_documents.py], lines 122-129. *)
Definition rule_community_newsletter : rule :=
  {| category := "community_newsletter"; access_level := "community_public";
     path_patterns := ["/Newsletter/"; "/Communications/"];
     name_patterns := ["newsletter"; "bulletin"; "community.*update"] |}.

(** [classify_documents.py], lines 130-137. *)
Definition rule_community_announcement : rule :=
  {| category := "community_announcement"; access_level := "community_public";
     path_patterns := ["/Notices/"; "/Announcements/"];
     name_patterns := ["announcement"; "notice(?!.*violation)"; "alert"; "advisory"] |}.

(** [classify_documents.py], lines 138-145. *)
Definition rule_community_directory : rule :=
  {| category := "community_directory"; access_level := "board_only";
     path_patterns := ["/Directory/"; "/Contact/"];
     name_patterns := ["directory"; "contact.*list"; "phone.*list"; "resident.*list"] |}.

(** [classify_documents.py], lines 148-156. *)
Definition rule_board_financial : rule :=
  {| category := "board_financial"; access_level := "board_only";
     path_patterns := ["/Financial/"; "/Budget/"; "/Audit/"; "/Reserve/"];
     name_patterns := ["budget"; "financial.*statement"; "balance.*sheet"; "income.*statement"; "audit"; "reserve.*study"; "reserve.*analysis"; "bank.*statement"] |}.

(** [classify_documents.py], lines 157-164. *)
Definition rule_board_delinquency : rule :=
  {| category := "board_delinquency"; access_level := "board_only";
     path_patterns := ["/Delinquency/"; "/Collections/"; "/Aging/"];
     name_patterns := ["delinquen"; "aging.*report"; "collection.*report"; "past.*due"] |}.

(** [classify_documents.py], lines 165-172. *)
Definition rule_board_insurance : rule :=
  {| category := "board_insurance"; access_level := "board_only";
     path_patterns := ["/Insurance/"];
     name_patterns := ["insurance.*polic"; "certificate.*insurance"; "coi"; "coverage"; "liability.*policy"] |}.

(** [classify_documents.py], lines 173-180. *)
Definition rule_board_contracts : rule :=
  {| category := "board_contracts"; access_level := "board_only";
     path_patterns := ["/Contract/"; "/Agreement/"; "/Service Agreement/"];
     name_patterns := ["contract"; "agreement(?!.*arc)"; "service.*contract"; "maintenance.*agreement"] |}.

(** [classify_documents.py], lines 181-188. *)
Definition rule_board_legal : rule :=
  {| category := "board_legal"; access_level := "board_only";
     path_patterns := ["/Legal/"; "/Attorney/"; "/Litigation/"];
     name_patterns := ["legal"; "attorney"; "lawsuit"; "litigation"; "lien(?!.*release)"; "judgment"; "court"] |}.

(** [classify_documents.py], lines 191-198. *)
Definition rule_staff_bids : rule :=
  {| category := "staff_bids"; access_level := "staff_only";
     path_patterns := ["/Bid/"; "/Bids/"; "/Proposal/"; "/Proposals/"; "/Quote/"];
     name_patterns := ["bid"; "proposal"; "estimate"; "quote"; "pricing"] |}.

(** [classify_documents.py], lines 199-206. *)
Definition rule_staff_violations : rule :=
  {| category := "staff_violations"; access_level := "staff_only";
     path_patterns := ["/Violation/"; "/Compliance/"];
     name_patterns := ["violation"; "compliance.*notice"; "warning.*letter"; "fine.*notice"] |}.

(** [classify_documents.py], lines 207-214. *)
Definition rule_staff_work_orders : rule :=
  {| category := "staff_work_orders"; access_level := "staff_only";
     path_patterns := ["/Work.*Order/"; "/Maintenance.*Request/"; "/Service.*Request/"];
     name_patterns := ["work.*order"; "service.*request"; "maintenance.*request"; "repair.*request"] |}.

(** [classify_documents.py], lines 215-222. *)
Definition rule_staff_correspondence : rule :=
  {| category := "staff_correspondence"; access_level := "staff_only";
     path_patterns := ["/Internal/"; "/Staff.*Notes/"; "/Correspondence/"];
     name_patterns := ["internal.*memo"; "staff.*note"; "correspondence(?!.*owner)"] |}.

(** [classify_documents.py], lines 223-230. *)
Definition rule_staff_vendor : rule :=
  {| category := "staff_vendor"; access_level := "staff_only";
     path_patterns := ["/Vendor/"; "/W9/"; "/W-9/"];
     name_patterns := ["w-?9"; "vendor.*info"; "vendor.*contact"; "vendor.*setup"] |}.

(** [CLASSIFICATION_RULES], lines 44-231: order matters, first match wins. *)
Definition CLASSIFICATION_RULES : list rule :=
  [rule_owner_statement;
   rule_owner_ledger;
   rule_owner_letter;
   rule_owner_arc_submission;
   rule_governing_ccr;
   rule_governing_bylaws;
   rule_governing_rules;
   rule_governing_arc_guidelines;
   rule_community_minutes;
   rule_community_newsletter;
   rule_community_announcement;
   rule_community_directory;
   rule_board_financial;
   rule_board_delinquency;
   rule_board_insurance;
   rule_board_contracts;
   rule_board_legal;
   rule_staff_bids;
   rule_staff_violations;
   rule_staff_work_orders;
   rule_staff_correspondence;
   rule_staff_vendor].

(** The inner loops of [classify_document] (lines 261-271): does one of
    the patterns [re.search] the text, with [re.IGNORECASE]; the first
    hit breaks out of the loop. *)
Fixpoint any_search (pats : list string) (text : string) : res bool :=
  match pats with
  | [] => ret false
  | p :: ps =>
      mo <- Re.re_search p text true ;;
      match mo with
      | Some _ => ret true
      | None => any_search ps text
      end
  end.

(** One iteration of the rule loop (lines 258-271): the path patterns,
    and the name patterns only if no path pattern matched. *)
Definition rule_matches (r : rule) (path_lower name_lower : string) : res bool :=
  matched <- any_search (path_patterns r) path_lower ;;
  if matched then ret true else any_search (name_patterns r) name_lower.

(** The rule loop (lines 257-277). *)
Fixpoint classify_rules (rules : list rule) (path_lower name_lower : string)
  : res (string * string) :=
  match rules with
  | [] => ret ("uncategorized", "staff_only")%string
  | r :: rs =>
      matched <- rule_matches r path_lower name_lower ;;
      if matched then ret (category r, access_level r)
      else classify_rules rs path_lower name_lower
  end.

(** [x.lower() if x else ''] (lines 254-255). *)
Definition lower_or_empty (x : option string) : string :=
  match x with
  | Some s => if truthy x then str_lower s else ""
  | None => ""
  end.

(** [classify_document(path, name)], lines 249-277. *)
Definition classify_document (path name : option string) : res (string * string) :=
  classify_rules CLASSIFICATION_RULES (lower_or_empty path) (lower_or_empty name).

(** ** Abstract specification *)

(** A pattern of the table compiles and matches somewhere in the text. *)
Definition pat_matches (p text : string) : Prop :=
  exists r, Re.compile p = Some r /\ Re.matches true r (chars text).

(** A rule applies: one of its path patterns matches the path or one of
    its name patterns matches the name (a flat "or"). *)
Definition rule_hits (r : rule) (pl nl : string) : Prop :=
  Exists (fun p => pat_matches p pl) (path_patterns r) \/
  Exists (fun p => pat_matches p nl) (name_patterns r).

Definition default_result : string * string := ("uncategorized", "staff_only").

(** What classification promises: the category and access level of the
    first rule that applies, or the default when none applies. *)
Definition classify_spec (rules : list rule) (pl nl : string) (out : string * string) : Prop :=
  (exists pre r post, rules = (pre ++ r :: post)%list /\
     Forall (fun r' => ~ rule_hits r' pl nl) pre /\ rule_hits r pl nl /\
     out = (category r, access_level r)) \/
  (Forall (fun r => ~ rule_hits r pl nl) rules /\ out = default_result).

(** ** Decision procedures and their correctness *)

Definition compiles (p : string) : bool :=
  match Re.compile p with Some _ => true | None => false end.

Definition rule_ok (r : rule) : bool := forallb compiles (path_patterns r ++ name_patterns r).

Definition pat_hit (p text : string) : bool :=
  match Re.compile p with
  | Some r => match Re.search true r (chars text) with Some _ => true | None => false end
  | None => false
  end.

Definition rule_hit (r : rule) (pl nl : string) : bool :=
  existsb (fun p => pat_hit p pl) (path_patterns r) || existsb (fun p => pat_hit p nl) (name_patterns r).

Lemma pat_hit_iff p text : pat_hit p text = true <-> pat_matches p text.
Proof.
  unfold pat_hit, pat_matches. destruct (Re.compile p) as [r|]; split.
  - intros H. exists r. split; [reflexivity|].
    destruct (Re.search true r (chars text)) as [mo|] eqn:E; [|discriminate].
    apply Re.search_Some in E as (Hs & Hsem & _). exists (Re.mo_start mo), (Re.mo_end mo). auto.
  - intros (r' & E & Hm). injection E as <-.
    destruct (Re.search true r (chars text)) eqn:E; [reflexivity|].
    apply Re.search_None_iff in E. contradiction.
  - discriminate.
  - intros (r' & E & _). discriminate.
Qed.

Lemma existsb_pat_hit pats text :
  existsb (fun p => pat_hit p text) pats = true <-> Exists (fun p => pat_matches p text) pats.
Proof.
  rewrite existsb_exists, Exists_exists. split.
  - intros (p & Hin & H). exists p. split; [exact Hin | apply pat_hit_iff, H].
  - intros (p & Hin & H). exists p. split; [exact Hin | apply pat_hit_iff, H].
Qed.

Lemma rule_hit_iff r pl nl : rule_hit r pl nl = true <-> rule_hits r pl nl.
Proof.
  unfold rule_hit, rule_hits. rewrite orb_true_iff, !existsb_pat_hit. reflexivity.
Qed.

Lemma rule_hit_false r pl nl : rule_hit r pl nl = false <-> ~ rule_hits r pl nl.
Proof. rewrite <- rule_hit_iff. destruct (rule_hit r pl nl); split; congruence. Qed.

#[local] Hint Resolve -> rule_hit_iff : pyhints.
#[local] Hint Resolve -> rule_hit_false : pyhints.

(** The inner loop decides whether one of the patterns matches, and
    does not raise when every pattern compiles. *)
Lemma any_search_hit pats text :
  forallb compiles pats = true -> any_search pats text = inr (existsb (fun p => pat_hit p text) pats).
Proof.
  induction pats as [|p ps IH]; simpl; [reflexivity|].
  intros Hok. apply andb_true_iff in Hok as [Hp Hps].
  unfold Re.re_search, compiles, pat_hit in *. destruct (Re.compile p) as [r|]; [|discriminate].
  simpl. destruct (Re.search true r (chars text)); [reflexivity | exact (IH Hps)].
Qed.

(** Path patterns first, then name patterns: the staged loop decides the
    flat "or" of [rule_hits]. *)
Lemma rule_matches_hit r pl nl :
  rule_ok r = true -> rule_matches r pl nl = inr (rule_hit r pl nl).
Proof.
  unfold rule_ok, rule_matches, rule_hit. rewrite forallb_app. intros Hok.
  apply andb_true_iff in Hok as [Hp Hn].
  rewrite (any_search_hit _ _ Hp). simpl.
  destruct (existsb _ (path_patterns r)); [reflexivity|]. apply any_search_hit, Hn.
Qed.

Section Engine.
Variable rules : list rule.
Hypothesis rules_ok : forallb rule_ok rules = true.

Lemma classify_rules_total pl nl : exists out, classify_rules rules pl nl = inr out.
Proof.
  induction rules as [|r rs IH]; simpl in *; [eauto|].
  apply andb_true_iff in rules_ok as [Hr Hrs].
  rewrite (rule_matches_hit _ _ _ Hr). simpl. destruct (rule_hit r pl nl); eauto.
Qed.

(** The rule loop implements the first-match specification. *)
Lemma classify_rules_spec pl nl out :
  classify_rules rules pl nl = inr out <-> classify_spec rules pl nl out.
Proof.
  unfold classify_spec.
  induction rules as [|r rs IH]; simpl in *.
  - split.
    + intros H. inv H. right. split; [constructor | reflexivity].
    + intros [(pre & r & post & E & _)|[_ ->]]; [destruct pre; discriminate | reflexivity].
  - apply andb_true_iff in rules_ok as [Hr Hrs]. specialize (IH Hrs).
    rewrite (rule_matches_hit _ _ _ Hr). simpl.
    destruct (rule_hit r pl nl) eqn:Hhit; split.
    + intros H. inv H. left. exists [], r, rs. repeat split; auto with pyhints.
    + intros [(pre & r' & post & E & Hpre & Hr' & ->)|[Hall _]].
      * destruct pre as [|r0 pre]; simpl in E; inv E; [reflexivity|].
        inv Hpre. exfalso. auto with pyhints.
      * inv Hall. exfalso. auto with pyhints.
    + intros H. apply IH in H as [(pre & r' & post & E & Hpre & Hr' & ->)|[Hall ->]].
      * left. exists (r :: pre), r', post. subst. repeat split; auto with pyhints.
      * right. split; [constructor; auto with pyhints | reflexivity].
    + intros H. apply IH.
      destruct H as [(pre & r' & post & E & Hpre & Hr' & ->)|[Hall ->]].
      * destruct pre as [|r0 pre]; simpl in E; inv E.
        { exfalso. apply rule_hit_false in Hhit. contradiction. }
        inv Hpre. left. eauto 7.
      * inv Hall. right. auto.
Qed.
End Engine.

(** Every pattern of [CLASSIFICATION_RULES] compiles. *)
Lemma CLASSIFICATION_RULES_ok : forallb rule_ok CLASSIFICATION_RULES = true.
Proof. vm_compute. reflexivity. Qed.

(** ** The classifier of the repository *)

Lemma categories_NoDup : NoDup (map category CLASSIFICATION_RULES).
Proof.
  simpl. repeat (constructor; [simpl; intros H; repeat (destruct H as [H|H]; [discriminate H|]); exact H|]).
  constructor.
Qed.

Lemma NoDup_map_nth_error {A B} (f : A -> B) l i j a b :
  NoDup (map f l) -> nth_error l i = Some a -> nth_error l j = Some b -> f a = f b -> i = j.
Proof.
  intros Hnd Ha Hb E. apply (proj1 (NoDup_nth_error _) Hnd).
  - rewrite length_map. apply nth_error_Some. congruence.
  - rewrite !nth_error_map, Ha, Hb. simpl. congruence.
Qed.

Lemma nth_error_split_at {A} (l pre post : list A) (r : A) :
  l = (pre ++ r :: post)%list -> nth_error l (length pre) = Some r.
Proof. intros ->. rewrite nth_error_app2, Nat.sub_diag by lia. reflexivity. Qed.

Lemma classify_document_spec path name out :
  classify_document path name = inr out <->
  classify_spec CLASSIFICATION_RULES (lower_or_empty path) (lower_or_empty name) out.
Proof. apply classify_rules_spec, CLASSIFICATION_RULES_ok. Qed.

Lemma classify_document_py path name : py_exn (classify_document path name).
Proof.
  destruct (classify_rules_total _ CLASSIFICATION_RULES_ok (lower_or_empty path) (lower_or_empty name))
    as [out H].
  unfold classify_document. rewrite H. exact I.
Qed.

(** C1: [classify_document] implements the first-match specification: its
    result is the category and access level of the first rule of
    [CLASSIFICATION_RULES] one of whose patterns matches the lower-cased
    path or name, or ("uncategorized", "staff_only") when none does. *)
Theorem classify_document_refines path name out :
  classify_document path name = inr out <->
  classify_spec CLASSIFICATION_RULES (lower_or_empty path) (lower_or_empty name) out.
Proof. apply classify_rules_spec, CLASSIFICATION_RULES_ok. Qed.

(** C3: [classify_document] never raises (every pattern of the table
    compiles) and so gives every document exactly one category and one
    access level. *)
Theorem classify_document_total path name :
  exists c a, classify_document path name = inr (c, a).
Proof.
  destruct (classify_rules_total _ CLASSIFICATION_RULES_ok (lower_or_empty path) (lower_or_empty name))
    as [[c a] H].
  exists c, a. exact H.
Qed.

(** the default ("uncategorized", "staff_only") is returned exactly
    when no rule applies to the document. *)
Theorem classify_document_default path name :
  classify_document path name = inr default_result <->
  Forall (fun r => ~ rule_hits r (lower_or_empty path) (lower_or_empty name)) CLASSIFICATION_RULES.
Proof.
  rewrite classify_document_spec. split.
  - intros [(pre & r & post & E & _ & _ & Hout)|[H _]]; [|exact H].
    exfalso. apply nth_error_split_at in E.
    apply nth_error_In in E. unfold default_result in Hout. injection Hout as Hc _.
    assert (Hall : Forall (fun r => category r <> "uncategorized") CLASSIFICATION_RULES)
      by (vm_compute; repeat constructor; discriminate).
    rewrite Forall_forall in Hall. exact (Hall r E (eq_sym Hc)).
  - intros H. right. split; [exact H | reflexivity].
Qed.

(** C2: rule precedence: when two rules both apply, the later one never
    decides the result. *)
Theorem rule_precedence path name k1 k2 r1 r2 :
  k1 < k2 ->
  nth_error CLASSIFICATION_RULES k1 = Some r1 ->
  nth_error CLASSIFICATION_RULES k2 = Some r2 ->
  rule_hits r1 (lower_or_empty path) (lower_or_empty name) ->
  rule_hits r2 (lower_or_empty path) (lower_or_empty name) ->
  classify_document path name <> inr (category r2, access_level r2).
Proof.
  intros Hlt H1 H2 Hit1 Hit2 Hc. apply classify_document_spec in Hc.
  destruct Hc as [(pre & r & post & E & Hpre & _ & Hout)|[Hall _]].
  - injection Hout as Hcat _.
    pose proof (nth_error_split_at _ _ _ _ E) as Hr.
    pose proof (NoDup_map_nth_error _ _ _ _ _ _ categories_NoDup Hr H2 (eq_sym Hcat)) as Hk.
    subst k2. rewrite E, nth_error_app1 in H1 by exact Hlt.
    apply nth_error_In in H1. rewrite Forall_forall in Hpre. exact (Hpre r1 H1 Hit1).
  - rewrite Forall_forall in Hall. apply (Hall r2); [eapply nth_error_In; eauto | exact Hit2].
Qed.

Lemma rule_precedence_witness :
  classify_document (Some "/Minutes/") (Some "Resident Directory.pdf")
  <> inr (category rule_community_directory, access_level rule_community_directory).
Proof.
  apply (rule_precedence _ _ 8 11 rule_community_minutes rule_community_directory).
  - lia.
  - reflexivity.
  - reflexivity.
  - apply rule_hit_iff. vm_compute. reflexivity.
  - apply rule_hit_iff. vm_compute. reflexivity.
Defined.

Definition access_levels : list string :=
  ["owner_only"; "arc_review"; "community_public"; "board_only"; "staff_only"].

(** C4: every access level [classify_document] returns is one of the five
    levels of the closed enumeration. *)
Theorem classify_access_closed path name c a :
  classify_document path name = inr (c, a) -> In a access_levels.
Proof.
  intros H. apply classify_document_spec in H.
  destruct H as [(pre & r & post & E & _ & _ & Hout)|[_ Hout]].
  - injection Hout as _ ->. apply nth_error_split_at, nth_error_In in E.
    assert (Hall : forallb (fun r => existsb (String.eqb (access_level r)) access_levels)
                     CLASSIFICATION_RULES = true) by (vm_compute; reflexivity).
    rewrite forallb_forall in Hall. apply Hall, existsb_exists in E as (a' & Hin & Ha).
    apply String.eqb_eq in Ha. rewrite Ha. exact Hin.
  - injection Hout as _ ->. simpl. auto 6.
Qed.

Lemma classify_access_closed_witness : In "board_only" access_levels.
Proof.
  apply (classify_access_closed (Some "/Directory/") (Some "Resident Directory.pdf")
           "community_directory").
  vm_compute. reflexivity.
Defined.

(** the example scenarios of the specification (section 8, 1 to 4):
    a budget under /Financial/Budget/ is board_financial; board meeting
    minutes are public community_minutes; a resident directory is
    community_directory with board_only access; a file matching nothing
    falls back to ("uncategorized", "staff_only"). *)
Example classify_spec_scenarios :
  classify_document (Some "/Financial/Budget/2024.pdf") (Some "2024 Operating Budget.pdf")
    = inr ("board_financial", "board_only") /\
  classify_document (Some "/Minutes/2024/") (Some "January Board Meeting Minutes.pdf")
    = inr ("community_minutes", "community_public") /\
  classify_document (Some "/Directory/") (Some "Resident Directory.pdf")
    = inr ("community_directory", "board_only") /\
  classify_document (Some "") (Some "random_file.pdf") = inr default_result.
Proof. vm_compute. repeat split. Qed.

(** ** Substring patterns that misroute documents *)

Lemma pat_matches_sem p r text i j :
  Re.compile p = Some r -> i <= length (chars text) -> Re.sem true r (chars text) i j ->
  pat_matches p text.
Proof. intros Hc Hi Hs. exists r. split; [exact Hc|]. exists i, j. auto. Qed.

Lemma sem_word ic w a x y :
  Re.sem ic (Re.lits w (Re.Chr a)) (x ++ w ++ a :: y)%list (length x) (length x + length w + 1).
Proof.
  apply Re.sem_lits. simpl. exists a. split.
  - rewrite app_assoc. replace (length x + length w) with (length (x ++ w)) by apply length_app.
    apply Re.nth_error_middle.
  - split; [apply Re.chr_eq_refl | lia].
Qed.

Lemma length_app_le {A} (x y : list A) : length x <= length (x ++ y).
Proof. rewrite length_app. lia. Qed.

(** C25: a document whose lower-cased name contains "ccr" (as in
    "accrued" or "accrual") is published as governing_ccr with
    community_public access whatever its path, e.g. under /Financial/,
    unless one of the four owner rules claims it first. *)
Theorem ccr_substring_public path name x y :
  chars (lower_or_empty name) = (x ++ chars "ccr" ++ y)%list ->
  Forall (fun r => ~ rule_hits r (lower_or_empty path) (lower_or_empty name))
         (firstn 4 CLASSIFICATION_RULES) ->
  classify_document path name = inr ("governing_ccr", "community_public").
Proof.
  intros Hn Hpre. apply classify_document_spec. left.
  exists (firstn 4 CLASSIFICATION_RULES), rule_governing_ccr, (skipn 5 CLASSIFICATION_RULES).
  split; [reflexivity|]. split; [exact Hpre|]. split; [|reflexivity].
  right. apply Exists_cons_hd.
  apply (pat_matches_sem "ccr" (Re.lits (chars "cc") (Re.Chr "r")) _ (length x) (length x + 3));
    [reflexivity | rewrite Hn; apply length_app_le|].
  rewrite Hn. replace (length x + 3) with (length x + length (chars "cc") + 1) by (simpl; lia).
  exact (sem_word true (chars "cc") "r" x y).
Qed.

(** The board's own finance documents: "Accrued Interest Report.xlsx"
    under /Financial/2023/ becomes public. *)
Lemma ccr_substring_public_witness :
  classify_document (Some "/Financial/2023/") (Some "Accrued Interest Report.xlsx")
  = inr ("governing_ccr", "community_public").
Proof.
  apply (ccr_substring_public _ _ (chars "a") (chars "ued interest report.xlsx")).
  - vm_compute. reflexivity.
  - assert (H : forallb (fun r => negb (rule_hit r "/financial/2023/" "accrued interest report.xlsx"))
                  (firstn 4 CLASSIFICATION_RULES) = true) by (vm_compute; reflexivity).
    apply Forall_forall. intros r Hr. apply rule_hit_false.
    rewrite forallb_forall in H. apply H, negb_true_iff in Hr. exact Hr.
Defined.

(** C26: any name ending in ".pdf" that contains "statement" earlier on
    the same line is an owner_statement with owner_only access whatever
    its path: the board's "Financial Statement.pdf", "Income
    Statement.pdf" or "Bank Statement.pdf" never reach board_financial,
    whose name patterns [financial.*statement], [income.*statement] and
    [bank.*statement] are dead for PDF files. *)
Theorem statement_pdf_owner_only path name x y :
  chars (lower_or_empty name) = (x ++ chars "statement" ++ y ++ chars ".pdf")%list ->
  ~ In newline y ->
  classify_document path name = inr ("owner_statement", "owner_only").
Proof.
  intros Hn Hy. apply classify_document_spec. left.
  exists [], rule_owner_statement, (tl CLASSIFICATION_RULES).
  split; [reflexivity|]. split; [constructor|]. split; [|reflexivity].
  right. apply Exists_cons_tl, Exists_cons_hd.
  apply (pat_matches_sem _ (Re.lits (chars "statement")
           (Re.Cat (Re.Star Re.Any) (Re.lits (chars ".pd") (Re.Cat (Re.Chr "f") Re.Eol))))
           _ (length x) (length (chars (lower_or_empty name))));
    [reflexivity | rewrite Hn; apply length_app_le|].
  rewrite Hn. apply Re.sem_lits. set (W := chars "statement").
  exists (length x + length W + length y). split.
  - rewrite <- (length_app x W), app_assoc. apply Re.sem_star_any, Hy.
  - replace (x ++ W ++ y ++ chars ".pdf")%list with (((x ++ W) ++ y) ++ chars ".pd" ++ ["f"%char])%list
      by (rewrite <- !app_assoc; reflexivity).
    replace (length x + length W + length y) with (length ((x ++ W) ++ y)%list)
      by (rewrite !length_app; lia).
    set (z := ((x ++ W) ++ y)%list). apply Re.sem_lits.
    exists (S (length z + length (chars ".pd"))). split.
    + exists "f"%char. split; [|split; [apply Re.chr_eq_refl | reflexivity]].
      rewrite app_assoc, <- length_app. apply Re.nth_error_middle.
    + replace (S (length z + length (chars ".pd"))) with (length (z ++ chars ".pd" ++ ["f"%char])%list)
        by (rewrite !length_app; simpl; lia).
      apply Re.sem_eol_end.
Qed.

Lemma statement_pdf_owner_only_witness :
  classify_document (Some "/Financial/") (Some "Bank Statement.pdf")
  = inr ("owner_statement", "owner_only").
Proof.
  apply (statement_pdf_owner_only _ _ (chars "bank ") []).
  - vm_compute. reflexivity.
  - intros [].
Defined.

(** the owner_letter pattern [letter.*to.*] also matches "newsletter"
    followed by any word containing "to" (as "October"): a community
    newsletter filed under /Newsletter/ is classified owner_only, and a
    resident directory filed under /Minutes/ is published, since earlier
    rules take precedence over the path of the document. *)
Example precedence_misroutes :
  classify_document (Some "/Newsletter/2024/") (Some "Newsletter October 2024.pdf")
    = inr ("owner_letter", "owner_only") /\
  classify_document (Some "/Minutes/") (Some "Resident Directory.pdf")
    = inr ("community_minutes", "community_public").
Proof. vm_compute. split; reflexivity. Qed.

End Rules.

#[export] Hint Resolve Rules.classify_document_py : pyhints.
