(* ===== verification/Extract.v ===== *)
(** * The metadata extractors

    [COMMUNITY_PATTERNS] and [extract_community_name] (lines 233-294 of
    src/scripts/classify_documents.py), [OWNER_ACCOUNT_PATTERNS] and
    [extract_owner_account] (lines 241-306): first-match searches with a
    capturing group, the community name normalised with [str.replace],
    [re.sub] and [str.strip]. *)

From Stdlib Require Import String Ascii List Arith Lia Bool.
From S2P Require Import Prelude Regex.
Import ListNotations.
Open Scope py_scope.
Open Scope string_scope.

Module Extract.

(** [COMMUNITY_PATTERNS], lines 234-239. *)
Definition COMMUNITY_PATTERNS : list string :=
  ["/(?:Round Rock|North Austin|South Austin) Office/([^/]+)/";
   "/sites/AssociationDocs/([^/]+)/"].

(** [OWNER_ACCOUNT_PATTERNS], lines 242-246. *)
Definition OWNER_ACCOUNT_PATTERNS : list string :=
  ["^(R\d+L\d+)"; "Account[:\s#]*(\d+)"; "Acct[:\s#]*(\d+)"].

(** [for pattern in patterns: match = re.search(pattern, text,
    re.IGNORECASE); if match: return k(match)]; [None] after the loop. *)
Fixpoint first_match {A} (pats : list string) (text : string) (k : Re.mobj -> res A)
  : res (option A) :=
  match pats with
  | [] => ret None
  | p :: ps =>
      mo <- Re.re_search p text true ;;
      match mo with
      | Some mo' => a <- k mo' ;; ret (Some a)
      | None => first_match ps text k
      end
  end.

(** [match.group(1)]: a group that took no part in the match is [None],
    and calling a string method on it fails. *)
Definition group1 (mo : Re.mobj) (text : string) : res string :=
  match Re.group_str mo 1 text with
  | Some g => ret g
  | None => raise TypeError
  end.

(** The clean-up of lines 288-291: [%20] to a space, runs of white space
    to one space, then [strip()]. *)
Definition clean_community (community : string) : res string :=
  let community := str_replace community "%20" " " in
  community <- Re.re_sub "\s+" " " community false ;;
  ret (str_strip community).

(** [extract_community_name(path)], lines 280-294. *)
Definition extract_community_name (path : option string) : res (option string) :=
  match path with
  | Some p =>
      if truthy path then
        first_match COMMUNITY_PATTERNS p (fun mo => g <- group1 mo p ;; clean_community g)
      else ret None
  | None => ret None
  end.

(** [text = f"{name} {path}" if path else name] (line 299). *)
Definition owner_text (name path : option string) : option string :=
  match path with
  | Some p => if truthy path then Some (py_fmt name ++ " " ++ p) else name
  | None => name
  end.

(** [extract_owner_account(name, path)], lines 297-306; [re.search] on
    [None] raises [TypeError]. *)
Definition extract_owner_account (name path : option string) : res (option string) :=
  match owner_text name path with
  | Some text => first_match OWNER_ACCOUNT_PATTERNS text (fun mo => group1 mo text)
  | None => raise TypeError
  end.

(** ** The first-match loop *)

Lemma first_match_Some {A} pats text (k : Re.mobj -> res A) a :
  first_match pats text k = inr (Some a) -> exists mo, k mo = inr a.
Proof.
  induction pats as [|p ps IH]; simpl; [discriminate|]. intros H. unbind.
  destruct a0 as [mo|]; [|exact (IH H)]. unbind. injection H as <-. eauto.
Qed.

Lemma first_match_None {A} pats text (k : Re.mobj -> res A) :
  Forall (fun p => Re.compile p <> None) pats ->
  first_match pats text k = inr None <->
  Forall (fun p => forall r, Re.compile p = Some r -> ~ Re.matches true r (chars text)) pats.
Proof.
  induction pats as [|p ps IH]; simpl; intros Hc; [split; auto|].
  inv Hc. destruct (Re.compile p) as [r|] eqn:Er; [|congruence].
  pose proof (Re.re_search_None p r text true Er) as Hn.
  unfold Re.re_search in *. rewrite Er in *. simpl.
  destruct (Re.search true r (chars text)) as [mo|] eqn:Es; split.
  - destruct (k mo); simpl; discriminate.
  - intros Hall. inv Hall. exfalso.
    apply Re.search_Some in Es as (Hle & Hsem & _).
    match goal with H : forall r', _ -> ~ Re.matches _ _ _ |- _ => apply (H r Er) end.
    exists (Re.mo_start mo), (Re.mo_end mo). auto.
  - intros H. constructor; [|apply IH; assumption].
    intros r' Er'. rewrite Er in Er'. injection Er' as <-. apply Hn. reflexivity.
  - intros Hall. inv Hall. apply IH; assumption.
Qed.

Lemma COMMUNITY_PATTERNS_compile : Forall (fun p => Re.compile p <> None) COMMUNITY_PATTERNS.
Proof. repeat constructor; vm_compute; discriminate. Qed.

Lemma first_match_py {A} pats text (k : Re.mobj -> res A) :
  (forall mo, py_exn (k mo)) -> py_exn (first_match pats text k).
Proof. intros Hk. induction pats as [|p ps IH]; simpl; pyexn. Qed.

Lemma extract_community_name_py path : py_exn (extract_community_name path).
Proof.
  unfold extract_community_name, clean_community, group1.
  destruct path; [destruct (truthy _)|]; pyexn; apply first_match_py; pyexn.
Qed.

Lemma extract_owner_account_py name path : py_exn (extract_owner_account name path).
Proof. unfold extract_owner_account, group1. destruct (owner_text name path); pyexn; apply first_match_py; pyexn. Qed.

(** ** The only exception of the extractors

    Every pattern the extractors use compiles, so [re.search] and
    [re.sub] never raise: the only exception left is [TypeError], from a
    group that took no part in the match or a [None] text. *)

Lemma first_match_type_error {A} pats text (k : Re.mobj -> res A) e :
  Forall (fun p => Re.compile p <> None) pats ->
  (forall mo e', k mo = inl e' -> e' = TypeError) ->
  first_match pats text k = inl e -> e = TypeError.
Proof.
  intros Hc Hk. induction Hc as [|p ps Hp _ IH]; simpl; [discriminate|].
  unfold Re.re_search. destruct (Re.compile p); [|contradiction]. cbn [bind ret].
  destruct (Re.search _ _ _) as [mo|]; [|exact IH].
  destruct (k mo) eqn:E; cbn [bind ret]; [intros H; injection H as <-; exact (Hk _ _ E) | discriminate].
Qed.

Lemma group1_type_error mo text e : group1 mo text = inl e -> e = TypeError.
Proof. unfold group1, ret, raise. destruct (Re.group_str mo 1 text); congruence. Qed.

Lemma OWNER_ACCOUNT_PATTERNS_compile : Forall (fun p => Re.compile p <> None) OWNER_ACCOUNT_PATTERNS.
Proof. repeat constructor; vm_compute; discriminate. Qed.

Lemma extract_community_type_error path e : extract_community_name path = inl e -> e = TypeError.
Proof.
  unfold extract_community_name. destruct path as [p|]; [destruct (truthy _)|]; try discriminate.
  apply first_match_type_error; [exact COMMUNITY_PATTERNS_compile|].
  intros mo e' H. unfold clean_community in H. destruct (group1 mo p) eqn:Eg; cbn [bind] in H.
  - injection H as <-. exact (group1_type_error _ _ _ Eg).
  - unfold Re.re_sub in H. destruct (Re.compile "\s+") eqn:Ec; [cbn [bind ret] in H; discriminate|].
    vm_compute in Ec. discriminate.
Qed.

Lemma extract_owner_type_error name path e : extract_owner_account name path = inl e -> e = TypeError.
Proof.
  unfold extract_owner_account. destruct (owner_text name path).
  - apply first_match_type_error; [exact OWNER_ACCOUNT_PATTERNS_compile | intros mo e'; apply group1_type_error].
  - unfold raise. congruence.
Qed.

(** C28: a community name the extractor returns is stripped: it is empty
    or neither starts nor ends with white space. *)
Theorem extract_community_stripped path c :
  extract_community_name path = inr (Some c) ->
  (forall a, hd_error (chars c) = Some a -> is_space a = false) /\
  (forall a, hd_error (rev (chars c)) = Some a -> is_space a = false).
Proof.
  unfold extract_community_name. destruct path as [p|]; [|discriminate].
  destruct (truthy (Some p)); [|discriminate]. intros H.
  apply first_match_Some in H as (mo & H). unbind.
  unfold clean_community in H. unbind. injection H as <-.
  unfold str_strip. rewrite chars_of_chars. apply strip_ends.
Qed.

Lemma extract_community_stripped_witness :
  (forall a, hd_error (chars "Vista Vera") = Some a -> is_space a = false) /\
  (forall a, hd_error (rev (chars "Vista Vera")) = Some a -> is_space a = false).
Proof.
  apply (extract_community_stripped (Some "/Round Rock Office/ Vista  Vera /x.pdf")).
  vm_compute. reflexivity.
Defined.

(** C27: [extract_community_name] returns [None] exactly when the path is
    empty or no pattern of [COMMUNITY_PATTERNS] matches it. *)
Theorem extract_community_none p :
  extract_community_name (Some p) = inr None <->
  p = "" \/
  Forall (fun pat => forall r, Re.compile pat = Some r -> ~ Re.matches true r (chars p))
         COMMUNITY_PATTERNS.
Proof.
  unfold extract_community_name. destruct p as [|a p'].
  - simpl. split; [auto | reflexivity].
  - simpl truthy. cbv iota. rewrite (first_match_None _ _ _ COMMUNITY_PATTERNS_compile).
    split; [auto|]. intros [H|H]; [discriminate | exact H].
Qed.

(** specification scenario 5 and the community layout: the owner
    account of "R0460131L0199873_statement.pdf" is "R0460131L0199873";
    "/sites/AssociationDocs/Falcon%20Pointe/..." is the community
    "Falcon Pointe"; a path under no known folder has no community. *)
Example extractor_scenarios :
  extract_owner_account (Some "R0460131L0199873_statement.pdf") (Some "/Statements/")
    = inr (Some "R0460131L0199873") /\
  extract_community_name (Some "/sites/AssociationDocs/Falcon%20Pointe/Governing/CCR.pdf")
    = inr (Some "Falcon Pointe") /\
  extract_community_name (Some "/sites/other/x.pdf") = inr None.
Proof. vm_compute. repeat split. Qed.

(** a community folder named only "%20" (or only white space) gives
    the empty string, not [None]: the specification says an extractor
    with no usable match yields null. *)
Example community_blank_is_empty_string :
  extract_community_name (Some "/sites/AssociationDocs/%20/x.pdf") = inr (Some "").
Proof. vm_compute. reflexivity. Qed.

End Extract.

#[export] Hint Resolve Extract.extract_community_name_py Extract.extract_owner_account_py : pyhints.
