(* ===== verification/Client.v ===== *)
(** * The index client

    The HTTP functions of src/scripts/classify_documents.py (lines
    309-406): [search_documents], [update_document],
    [update_documents_batch] and [get_classification_stats].  The search
    service is an interface, the typeclass [Backend]: one operation per
    endpoint the script posts to, each taking the service's state and
    returning the decoded response (or an HTTP error) and the new state.
    The client runs in the monad [M]: the backend's state, the list of
    requests issued (the trace), the lines printed and a clock for
    [datetime.utcnow()], with Python exceptions as [res] values. *)

From Stdlib Require Import String Ascii List ZArith Lia Bool DecimalString.
From S2P Require Import Prelude.
Import ListNotations.
Open Scope py_scope.
Open Scope string_scope.
Open Scope Z_scope.

Module Client.

(** ** JSON data *)

(** A JSON object of string or null fields, as [response.json()] decodes
    a document: the fields in order. *)
Definition jobj := list (string * option string).

Fixpoint jget (o : jobj) (k : string) : option (option string) :=
  match o with
  | [] => None
  | (k', v) :: o' => if String.eqb k k' then Some v else jget o' k
  end.

(** [d.get(k, default)] *)
Definition dict_get (o : jobj) (k : string) (default : option string) : option string :=
  match jget o k with Some v => v | None => default end.

(** A merge update of lines 460-470; [u_community] and [u_owner] are
    [None] when the key is absent from the dict. *)
Record update := mk_update {
  u_id : option string;
  u_category : string;
  u_access : string;
  u_classified_at : Z;
  u_community : option string;
  u_owner : option string
}.

(** The body of a search request (lines 313-322): [select] and [count]
    are the same in every request. *)
Record search_body := mk_search {
  sb_skip : Z;
  sb_top : Z;
  sb_unclassified : bool   (** the [filter] key is present *)
}.

(** A decoded HTTP response: status 200 with its JSON body, or another
    status with its text. *)
Inductive http (A : Type) :=
| HOk (body : A)
| HErr (status : Z) (text : string).
Arguments HOk {A}.
Arguments HErr {A}.

(** The search response: [value] and [@odata.count], either absent. *)
Record search_result := mk_sresult { sr_value : option (list jobj); sr_count : option Z }.

(** A facet bucket [{value, count}]. *)
Record facet := mk_facet { f_value : string; f_count : Z }.

(** The facet response: [@odata.count] and the two facet lists of
    [@search.facets]; [None] for an absent key. *)
Record facets_result := mk_fresult {
  fr_count : option Z;
  fr_category : option (list facet);
  fr_access : option (list facet)
}.

(** ** The search service *)

Class Backend (W : Type) := {
  (** POST docs/search with a search body *)
  post_search : search_body -> W -> http search_result * W;
  (** POST docs/index with merge actions: the per-item [status] values of
      the [value] list of the answer *)
  post_index : list update -> W -> http (option (list bool)) * W;
  (** POST docs/search with [top = 0] and the two facets *)
  post_facets : W -> http facets_result * W
}.

(** The requests the client issues, in order. *)
Inductive event :=
| EvSearch (b : search_body)
| EvIndex (us : list update)
| EvFacets.

Section Monad.
Context {W : Type} `{Backend W}.

Record state := mk_state {
  world : W;
  trace : list event;   (** requests issued, oldest first *)
  out : list string;    (** lines printed, oldest first *)
  clock : Z             (** [datetime.utcnow()], one tick per call *)
}.

Definition M (A : Type) : Type := state -> res A * state.

Definition mret {A} (a : A) : M A := fun s => (inr a, s).
Definition mraise {A} (e : exn) : M A := fun s => (inl e, s).
Definition mbind {A B} (m : M A) (k : A -> M B) : M B :=
  fun s => match m s with
           | (inr a, s') => k a s'
           | (inl e, s') => (inl e, s')
           end.

(** A pure computation that may raise. *)
Definition lift {A} (r : res A) : M A := fun s => (r, s).

(** [print(line)] *)
Definition print (line : string) : M unit :=
  fun s => (inr tt, mk_state (world s) (trace s) (out s ++ [line])%list (clock s)).

(** [datetime.utcnow()] *)
Definition utcnow : M Z :=
  fun s => (inr (clock s), mk_state (world s) (trace s) (out s) (clock s + 1)).

Definition http_search (b : search_body) : M (http search_result) :=
  fun s => let (r, w') := post_search b (world s) in
           (inr r, mk_state w' (trace s ++ [EvSearch b])%list (out s) (clock s)).

Definition http_index (us : list update) : M (http (option (list bool))) :=
  fun s => let (r, w') := post_index us (world s) in
           (inr r, mk_state w' (trace s ++ [EvIndex us])%list (out s) (clock s)).

Definition http_facets : M (http facets_result) :=
  fun s => let (r, w') := post_facets (world s) in
           (inr r, mk_state w' (trace s ++ [EvFacets])%list (out s) (clock s)).

End Monad.

Arguments state W : clear implicits.
Arguments M W A : clear implicits.

Declare Scope io_scope.
Delimit Scope io_scope with io.
Notation "'let!' x ':=' m 'in' k" := (mbind m (fun x => k))
  (at level 10, x name, m at level 100, k at level 200) : io_scope.
Notation "'let!' ' p ':=' m 'in' k" := (mbind m (fun x => match x with p => k end))
  (at level 10, p pattern, m at level 100, k at level 200) : io_scope.
Open Scope io_scope.

(** ** Python values *)

(** [str(n)] *)
Definition show (z : Z) : string := NilZero.string_of_int (Z.to_int z).

Definition zlen {A} (l : list A) : Z := Z.of_nat (length l).

Lemma zlen_snoc {A} (l : list A) a : zlen (l ++ [a])%list = zlen l + 1.
Proof. unfold zlen. rewrite length_app. simpl. lia. Qed.

(** What [search_documents] returns: the empty list of its error branch,
    or the pair (documents, count). *)
Inductive search_ret :=
| SRList0
| SRPair (docs : list jobj) (count : Z).

(** [a, b = v]: unpacking the result of [search_documents]; the empty
    list has no two values. *)
Definition unpack2 (r : search_ret) : res (list jobj * Z) :=
  match r with
  | SRPair d c => ret (d, c)
  | SRList0 => raise ValueError
  end.

Definition opt_default {A} (o : option A) (d : A) : A :=
  match o with Some a => a | None => d end.

Section Functions.
Context {W : Type} `{Backend W}.

(** [search_documents(skip, top, unclassified_only)], lines 309-334. *)
Definition search_documents (skip top : Z) (unclassified_only : bool) : M W search_ret :=
  let! resp := http_search (mk_search skip top unclassified_only) in
  match resp with
  | HOk data =>
      mret (SRPair (opt_default (sr_value data) []) (opt_default (sr_count data) 0))
  | HErr code text =>
      let! _ := print ("Error searching: " ++ show code ++ " - " ++ text) in
      mret SRList0
  end.

(** [update_document(doc_id, updates)], lines 337-354: one merge action. *)
Definition update_document (u : update) : M W bool :=
  let! resp := http_index [u] in
  match resp with
  | HOk _ => mret true
  | HErr _ _ => mret false
  end.

Definition count_true (l : list bool) : Z := zlen (filter (fun b => b) l).

(** [update_documents_batch(updates)], lines 357-377. *)
Definition update_documents_batch (updates : list update) : M W (Z * Z) :=
  let! resp := http_index updates in
  match resp with
  | HOk result =>
      let succeeded := count_true (opt_default result []) in
      let failed := zlen updates - succeeded in
      mret (succeeded, failed)
  | HErr code text =>
      let! _ := print ("Batch update error: " ++ show code ++ " - " ++ text) in
      mret (0, zlen updates)
  end.

(** A dict filled from a list of pairs: a repeated key keeps its first
    position and takes its last value. *)
Fixpoint dict_set (d : list (string * Z)) (k : string) (v : Z) : list (string * Z) :=
  match d with
  | [] => [(k, v)]
  | (k', v') :: d' => if String.eqb k k' then (k', v) :: d' else (k', v') :: dict_set d' k v
  end.

(** [d.get(k)] on such a dict. *)
Definition dict_find (d : list (string * Z)) (k : string) : option Z :=
  option_map snd (find (fun p => String.eqb (fst p) k) d).

Definition dict_of_facets (fs : list facet) : list (string * Z) :=
  fold_left (fun d f => dict_set d (f_value f) (f_count f)) fs [].

(** The statistics dict, or [{}] ([None]) on an HTTP error. *)
Record class_stats := mk_cstats {
  cs_total : Z;
  cs_by_category : list (string * Z);
  cs_by_access_level : list (string * Z)
}.

(** [get_classification_stats()], lines 380-406. *)
Definition get_classification_stats : M W (option class_stats) :=
  let! resp := http_facets in
  match resp with
  | HOk data =>
      mret (Some (mk_cstats (opt_default (fr_count data) 0)
                            (dict_of_facets (opt_default (fr_category data) []))
                            (dict_of_facets (opt_default (fr_access data) []))))
  | HErr _ _ => mret None
  end.

End Functions.

(** ** Properties of the client *)

(** ** The dict model: set and get *)

Lemma dict_find_set_same d k v : dict_find (dict_set d k v) k = Some v.
Proof.
  unfold dict_find. induction d as [|[k' v'] d IH]; simpl; [rewrite String.eqb_refl; reflexivity|].
  destruct (String.eqb_spec k k') as [<-|Hne]; simpl; [rewrite String.eqb_refl; reflexivity|].
  destruct (String.eqb_spec k' k); [congruence | exact IH].
Qed.

Lemma dict_find_set_other d k k' v :
  k' <> k -> dict_find (dict_set d k v) k' = dict_find d k'.
Proof.
  unfold dict_find. intros Hne. induction d as [|[k0 v0] d IH]; simpl.
  - apply String.eqb_neq in Hne. rewrite (String.eqb_sym k k'), Hne. reflexivity.
  - destruct (String.eqb_spec k k0) as [<-|Hk]; simpl.
    + apply String.eqb_neq in Hne. rewrite (String.eqb_sym k k'), Hne. reflexivity.
    + destruct (String.eqb k0 k'); [reflexivity | exact IH].
Qed.

Lemma dict_set_keys d k v :
  map fst (dict_set d k v) =
  (if existsb (String.eqb k) (map fst d) then map fst d else map fst d ++ [k])%list.
Proof.
  induction d as [|[k' v'] d IH]; simpl; [reflexivity|].
  destruct (String.eqb_spec k k') as [<-|Hk]; simpl; [reflexivity|].
  rewrite IH. destruct (existsb _ _); reflexivity.
Qed.

Section Properties.
Context {W : Type} `{Backend W}.

Lemma count_true_bounds (l : list bool) : 0 <= count_true l <= zlen l.
Proof.
  unfold count_true, zlen. pose proof (filter_length_le (fun b : bool => b) l). lia.
Qed.

(** C9: batch accounting: [update_documents_batch] always returns a pair
    whose two counts add up to the number of updates submitted; on a
    transport failure it is (0, N); on success the first count is the
    number of items the service acknowledged, and no count is negative
    when the service acknowledges at most one item per update. *)
Theorem update_batch_accounting (ups : list update) (s : state W) :
  exists sc fl s', update_documents_batch ups s = (inr (sc, fl), s') /\
    sc + fl = zlen ups /\
    (forall code text, fst (post_index ups (world s)) = HErr code text -> sc = 0 /\ fl = zlen ups) /\
    (forall st, fst (post_index ups (world s)) = HOk (Some st) ->
       sc = count_true st /\ ((length st <= length ups)%nat -> 0 <= sc /\ 0 <= fl)).
Proof.
  unfold update_documents_batch, mbind, http_index.
  destruct (post_index ups (world s)) as [[result|code text] w'] eqn:E; simpl.
  - eexists _, _, _. split; [reflexivity|]. split; [lia|]. split; [intros; discriminate|].
    intros st Hst. injection Hst as ->. split; [reflexivity|]. intros Hlen.
    pose proof (count_true_bounds st). cbn [opt_default] in *. unfold zlen in *. split; lia.
  - unfold print. simpl. eexists _, _, _. split; [reflexivity|]. split; [lia|].
    split; [intros; split; reflexivity | intros; discriminate].
Qed.

End Properties.

(** ** Two program logics for [M]

    [keeps P m]: [m] preserves a property [P] of the trace of requests,
    whatever its outcome.  [post m Q]: the value [m] returns, when it
    returns one, satisfies [Q]. *)

Create HintDb keeps discriminated.

Section Logic.
Context {W : Type} `{Backend W}.

Definition keeps (P : list event -> Prop) {A} (m : M W A) : Prop :=
  forall s, P (trace s) -> P (trace (snd (m s))).

Definition post {A} (m : M W A) (Q : A -> Prop) : Prop :=
  forall s, match fst (m s) with inr a => Q a | inl _ => True end.

Variable P : list event -> Prop.

Lemma keeps_bind {A B} (m : M W A) (k : A -> M W B) :
  keeps P m -> (forall a, keeps P (k a)) -> keeps P (mbind m k).
Proof.
  intros Hm Hk s Hs. unfold mbind. specialize (Hm s Hs).
  destruct (m s) as [[e|a] s']; simpl in *; [exact Hm | exact (Hk a s' Hm)].
Qed.

Lemma keeps_ret {A} (a : A) : keeps P (mret a).
Proof. intros s Hs. exact Hs. Qed.

Lemma keeps_raise {A} e : keeps P (@mraise W A e).
Proof. intros s Hs. exact Hs. Qed.

Lemma keeps_lift {A} (r : res A) : keeps P (lift r).
Proof. intros s Hs. exact Hs. Qed.

Lemma keeps_print l : keeps P (print l).
Proof. intros s Hs. exact Hs. Qed.

Lemma keeps_utcnow : keeps P utcnow.
Proof. intros s Hs. exact Hs. Qed.

Hypothesis P_search : forall t b, P t -> P (t ++ [EvSearch b])%list.

Lemma keeps_search_documents skip top u : keeps P (search_documents skip top u).
Proof.
  apply keeps_bind.
  - intros s Hs. unfold http_search. destruct (post_search _ (world s)). apply P_search, Hs.
  - intros [data|code text]; [apply keeps_ret | apply keeps_bind; [apply keeps_print | intros; apply keeps_ret]].
Qed.

Lemma post_bind {A B} (m : M W A) (k : A -> M W B) (Q : A -> Prop) (R : B -> Prop) :
  post m Q -> (forall a, Q a -> post (k a) R) -> post (mbind m k) R.
Proof.
  intros Hm Hk s. unfold mbind. specialize (Hm s).
  destruct (m s) as [[e|a] s']; simpl in *; [exact I | exact (Hk a Hm s')].
Qed.

Lemma post_True {A} (m : M W A) : post m (fun _ => True).
Proof. intros s. destruct (fst (m s)); exact I. Qed.

Lemma post_ret {A} (a : A) (Q : A -> Prop) : Q a -> post (mret a) Q.
Proof. intros Ha s. exact Ha. Qed.

Lemma post_raise {A} e (Q : A -> Prop) : post (@mraise W A e) Q.
Proof. intros s. exact I. Qed.

Lemma update_documents_batch_sum ups : post (update_documents_batch ups) (fun r => fst r + snd r = zlen ups).
Proof.
  eapply post_bind; [apply post_True|]. intros [result|code text] _.
  - apply post_ret. simpl. lia.
  - eapply post_bind; [apply post_True|]. intros. apply post_ret. simpl. lia.
Qed.

Lemma mbind_inr {A B} (m : M W A) (k : A -> M W B) s a s' :
  m s = (inr a, s') -> mbind m k s = k a s'.
Proof. intros E. unfold mbind. rewrite E. reflexivity. Qed.

Lemma mbind_inl {A B} (m : M W A) (k : A -> M W B) s e s' :
  m s = (inl e, s') -> mbind m k s = (inl e, s').
Proof. intros E. unfold mbind. rewrite E. reflexivity. Qed.

Lemma post_conseq {A} (m : M W A) (Q R : A -> Prop) :
  post m Q -> (forall a, Q a -> R a) -> post m R.
Proof. intros Hm HQ s. specialize (Hm s). destruct (fst (m s)); auto. Qed.

(** A search the service answers with an error: [search_documents]
    prints the error and returns the empty list. *)
Lemma search_documents_err skip top u s code text :
  fst (post_search (mk_search skip top u) (world s)) = HErr code text ->
  exists s', search_documents skip top u s = (inr SRList0, s').
Proof.
  intros E. unfold search_documents, mbind, http_search.
  destruct (post_search _ (world s)) as [r w']. simpl in E. subst r. eexists. reflexivity.
Qed.

Lemma post_lift {A} (r : res A) : post (lift r) (fun a => r = inr a).
Proof. intros s. destruct r; simpl; reflexivity || exact I. Qed.

Lemma post_run {A} (m : M W A) (Q : A -> Prop) s a s' :
  post m Q -> m s = (inr a, s') -> Q a.
Proof. intros Hm E. specialize (Hm s). rewrite E in Hm. exact Hm. Qed.

(** [py_safe m]: whatever the state, [m] returns a value or raises a
    Python exception, never [FuelExhausted]. *)
Definition py_safe {A} (m : M W A) : Prop := forall s, py_exn (fst (m s)).

Lemma py_safe_bind {A B} (m : M W A) (k : A -> M W B) :
  py_safe m -> (forall a, py_safe (k a)) -> py_safe (mbind m k).
Proof.
  intros Hm Hk s. specialize (Hm s). unfold mbind.
  destruct (m s) as [[e|a] s']; [exact Hm | apply Hk].
Qed.

Lemma py_safe_ret {A} (a : A) : py_safe (mret a).
Proof. intros s. exact I. Qed.

Lemma py_safe_lift {A} (r : res A) : py_exn r -> py_safe (lift r).
Proof. intros Hr s. exact Hr. Qed.

Lemma py_safe_print l : py_safe (print l).
Proof. intros s. exact I. Qed.

Lemma py_safe_utcnow : py_safe utcnow.
Proof. intros s. exact I. Qed.

Lemma py_safe_search_documents skip top u : py_safe (search_documents skip top u).
Proof.
  apply py_safe_bind; [intros s; unfold http_search; destruct (post_search _ _); exact I|].
  intros [data|code text]; [apply py_safe_ret|].
  apply py_safe_bind; [apply py_safe_print | intros; apply py_safe_ret].
Qed.

Lemma py_safe_update_documents_batch ups : py_safe (update_documents_batch ups).
Proof.
  apply py_safe_bind; [intros s; unfold http_index; destruct (post_index _ _); exact I|].
  intros [result|code text]; [apply py_safe_ret|].
  apply py_safe_bind; [apply py_safe_print | intros; apply py_safe_ret].
Qed.

Lemma py_safe_get_classification_stats : py_safe get_classification_stats.
Proof.
  apply py_safe_bind; [intros s; unfold http_facets; destruct (post_facets _); exact I|].
  intros [data|code text]; apply py_safe_ret.
Qed.

End Logic.

#[export] Hint Resolve keeps_ret keeps_raise keeps_lift keeps_print keeps_utcnow
  keeps_search_documents post_True post_raise : keeps.
#[export] Hint Resolve py_safe_ret py_safe_lift py_safe_print py_safe_utcnow
  py_safe_search_documents py_safe_update_documents_batch py_safe_get_classification_stats : keeps.

(** Splits a [py_safe] goal along the program's binds and branches. *)
Ltac safe :=
  repeat (match goal with
          | |- forall _, _ => intro
          | |- py_safe (mbind _ _) => apply py_safe_bind
          | |- py_safe (match ?x with _ => _ end) => destruct x
          | |- py_safe (if ?b then _ else _) => destruct b
          | |- py_safe (lift _) => apply py_safe_lift
          | |- py_exn _ => solve [eauto with pyhints | pyexn]
          end || (progress eauto with keeps)).

(** Splits a [keeps] goal along the program's binds and branches. *)
Ltac keep :=
  repeat (match goal with
          | |- forall _, _ => intro
          | |- keeps _ (mbind _ _) => apply keeps_bind
          | |- keeps _ (match ?x with _ => _ end) => destruct x
          | |- keeps _ (if ?b then _ else _) => destruct b
          end || (progress eauto with keeps)).

(** Splits a [post] goal along binds whose intermediate values do not
    matter, leaving the final returns. *)
Ltac post_steps :=
  repeat (match goal with
          | |- forall _, _ => intro
          | |- post (mbind _ _) _ => eapply post_bind; [apply post_True | intros ? _]
          | |- post (match ?x with _ => _ end) _ => destruct x
          | |- post (if ?b then _ else _) _ => destruct b
          | |- post (mraise _) _ => apply post_raise
          | |- post (mret _) _ => apply post_ret
          end).

End Client.
