(* ===== verification/Json.v ===== *)
(** * JSON values

    The values [json.loads] and [response.json()] produce, as a nested
    inductive type, and the Python operations the code applies to them:
    truthiness, [d.get(k, default)], [len], [v[0]], [k in d], the
    subscripts and iterations the Power BI scripts use ([v[k]], [v[0]],
    [for x in v], [.items()], [.keys()], [.values()], [v[:n]]), and the
    dict updates [d[k] = v] and [d.setdefault(k, v)] (a new key goes
    last, an existing key keeps its place). *)

From Stdlib Require Import String Ascii List ZArith Bool.
From S2P Require Import Prelude Client.
Import ListNotations.
Import Client.
Open Scope py_scope.
Open Scope string_scope.

Module Json.

(** ** Values *)

Unset Elimination Schemes.

Inductive json :=
| JNull
| JBool (b : bool)
| JNum (z : Z)
| JStr (s : string)
| JArr (l : list json)
| JObj (fields : list (string * json)).

Set Elimination Schemes.

(** [bool(v)] *)
Definition jtruthy (v : json) : bool :=
  match v with
  | JNull => false
  | JBool b => b
  | JNum z => negb (Z.eqb z 0)
  | JStr s => negb (String.eqb s "")
  | JArr l => match l with [] => false | _ => true end
  | JObj l => match l with [] => false | _ => true end
  end.

Fixpoint jfind (k : string) (l : list (string * json)) : option json :=
  match l with
  | [] => None
  | (k', v) :: l' => if String.eqb k k' then Some v else jfind k l'
  end.

(** [v.get(k, default)]: only a dict has [.get]. *)
Definition jget (v : json) (k : string) (default : json) : res json :=
  match v with
  | JObj l => ret (match jfind k l with Some x => x | None => default end)
  | _ => raise AttributeError
  end.

(** [len(v)] *)
Definition jlen (v : json) : res Z :=
  match v with
  | JStr s => ret (Z.of_nat (String.length s))
  | JArr l => ret (zlen l)
  | JObj l => ret (zlen l)
  | _ => raise TypeError
  end.

(** [v[k]] with a string key: a missing key is a [KeyError]; a list or
    a string wants an integer index and the other values are not
    subscriptable ([TypeError]). *)
Definition jsub (v : json) (k : string) : res json :=
  match v with
  | JObj l => match jfind k l with Some x => ret x | None => raise KeyError end
  | _ => raise TypeError
  end.

(** [v[0]]: the first element of a list, the first character of a
    string; a dict has no key [0] (its keys are strings). *)
Definition jidx0 (v : json) : res json :=
  match v with
  | JArr (x :: _) => ret x
  | JArr [] => raise IndexError
  | JStr (String c _) => ret (JStr (String c EmptyString))
  | JStr EmptyString => raise IndexError
  | JObj _ => raise KeyError
  | _ => raise TypeError
  end.

(** [for x in v]: a list's elements, a dict's keys, a string's
    characters. *)
Definition jiter (v : json) : res (list json) :=
  match v with
  | JArr l => ret l
  | JObj l => ret (map (fun p => JStr (fst p)) l)
  | JStr s => ret (map (fun c => JStr (String c EmptyString)) (list_ascii_of_string s))
  | _ => raise TypeError
  end.

(** [v.items()], [list(v.keys())], [list(v.values())] *)
Definition jitems (v : json) : res (list (string * json)) :=
  match v with JObj l => ret l | _ => raise AttributeError end.

Definition jkeys (v : json) : res (list string) :=
  match v with JObj l => ret (map fst l) | _ => raise AttributeError end.

Definition jvalues (v : json) : res (list json) :=
  match v with JObj l => ret (map snd l) | _ => raise AttributeError end.

(** [v[:n]] on a list or a string; a dict cannot be sliced. *)
Definition jtake (n : nat) (v : json) : res json :=
  match v with
  | JArr l => ret (JArr (firstn n l))
  | JStr s => ret (JStr (str_take n s))
  | _ => raise TypeError
  end.

(** [k in d] *)
Definition jhas (k : string) (l : list (string * json)) : bool :=
  match jfind k l with Some _ => true | None => false end.

(** [d.get(k, default)] on a dict. *)
Definition jfind_d (k : string) (l : list (string * json)) (default : json) : json :=
  match jfind k l with Some v => v | None => default end.

(** [d[k] = v] *)
Fixpoint jset (l : list (string * json)) (k : string) (v : json) : list (string * json) :=
  match l with
  | [] => [(k, v)]
  | (k', v') :: l' => if String.eqb k k' then (k', v) :: l' else (k', v') :: jset l' k v
  end.

(** [d.setdefault(k, v)] *)
Definition jsetdefault (l : list (string * json)) (k : string) (v : json) : list (string * json) :=
  if jhas k l then l else jset l k v.

Lemma jfind_jset_same l k v : jfind k (jset l k v) = Some v.
Proof.
  induction l as [|[k' v'] l IH]; simpl; [rewrite String.eqb_refl; reflexivity|].
  destruct (String.eqb_spec k k') as [<-|Hne]; simpl; [rewrite String.eqb_refl; reflexivity|].
  destruct (String.eqb_spec k k'); [contradiction | exact IH].
Qed.

Lemma jfind_jset_other l k k' v : k' <> k -> jfind k' (jset l k v) = jfind k' l.
Proof.
  intros Hne. induction l as [|[k0 v0] l IH]; simpl.
  - destruct (String.eqb_spec k' k); [contradiction | reflexivity].
  - destruct (String.eqb_spec k k0) as [<-|Hk]; simpl.
    + destruct (String.eqb_spec k' k); [contradiction | reflexivity].
    + destruct (String.eqb k' k0); [reflexivity | exact IH].
Qed.

Lemma jhas_jset l k k' v : jhas k' l = true -> jhas k' (jset l k v) = true.
Proof.
  unfold jhas. destruct (String.eqb_spec k' k) as [->|Hne].
  - rewrite jfind_jset_same. reflexivity.
  - rewrite jfind_jset_other by exact Hne. exact (fun H => H).
Qed.

Lemma jsetdefault_has l k k' v : jhas k' l = true -> jhas k' (jsetdefault l k v) = true.
Proof. unfold jsetdefault. destruct (jhas k l); [auto | apply jhas_jset]. Qed.

Lemma jsetdefault_self l k v : jhas k (jsetdefault l k v) = true.
Proof.
  unfold jsetdefault. destruct (jhas k l) eqn:E; [exact E|].
  unfold jhas. rewrite jfind_jset_same. reflexivity.
Qed.

Lemma jfind_jsetdefault_other l k k' v : k' <> k -> jfind k' (jsetdefault l k v) = jfind k' l.
Proof. unfold jsetdefault. destruct (jhas k l); [reflexivity | apply jfind_jset_other]. Qed.

Lemma jfind_d_jset_same l k v d : jfind_d k (jset l k v) d = v.
Proof. unfold jfind_d. rewrite jfind_jset_same. reflexivity. Qed.

Lemma jfind_d_jset_other l k k' v d : k' <> k -> jfind_d k' (jset l k v) d = jfind_d k' l d.
Proof. intros Hne. unfold jfind_d. rewrite jfind_jset_other by exact Hne. reflexivity. Qed.

Lemma jfind_d_jsetdefault_other l k k' v d :
  k' <> k -> jfind_d k' (jsetdefault l k v) d = jfind_d k' l d.
Proof. intros Hne. unfold jfind_d. rewrite jfind_jsetdefault_other by exact Hne. reflexivity. Qed.

Lemma jhas_jset_same l k v : jhas k (jset l k v) = true.
Proof. unfold jhas. rewrite jfind_jset_same. reflexivity. Qed.

Lemma jhas_jset_other l k k' v : k' <> k -> jhas k' (jset l k v) = jhas k' l.
Proof. intros Hne. unfold jhas. rewrite jfind_jset_other by exact Hne. reflexivity. Qed.

Lemma jhas_jsetdefault_other l k k' v : k' <> k -> jhas k' (jsetdefault l k v) = jhas k' l.
Proof. intros Hne. unfold jhas. rewrite jfind_jsetdefault_other by exact Hne. reflexivity. Qed.

Lemma jfind_jsetdefault_some l k k' v x :
  jfind k l = Some x -> jfind k (jsetdefault l k' v) = Some x.
Proof.
  unfold jsetdefault. intros H. destruct (jhas k' l) eqn:E; [exact H|].
  destruct (String.eqb_spec k k') as [->|Hne].
  - unfold jhas in E. rewrite H in E. discriminate.
  - rewrite jfind_jset_other by exact Hne. exact H.
Qed.

Create Rewrite HintDb jsonrw.
#[export] Hint Rewrite jfind_d_jset_same jhas_jset_same jsetdefault_self : jsonrw.
#[export] Hint Rewrite jfind_d_jset_other jfind_d_jsetdefault_other jhas_jset_other
  jhas_jsetdefault_other using discriminate : jsonrw.

End Json.
