(* ===== verification/Report.v ===== *)
(** * The statistics report

    [sorted(d.items(), key=lambda x: -x[1])] (lines 511, 515, 532 and 540
    of src/scripts/classify_documents.py) as a stable insertion sort by
    descending count, proved sorted, a permutation of its input and
    stable (equal counts keep their order), which determines the result
    of Python's stable [sorted]; and [show_stats] (lines 519-543). *)

From Stdlib Require Import String Ascii List ZArith Lia Bool Sorted Permutation.
From S2P Require Import Prelude Client.
Import ListNotations.
Import Client.
Open Scope py_scope.
Open Scope string_scope.
Open Scope Z_scope.
Open Scope io_scope.

Module Report.

Definition entry := (string * Z)%type.

(** Insert after every entry whose count is at least as large. *)
Fixpoint insert_desc (p : entry) (l : list entry) : list entry :=
  match l with
  | [] => [p]
  | q :: l' => if snd q <? snd p then p :: q :: l' else q :: insert_desc p l'
  end.

(** [sorted(items, key=lambda x: -x[1])] *)
Definition sort_desc (l : list entry) : list entry :=
  fold_left (fun acc p => insert_desc p acc) l [].

Definition desc (a b : entry) : Prop := snd b <= snd a.

(** ** Formatting *)

Definition nl : string := String newline EmptyString.

Fixpoint rep (n : nat) (s : string) : string :=
  match n with O => "" | S n' => s ++ rep n' s end.

(** [print("=" * 60)] *)
Definition rule60 : string := rep 60 "=".

(** [f"  {k}: {count}"], with [k or empty_label] when the key is empty. *)
Definition entry_line (empty_label : string) (p : entry) : string :=
  "  " ++ (if String.eqb (fst p) "" then empty_label else fst p) ++ ": " ++ show (snd p).

Fixpoint print_all {W} (ls : list string) : M W unit :=
  match ls with
  | [] => mret tt
  | l :: ls' => let! _ := print l in print_all ls'
  end.

(** The loop [for k, count in sorted(...): print(...)]. *)
Definition print_sorted {W} (empty_label : string) (d : list entry) : M W unit :=
  print_all (map (entry_line empty_label) (sort_desc d)).

Section ShowStats.
Context {W : Type} `{Backend W}.

(** [stats.get(key, {})] of a dict that is [{}] on an HTTP error. *)
Definition stats_total (o : option class_stats) : Z :=
  match o with Some c => cs_total c | None => 0 end.
Definition stats_by_cat (o : option class_stats) : list entry :=
  match o with Some c => cs_by_category c | None => [] end.
Definition stats_by_level (o : option class_stats) : list entry :=
  match o with Some c => cs_by_access_level c | None => [] end.

(** [show_stats()], lines 519-543. *)
Definition show_stats : M W unit :=
  let! _ := print rule60 in
  let! _ := print "Current Classification Statistics" in
  let! _ := print rule60 in
  let! stats := get_classification_stats in
  let! _ := print (nl ++ "Total documents: " ++ show (stats_total stats)) in
  let! _ := print (nl ++ "By Category:") in
  let! _ := match stats_by_cat stats with
            | [] => print "  No classification data yet"
            | by_cat => print_sorted "(unclassified)" by_cat
            end in
  let! _ := print (nl ++ "By Access Level:") in
  match stats_by_level stats with
  | [] => print "  No access level data yet"
  | by_level => print_sorted "(none)" by_level
  end.

End ShowStats.

(** ** The sort *)

Local Open Scope list_scope.

Lemma insert_desc_perm p l : Permutation (insert_desc p l) (p :: l).
Proof.
  induction l as [|q l IH]; simpl; [reflexivity|].
  destruct (snd q <? snd p); [reflexivity|].
  rewrite IH. apply perm_swap.
Qed.

Lemma sort_desc_perm_acc l acc :
  Permutation (fold_left (fun acc p => insert_desc p acc) l acc) (rev l ++ acc).
Proof.
  revert acc. induction l as [|p l IH]; intros acc; simpl; [reflexivity|].
  rewrite IH, <- app_assoc. simpl.
  apply Permutation_app_head. apply insert_desc_perm.
Qed.

Lemma insert_desc_sorted p l : Sorted desc l -> Sorted desc (insert_desc p l).
Proof.
  induction 1 as [|q l Hl IH Hhd]; simpl; [repeat constructor|].
  destruct (Z.ltb_spec (snd q) (snd p)).
  - constructor; [constructor; assumption|]. constructor. unfold desc. lia.
  - constructor; [exact IH|].
    destruct l as [|q' l]; simpl; [constructor; unfold desc; lia|].
    inv Hhd. destruct (snd q' <? snd p); constructor; unfold desc in *; lia.
Qed.

Lemma sort_desc_sorted_acc l acc :
  Sorted desc acc -> Sorted desc (fold_left (fun acc p => insert_desc p acc) l acc).
Proof.
  revert acc. induction l as [|p l IH]; intros acc Hacc; simpl; [exact Hacc|].
  apply IH, insert_desc_sorted, Hacc.
Qed.

(** The entries of [l] with count [k], in order. *)
Definition with_count (k : Z) (l : list entry) : list entry := filter (fun p => snd p =? k) l.

Lemma with_count_below k l :
  Forall (fun q => snd q < k) l -> with_count k l = [].
Proof.
  induction 1 as [|q l Hq _ IH]; simpl; [reflexivity|].
  destruct (Z.eqb_spec (snd q) k); [lia | exact IH].
Qed.

Lemma sorted_tail_below (p q : entry) l :
  Sorted desc (q :: l) -> snd q < snd p -> Forall (fun r => snd r < snd p) (q :: l).
Proof.
  intros Hs Hq. apply Sorted_StronglySorted in Hs; [|unfold desc; intros ??? ??; lia].
  inv Hs. constructor; [exact Hq|].
  eapply Forall_impl; [|exact H2]. unfold desc. intros r Hr. lia.
Qed.

Lemma with_count_insert k p l :
  Sorted desc l ->
  with_count k (insert_desc p l) =
  with_count k l ++ (if snd p =? k then [p] else []).
Proof.
  induction l as [|q l IH]; intros Hs; [simpl; destruct (snd p =? k); reflexivity|].
  cbn [insert_desc]. destruct (Z.ltb_spec (snd q) (snd p)) as [Hlt|Hge].
  - pose proof (sorted_tail_below p q l Hs Hlt) as Hb.
    change (with_count k (p :: q :: l))
      with (if snd p =? k then p :: with_count k (q :: l) else with_count k (q :: l)).
    destruct (Z.eqb_spec (snd p) k) as [<-|Hne].
    + rewrite (with_count_below _ _ Hb). reflexivity.
    + rewrite app_nil_r. reflexivity.
  - change (with_count k (q :: insert_desc p l))
      with (if snd q =? k then q :: with_count k (insert_desc p l) else with_count k (insert_desc p l)).
    change (with_count k (q :: l)) with (if snd q =? k then q :: with_count k l else with_count k l).
    apply Sorted_inv in Hs as [Hs _]. rewrite IH by exact Hs. destruct (snd q =? k); reflexivity.
Qed.

Lemma with_count_sort_acc k l acc :
  Sorted desc acc ->
  with_count k (fold_left (fun acc p => insert_desc p acc) l acc) =
  with_count k acc ++ with_count k l.
Proof.
  revert acc. induction l as [|p l IH]; intros acc Hacc; simpl; [symmetry; apply app_nil_r|].
  rewrite IH by (apply insert_desc_sorted, Hacc).
  rewrite with_count_insert by exact Hacc. rewrite <- app_assoc.
  destruct (snd p =? k); reflexivity.
Qed.

(** C29: the report order is Python's [sorted(..., key=lambda x: -x[1])]:
    the result is sorted by descending count, is a permutation of the
    dict's items, and is stable (items with the same count keep the
    dict's insertion order). *)
Theorem sort_desc_correct (l : list entry) :
  Sorted desc (sort_desc l) /\ Permutation (sort_desc l) l /\
  forall k, with_count k (sort_desc l) = with_count k l.
Proof.
  unfold sort_desc. split; [apply sort_desc_sorted_acc; constructor|]. split.
  - rewrite sort_desc_perm_acc, app_nil_r. symmetry. apply Permutation_rev.
  - intros k. rewrite with_count_sort_acc by constructor. reflexivity.
Qed.

End Report.
