(* ===== verification/Index.v ===== *)
(** * An in-memory search service

    A model of the Azure AI Search index the script talks to, written
    from the protocol of the specification (section 6), not from
    repository code: an ordered list of stored documents; a search with
    the "unclassified" filter, [skip]/[top] paging and the count of the
    filtered set; merge updates acknowledged per item (a merge on an
    unknown id fails); facet counts.  Faults are injected by listing the
    [skip] values whose search answers 503 and by failing every index
    request.  [Backend azure] is the instance the orchestrator's concrete
    runs use. *)

From Stdlib Require Import String Ascii List ZArith Lia Bool.
From S2P Require Import Prelude Client Report.
Import ListNotations.
Import Client.
Open Scope py_scope.
Open Scope string_scope.
Open Scope Z_scope.

Module Index.

(** A stored document: the fields the script reads or writes. *)
Record sdoc := mk_sdoc {
  sd_id : string;
  sd_name : option string;
  sd_path : option string;
  sd_category : option string;
  sd_access : option string;
  sd_community : option string;
  sd_owner : option string;
  sd_classified : option Z
}.

Record azure := mk_azure {
  docs : list sdoc;
  fail_search_at : list Z;   (** skips whose search request fails *)
  fail_index : bool          (** every index request fails *)
}.

(** [document_category eq null or document_category eq ''] *)
Definition unclassified (d : sdoc) : bool :=
  match sd_category d with
  | None => true
  | Some c => String.eqb c ""
  end.

(** The projection [select] of the script's search request. *)
Definition to_jobj (d : sdoc) : jobj :=
  [("id", Some (sd_id d)); ("metadata_spo_item_name", sd_name d);
   ("metadata_spo_item_path", sd_path d); ("document_category", sd_category d);
   ("community_name", sd_community d)].

Definition selected (b : search_body) (ds : list sdoc) : list sdoc :=
  if sb_unclassified b then filter unclassified ds else ds.

Definition search (b : search_body) (w : azure) : http search_result * azure :=
  if existsb (Z.eqb (sb_skip b)) (fail_search_at w) then (HErr 503 "Service Unavailable", w)
  else if (sb_skip b <? 0) || (sb_top b <? 0) then (HErr 400 "Bad Request", w)
  else
    let sel := selected b (docs w) in
    (HOk (mk_sresult (Some (map to_jobj (firstn (Z.to_nat (sb_top b))
                                           (skipn (Z.to_nat (sb_skip b)) sel))))
                     (Some (zlen sel))), w).

(** A merge: the fields present in the update replace the stored ones,
    the absent keys keep theirs. *)
Definition merge (u : update) (d : sdoc) : sdoc :=
  mk_sdoc (sd_id d) (sd_name d) (sd_path d) (Some (u_category u)) (Some (u_access u))
          (match u_community u with Some c => Some c | None => sd_community d end)
          (match u_owner u with Some o => Some o | None => sd_owner d end)
          (Some (u_classified_at u)).

Definition has_id (u : update) (d : sdoc) : bool :=
  match u_id u with Some i => String.eqb i (sd_id d) | None => false end.

Definition merge_one (ds : list sdoc) (u : update) : list sdoc * bool :=
  if existsb (has_id u) ds
  then (map (fun d => if has_id u d then merge u d else d) ds, true)
  else (ds, false).

Definition index (us : list update) (w : azure) : http (option (list bool)) * azure :=
  if fail_index w then (HErr 503 "Service Unavailable", w)
  else
    let '(ds, sts) := fold_left (fun '(ds, sts) u => let '(ds', ok) := merge_one ds u in
                                                     (ds', sts ++ [ok])%list)
                                us (docs w, []) in
    (HOk (Some sts), mk_azure ds (fail_search_at w) (fail_index w)).

(** Facet counts of a field, most frequent first, at most [n] values. *)
Definition facet_counts (n : nat) (f : sdoc -> option string) (ds : list sdoc) : list facet :=
  let d := fold_left (fun acc x => match f x with
                                   | Some v => dict_set acc v (1 + opt_default
                                                 (option_map snd (find (fun p => String.eqb (fst p) v) acc)) 0)
                                   | None => acc
                                   end) ds [] in
  map (fun p => mk_facet (fst p) (snd p)) (firstn n (Report.sort_desc d)).

Definition facets (w : azure) : http facets_result * azure :=
  (HOk (mk_fresult (Some (zlen (docs w))) (Some (facet_counts 50 sd_category (docs w)))
                   (Some (facet_counts 10 sd_access (docs w)))), w).

#[export] Instance azure_backend : Backend azure :=
  {| post_search := search; post_index := index; post_facets := facets |}.

(** The merge keeps the stored community name when the update has none:
    the pipeline never clears it. *)
Lemma merge_community u d :
  sd_community (merge u d) = match u_community u with Some c => Some c | None => sd_community d end.
Proof. reflexivity. Qed.

End Index.
