(* ===== verification/Orchestrator.v ===== *)
(** * The classification run

    [run_classification] (lines 409-516 of
    src/scripts/classify_documents.py) and the command-line dispatch
    (lines 546-562), in the monad [M] of [Client] over any [Backend]: a
    count query, the page loop [while skip < total_count] with one
    search per page, the per-document classification and extraction,
    the batch flushes, the final flush and the report.  The loop runs on
    fuel, enough of it computed from the count and the batch size; the
    run is out of fuel only when the batch size is not positive, where
    the Python loop need not terminate.  The theorems: the loop
    terminates with that fuel; a dry run issues searches only; the
    statistics and the update accounting are invariants of the loop; an
    HTTP error on a search crashes the run; and on the in-memory index of
    [Index], the paging defect of unclassified-only live runs and the
    runs of specification scenario 6. *)

From Stdlib Require Import String Ascii List ZArith Lia Bool.
From S2P Require Import Prelude Regex Rules Extract Client Report Index.
Import ListNotations.
Import Client.
Open Scope py_scope.
Open Scope string_scope.
Open Scope Z_scope.
Open Scope io_scope.

Module Orchestrator.

(** The [stats] dict of lines 427-433. *)
Record stats := mk_stats {
  processed : Z;
  updated : Z;
  failed : Z;
  by_category : list (string * Z);
  by_access_level : list (string * Z)
}.

Definition stats0 : stats := mk_stats 0 0 0 [] [].

(** [d.get(k, 0)] on a dict of counts. *)
Definition zget (d : list (string * Z)) (k : string) : Z :=
  opt_default (dict_find d k) 0.

(** [d[k] = d.get(k, 0) + 1] *)
Definition incr (d : list (string * Z)) (k : string) : list (string * Z) :=
  dict_set d k (zget d k + 1).

(** [print(f"  [{category}] {name[:50]}...")]: slicing [None] raises
    [TypeError]. *)
Definition show_sample (category : string) (name : option string) : res string :=
  match name with
  | Some n => ret ("  [" ++ category ++ "] " ++ str_take 50 n ++ "...")
  | None => raise TypeError
  end.

Section Run.
Context {W : Type} `{Backend W}.

(** The body of [for doc in docs], lines 445-482. *)
Definition process_doc (st : stats) (batch : list update) (doc : jobj)
  : M W (stats * list update) :=
  let doc_id := dict_get doc "id" None in
  let name := dict_get doc "metadata_spo_item_name" (Some "") in
  let path := dict_get doc "metadata_spo_item_path" (Some "") in
  let! '(category, access_level) := lift (Rules.classify_document path name) in
  let! extracted := lift (Extract.extract_community_name path) in
  let community := py_or extracted (dict_get doc "community_name" None) in
  let! owner_account :=
    (if startswith category "owner_"
     then lift (Extract.extract_owner_account name path) else mret None) in
  let! classified_at := utcnow in
  let u := mk_update doc_id category access_level classified_at
             (if truthy community then community else None)
             (if truthy owner_account then owner_account else None) in
  let batch := (batch ++ [u])%list in
  let st := mk_stats (processed st) (updated st) (failed st)
              (incr (by_category st) category) (incr (by_access_level st) access_level) in
  let! _ := (if processed st <? 10
             then let! line := lift (show_sample category name) in print line
             else mret tt) in
  mret (mk_stats (processed st + 1) (updated st) (failed st)
                 (by_category st) (by_access_level st), batch).

Fixpoint process_docs (st : stats) (batch : list update) (docs : list jobj)
  : M W (stats * list update) :=
  match docs with
  | [] => mret (st, batch)
  | doc :: docs' =>
      let! '(st, batch) := process_doc st batch doc in
      process_docs st batch docs'
  end.

(** [succeeded, failed = update_documents_batch(batch_updates)] and the
    two counter updates. *)
Definition submit (st : stats) (batch : list update) : M W stats :=
  let! '(succeeded, fl) := update_documents_batch batch in
  mret (mk_stats (processed st) (updated st + succeeded) (failed st + fl)
                 (by_category st) (by_access_level st)).

(** The flush after each page, lines 485-490. *)
Definition flush (dry_run : bool) (batch_size total_count : Z) (st : stats)
  (batch : list update) : M W (stats * list update) :=
  if negb dry_run && (batch_size <=? zlen batch) then
    let! st := submit st batch in
    let! _ := print ("  Progress: " ++ show (processed st) ++ "/" ++ show total_count ++
                     " (" ++ show (100 * processed st / total_count) ++ "%)") in
    mret (st, [])
  else mret (st, batch).

(** The loop [while skip < total_count], lines 438-492; [None] when the
    fuel runs out. *)
Fixpoint pages (fuel : nat) (reclassify_all dry_run : bool) (batch_size total_count skip : Z)
  (st : stats) (batch : list update) : M W (option (stats * list update)) :=
  match fuel with
  | O => mret None
  | S fuel' =>
      if skip <? total_count then
        let! r := search_documents skip batch_size (negb reclassify_all) in
        let! '(docs, _) := lift (unpack2 r) in
        match docs with
        | [] => mret (Some (st, batch))
        | _ :: _ =>
            let! '(st, batch) := process_docs st batch docs in
            let! '(st, batch) := flush dry_run batch_size total_count st batch in
            pages fuel' reclassify_all dry_run batch_size total_count (skip + batch_size) st batch
        end
      else mret (Some (st, batch))
  end.

(** The final flush, lines 495-498. *)
Definition final_flush (dry_run : bool) (st : stats) (batch : list update) : M W stats :=
  match batch with
  | _ :: _ => if negb dry_run then submit st batch else mret st
  | [] => mret st
  end.

(** The number of pages left from [skip]: [ceil((total - skip) / batch)]. *)
Definition pages_left (batch_size total_count skip : Z) : nat :=
  Z.to_nat ((total_count - skip + batch_size - 1) / batch_size).

Definition loop_fuel (batch_size total_count : Z) : nat := S (pages_left batch_size total_count 0).

(** Lines 434-498: the loop from [skip = 0] with empty counters, then
    the final flush. *)
Definition classify_loop (reclassify_all dry_run : bool) (batch_size total_count : Z)
  : M W stats :=
  let! p := pages (loop_fuel batch_size total_count) reclassify_all dry_run batch_size
              total_count 0 stats0 [] in
  match p with
  | Some (st, batch) => final_flush dry_run st batch
  | None => mraise FuelExhausted
  end.

(** The report, lines 501-516. *)
Definition print_results (dry_run : bool) (st : stats) : M W unit :=
  let! _ := Report.print_all ["" ; Report.rule60; "Classification Results"; Report.rule60;
                       "Total processed: " ++ show (processed st)] in
  let! _ := (if negb dry_run
             then Report.print_all ["Successfully updated: " ++ show (updated st);
                             "Failed: " ++ show (failed st)]
             else mret tt) in
  let! _ := Report.print_all [""; "By Category:"] in
  let! _ := Report.print_sorted "" (by_category st) in
  let! _ := Report.print_all [""; "By Access Level:"] in
  Report.print_sorted "" (by_access_level st).

(** [run_classification(reclassify_all, dry_run, batch_size)] *)
Definition run_classification (reclassify_all dry_run : bool) (batch_size : Z) : M W unit :=
  let! _ := Report.print_all [Report.rule60; "Document Classification"; Report.rule60;
                       "Mode: " ++ (if dry_run then "DRY RUN" else "LIVE UPDATE");
                       "Scope: " ++ (if reclassify_all then "All documents" else "Unclassified only");
                       ""] in
  let! r := search_documents 0 1 (negb reclassify_all) in
  let! '(_, total_count) := lift (unpack2 r) in
  let! _ := Report.print_all ["Documents to process: " ++ show total_count; ""] in
  if total_count =? 0 then print "No documents to classify!"
  else
    let! st := classify_loop reclassify_all dry_run batch_size total_count in
    print_results dry_run st.

(** The parsed command line, lines 547-553. *)
Record args := mk_args { a_all : bool; a_dry_run : bool; a_stats : bool; a_batch_size : Z }.

(** Lines 555-562. *)
Definition main (a : args) : M W unit :=
  if a_stats a then Report.show_stats
  else run_classification (a_all a) (a_dry_run a) (a_batch_size a).

End Run.

(** ** The counters *)

Definition sumz (d : list (string * Z)) : Z := fold_right (fun p a => snd p + a) 0 d.

Lemma sumz_incr d k : sumz (incr d k) = sumz d + 1.
Proof.
  unfold incr, zget, dict_find, sumz. induction d as [|[k' v] d IH]; [reflexivity|].
  cbn [dict_set find fst]. rewrite (String.eqb_sym k' k).
  destruct (String.eqb k k'); cbn [fold_right snd option_map opt_default] in *; lia.
Qed.

Arguments sumz : simpl never.

(** The loop invariant: the category and access-level counts add up to
    [processed], and every processed document is updated, failed or
    waiting in the batch. *)
Definition counted (st : stats) (batch : list update) : Prop :=
  sumz (by_category st) = processed st /\ sumz (by_access_level st) = processed st /\
  updated st + failed st + zlen batch = processed st.

Section Invariants.
Context {W : Type} `{Backend W}.

Lemma process_doc_counted st b d :
  counted st b ->
  post (process_doc (W:=W) st b d) (fun r => counted (fst r) (snd r) /\ processed (fst r) = processed st + 1).
Proof.
  intros (H1 & H2 & H3). unfold process_doc. cbv zeta. post_steps.
  all: unfold counted; cbn [fst snd processed updated failed by_category by_access_level].
  all: rewrite ?sumz_incr, ?zlen_snoc; lia.
Qed.

Lemma process_docs_counted st b ds :
  counted st b -> post (process_docs (W:=W) st b ds) (fun r => counted (fst r) (snd r)).
Proof.
  revert st b. induction ds as [|d ds IH]; intros st b Hc; [apply post_ret; exact Hc|].
  eapply post_bind; [apply (process_doc_counted st b d Hc)|].
  intros [st' b'] [Hc' _]. apply IH, Hc'.
Qed.

Lemma submit_counted st b :
  counted st b -> post (submit (W:=W) st b) (fun st' => counted st' []).
Proof.
  intros (H1 & H2 & H3). eapply post_bind; [apply update_documents_batch_sum|].
  intros [sc fl] Hs. apply post_ret. unfold counted, zlen in *. cbn in *. lia.
Qed.

Lemma flush_counted dr bs tot st b :
  counted st b -> post (flush (W:=W) dr bs tot st b) (fun r => counted (fst r) (snd r)).
Proof.
  intros Hc. unfold flush.
  match goal with |- post (if ?c then _ else _) _ => destruct c end; [|apply post_ret, Hc].
  eapply post_bind; [apply (submit_counted _ _ Hc)|]. intros st' Hc'. post_steps. exact Hc'.
Qed.

Lemma pages_counted fuel ra dr bs tot skip st b :
  counted st b ->
  post (pages (W:=W) fuel ra dr bs tot skip st b)
       (fun o => forall st' b', o = Some (st', b') -> counted st' b').
Proof.
  revert skip st b. induction fuel as [|fuel IH]; intros skip st b Hc; cbn [pages].
  - apply post_ret. discriminate.
  - destruct (skip <? tot); [|apply post_ret; intros ?? E; injection E as <- <-; exact Hc].
    eapply post_bind; [apply post_True|]. intros r _.
    eapply post_bind; [apply post_True|]. intros [docs _] _.
    destruct docs as [|d ds]; [apply post_ret; intros ?? E; injection E as <- <-; exact Hc|].
    eapply post_bind; [apply (process_docs_counted _ _ _ Hc)|]. intros [st1 b1] Hc1.
    eapply post_bind; [apply (flush_counted _ _ _ _ _ Hc1)|]. intros [st2 b2] Hc2.
    apply IH, Hc2.
Qed.

Lemma final_flush_counted dr st b :
  counted st b ->
  post (final_flush (W:=W) dr st b)
       (fun st' => counted st' (if dr then b else [])).
Proof.
  intros Hc. unfold final_flush. destruct b as [|u b]; [destruct dr; apply post_ret, Hc|].
  destruct dr; [apply post_ret, Hc|]. apply submit_counted, Hc.
Qed.

End Invariants.

(** ** Dry runs *)

Section DryRun.
Context {W : Type} `{Backend W}.
Variable P : list event -> Prop.
Hypothesis P_search : forall t b, P t -> P (t ++ [EvSearch b])%list.

Lemma keeps_print_all ls : keeps P (@Report.print_all W ls).
Proof. induction ls as [|l ls IH]; simpl; keep. Qed.

Lemma keeps_process_docs st b ds : keeps P (process_docs (W:=W) st b ds).
Proof.
  revert st b. induction ds as [|d ds IH]; intros st b; simpl; [keep|].
  unfold process_doc. cbv zeta. keep.
Qed.

Lemma keeps_dry_pages fuel ra bs tot skip st b : keeps P (pages (W:=W) fuel ra true bs tot skip st b).
Proof.
  revert skip st b. induction fuel as [|fuel IH]; intros skip st b; cbn [pages]; [keep|].
  unfold flush. cbn [negb andb]. pose proof keeps_process_docs. keep.
Qed.

Lemma keeps_dry_run ra bs : keeps P (run_classification (W:=W) ra true bs).
Proof.
  unfold run_classification, classify_loop, final_flush, print_results, Report.print_sorted.
  cbn [negb]. pose proof keeps_print_all. pose proof keeps_dry_pages. keep.
Qed.

End DryRun.

(** ** Termination of the page loop *)

Lemma pages_left_next bs tot skip :
  0 < bs -> skip < tot -> pages_left bs tot skip = S (pages_left bs tot (skip + bs)).
Proof.
  intros Hbs Hlt. unfold pages_left.
  replace (tot - skip + bs - 1) with ((tot - (skip + bs) + bs - 1) + 1 * bs) by lia.
  rewrite Z.div_add by lia.
  assert (0 <= (tot - (skip + bs) + bs - 1) / bs) by (apply Z.div_pos; lia).
  rewrite Z2Nat.inj_add by lia. simpl. lia.
Qed.

Section Loop.
Context {W : Type} `{Backend W}.
Variables (ra dr : bool) (bs tot : Z).

(** One round of the loop either ends it, whatever the fuel, or goes on
    to [skip + bs] from a state that does not depend on the fuel. *)
Lemma pages_step fuel skip st b s :
  skip < tot ->
  (forall f, pages (W:=W) (S f) ra dr bs tot skip st b s = pages (S fuel) ra dr bs tot skip st b s /\
             fst (pages (W:=W) (S fuel) ra dr bs tot skip st b s) <> inr None) \/
  exists st2 b2 s2, forall f,
    pages (W:=W) (S f) ra dr bs tot skip st b s = pages f ra dr bs tot (skip + bs) st2 b2 s2.
Proof.
  intros Hlt. cbn [pages]. rewrite (proj2 (Z.ltb_lt _ _) Hlt). unfold mbind.
  destruct (search_documents skip bs (negb ra) s) as [[e|r] s1];
    [left; split; [reflexivity | discriminate]|].
  unfold lift. destruct r as [|docs c]; [left; split; [reflexivity | discriminate]|].
  cbn [unpack2 ret]. destruct docs as [|d ds]; [left; split; [reflexivity | discriminate]|].
  unfold mbind.
  destruct (process_docs st b (d :: ds) s1) as [[e|[st1 b1]] s2];
    [left; split; [reflexivity | discriminate]|].
  unfold mbind.
  destruct (flush dr bs tot st1 b1 s2) as [[e|[st2 b2]] s3];
    [left; split; [reflexivity | discriminate]|].
  right. exists st2, b2, s3. reflexivity.
Qed.

Lemma pages_enough fuel : forall skip st b s f,
  0 < bs -> (pages_left bs tot skip < fuel)%nat -> (pages_left bs tot skip < f)%nat ->
  pages (W:=W) f ra dr bs tot skip st b s = pages fuel ra dr bs tot skip st b s /\
  fst (pages (W:=W) fuel ra dr bs tot skip st b s) <> inr None.
Proof.
  induction fuel as [|fuel IH]; intros skip st b s f Hbs Hf1 Hf2; [lia|].
  destruct f as [|f]; [lia|].
  destruct (Z.ltb_spec skip tot) as [Hlt|Hge].
  - rewrite (pages_left_next _ _ _ Hbs Hlt) in Hf1, Hf2.
    destruct (pages_step fuel skip st b s Hlt) as [Hend|(st2 & b2 & s2 & Hgo)].
    + destruct (Hend f) as [-> Hn]. split; [reflexivity | exact Hn].
    + rewrite !Hgo. apply IH; lia.
  - cbn [pages]. rewrite (proj2 (Z.ltb_ge _ _) Hge). split; [reflexivity | discriminate].
Qed.

End Loop.

Lemma print_all_run {W} `{Backend W} ls (s : state W) :
  Report.print_all ls s = (inr tt, mk_state (world s) (trace s) (out s ++ ls)%list (clock s)).
Proof.
  revert s. induction ls as [|l ls IH]; intros s; simpl.
  - rewrite app_nil_r. destruct s; reflexivity.
  - unfold mbind. simpl. rewrite IH. simpl. rewrite <- app_assoc. reflexivity.
Qed.

(** ** Properties of the run *)

Section Claims.
Context {W : Type} `{Backend W}.

(** C8: the page loop terminates: for a positive batch size, [loop_fuel]
    (one more than the ceiling of total / batch size) is enough fuel:
    the loop never runs out of it, and any larger fuel gives the same
    run. *)
Theorem loop_terminates ra dr bs tot st b (s : state W) fuel :
  0 < bs -> (loop_fuel bs tot <= fuel)%nat ->
  pages fuel ra dr bs tot 0 st b s = pages (loop_fuel bs tot) ra dr bs tot 0 st b s /\
  fst (pages (loop_fuel bs tot) ra dr bs tot 0 st b s) <> inr None.
Proof. intros Hbs Hf. unfold loop_fuel in *. apply pages_enough; lia. Qed.

(** C6: a dry run writes nothing: every request [run_classification]
    issues with [dry_run] set is a search, whatever the service
    answers. *)
Theorem dry_run_only_searches ra bs (s : state W) :
  exists bodies, trace (snd (run_classification ra true bs s)) = (trace s ++ map EvSearch bodies)%list.
Proof.
  apply (keeps_dry_run (fun t => exists bodies, t = (trace s ++ map EvSearch bodies)%list)).
  - intros t b [bodies ->]. exists (bodies ++ [b])%list. rewrite map_app, app_assoc. reflexivity.
  - exists []. rewrite app_nil_r. reflexivity.
Qed.

(** C7: the counters of a run: when the loop and the final flush return
    statistics, the category counts and the access-level counts each add
    up to the number of documents processed, and in a live run every
    processed document is counted as updated or as failed. *)
Theorem classify_loop_counts ra dr bs tot :
  post (classify_loop (W:=W) ra dr bs tot)
       (fun st => sumz (by_category st) = processed st /\
                  sumz (by_access_level st) = processed st /\
                  (dr = false -> updated st + failed st = processed st)).
Proof.
  unfold classify_loop. eapply post_bind; [apply pages_counted; repeat split|].
  intros [[st b]|] Hc; [|apply post_raise].
  eapply post_conseq; [apply final_flush_counted, (Hc st b eq_refl)|].
  intros st' (H1 & H2 & H3). repeat split; [exact H1 | exact H2|].
  intros ->. unfold zlen in H3. simpl in H3. lia.
Qed.

(** C11: an HTTP error on a page search crashes the run: [search_documents]
    returns the empty list and [docs, _ = ...] raises [ValueError], even
    after earlier pages were written; the specification says search
    errors are logged and contained. *)
Theorem search_error_crashes fuel ra dr bs tot skip st b (s : state W) code text :
  skip < tot ->
  fst (post_search (mk_search skip bs (negb ra)) (world s)) = HErr code text ->
  fst (pages (S fuel) ra dr bs tot skip st b s) = inl ValueError.
Proof.
  intros Hlt He. cbn [pages]. rewrite (proj2 (Z.ltb_lt _ _) Hlt).
  destruct (search_documents_err _ _ _ _ _ _ He) as [s' E].
  rewrite (mbind_inr _ _ _ _ _ E). reflexivity.
Qed.

(** C12: an HTTP error on the count query crashes the run with
    [ValueError] before any document is read. *)
Theorem count_error_crashes ra dr bs (s : state W) code text :
  fst (post_search (mk_search 0 1 (negb ra)) (world s)) = HErr code text ->
  fst (run_classification ra dr bs s) = inl ValueError.
Proof.
  intros He. unfold run_classification.
  rewrite (mbind_inr _ _ _ _ _ (print_all_run _ s)).
  cbv beta. match goal with |- context [mbind (search_documents 0 1 _) _ ?s1] =>
    destruct (search_documents_err 0 1 (negb ra) s1 code text He) as [s' E] end.
  rewrite (mbind_inr _ _ _ _ _ E). reflexivity.
Qed.

(** The result of [process_doc], as a postcondition: the update dict
    appended to the batch and the counters, for the category, the
    extracted community and the owner account the code computes. *)
Definition doc_ok (st : stats) (b : list update) (d : jobj) (r : stats * list update) : Prop :=
  let name := dict_get d "metadata_spo_item_name" (Some "") in
  let path := dict_get d "metadata_spo_item_path" (Some "") in
  exists c a ex oa u,
    Rules.classify_document path name = inr (c, a) /\
    Extract.extract_community_name path = inr ex /\
    (if startswith c "owner_" then Extract.extract_owner_account name path = inr oa else oa = None) /\
    snd r = (b ++ [u])%list /\
    u_id u = dict_get d "id" None /\ u_category u = c /\ u_access u = a /\
    u_community u = (if truthy (py_or ex (dict_get d "community_name" None))
                     then py_or ex (dict_get d "community_name" None) else None) /\
    u_owner u = (if truthy oa then oa else None) /\
    fst r = mk_stats (processed st + 1) (updated st) (failed st)
              (incr (by_category st) c) (incr (by_access_level st) a).

Lemma process_doc_post st b d : post (process_doc (W:=W) st b d) (doc_ok st b d).
Proof.
  unfold process_doc. cbv zeta.
  eapply post_bind; [apply post_lift|]. intros [c a] Ec.
  eapply post_bind; [apply post_lift|]. intros ex Ex.
  eapply post_bind with (Q := fun o => if startswith c "owner_"
    then Extract.extract_owner_account (dict_get d "metadata_spo_item_name" (Some ""))
           (dict_get d "metadata_spo_item_path" (Some "")) = inr o
    else o = None).
  { destruct (startswith c "owner_"); [apply post_lift | apply post_ret; reflexivity]. }
  intros oa Hoa. post_steps.
  all: exists c, a, ex, oa; eexists; repeat split; [exact Ec | exact Ex | exact Hoa].
Qed.

(** C5: the result of processing one document (lines 445-482): one
    update is appended to the batch, with the document's id, the
    category and access level [classify_document] gives its path and
    name, the community name extracted from the path or else the stored
    [community_name] (absent when neither is truthy), and the owner
    account extracted only for a category starting with "owner_"; the
    category and access-level counters each gain one and [processed]
    goes up by one. *)
Theorem process_doc_update st b d (s : state W) st' b' s' :
  process_doc st b d s = (inr (st', b'), s') ->
  let name := dict_get d "metadata_spo_item_name" (Some "") in
  let path := dict_get d "metadata_spo_item_path" (Some "") in
  exists c a ex oa u,
    Rules.classify_document path name = inr (c, a) /\
    Extract.extract_community_name path = inr ex /\
    (if startswith c "owner_" then Extract.extract_owner_account name path = inr oa else oa = None) /\
    b' = (b ++ [u])%list /\
    u_id u = dict_get d "id" None /\ u_category u = c /\ u_access u = a /\
    u_community u = (if truthy (py_or ex (dict_get d "community_name" None))
                     then py_or ex (dict_get d "community_name" None) else None) /\
    u_owner u = (if truthy oa then oa else None) /\
    st' = mk_stats (processed st + 1) (updated st) (failed st)
            (incr (by_category st) c) (incr (by_access_level st) a).
Proof. intros E. exact (post_run _ _ _ _ _ (process_doc_post st b d) E). Qed.

(** C13: a document whose name is [None] crashes the run with [TypeError]
    while fewer than ten documents have been processed, whatever its path
    and the state: [classify_document] treats the missing name as empty,
    but [name[:50]] in the sample line raises, and so does
    [extract_owner_account] when the path is empty; no other exception
    can come first, since every pattern of the extractors compiles. *)
Theorem none_name_crashes st b d (s : state W) :
  dict_get d "metadata_spo_item_name" (Some "") = None -> processed st < 10 ->
  fst (process_doc st b d s) = inl TypeError.
Proof.
  intros Hn Hp. destruct st as [pr up fl bc ba]. cbn [processed] in Hp.
  assert (Hl : (pr <? 10) = true) by (apply Z.ltb_lt; exact Hp).
  unfold process_doc. cbv zeta. rewrite Hn.
  set (path := dict_get d "metadata_spo_item_path" (Some "")).
  destruct (Rules.classify_rules_total _ Rules.CLASSIFICATION_RULES_ok (Rules.lower_or_empty path) (Rules.lower_or_empty None))
    as [[c a] Ec].
  assert (Ec' : Rules.classify_document path None = inr (c, a)) by exact Ec. rewrite Ec'.
  cbv beta iota zeta delta [mbind lift utcnow mret processed].
  destruct (Extract.extract_community_name path) as [e|ex] eqn:Ex;
    [apply Extract.extract_community_type_error in Ex; subst e; reflexivity|].
  destruct (startswith c "owner_");
    [destruct (Extract.extract_owner_account None path) as [e|oa] eqn:Eo;
       [apply Extract.extract_owner_type_error in Eo; subst e; reflexivity|]|].
  all: rewrite Hl; reflexivity.
Qed.


End Claims.

(** ** The counter dicts *)

(** C10: [d[k] = d.get(k, 0) + 1] counts: after [incr d k] the count of
    [k] is one more than before, and 1 for a key not yet counted; every
    other key keeps its count; and the keys keep their insertion order,
    a new key going last. *)
Theorem incr_spec d k :
  dict_find (incr d k) k = Some (match dict_find d k with Some n => n + 1 | None => 1 end) /\
  (forall k', k' <> k -> dict_find (incr d k) k' = dict_find d k') /\
  map fst (incr d k) = (if existsb (String.eqb k) (map fst d) then map fst d else map fst d ++ [k])%list.
Proof.
  unfold incr, zget. split; [rewrite dict_find_set_same; destruct (dict_find d k); reflexivity|]. split.
  - intros k' Hne. apply dict_find_set_other. exact Hne.
  - apply dict_set_keys.
Qed.

(** ** Every run finishes *)

Lemma show_sample_py c n : py_exn (show_sample c n).
Proof. destruct n; simpl; [exact I | discriminate]. Qed.

Lemma unpack2_py r : py_exn (unpack2 r).
Proof. destruct r; simpl; [discriminate | exact I]. Qed.

#[local] Hint Resolve show_sample_py unpack2_py : pyhints.

Section Finishes.
Context {W : Type} `{Backend W}.

Lemma py_safe_print_all ls : py_safe (@Report.print_all W ls).
Proof. induction ls as [|l ls IH]; simpl; safe. Qed.

Lemma py_safe_process_docs st b ds : py_safe (process_docs (W:=W) st b ds).
Proof.
  revert st b. induction ds as [|d ds IH]; intros st b; simpl; [safe|].
  unfold process_doc. cbv zeta. safe.
Qed.

Lemma py_safe_pages fuel ra dr bs tot skip st b : py_safe (pages (W:=W) fuel ra dr bs tot skip st b).
Proof.
  revert skip st b. induction fuel as [|fuel IH]; intros skip st b; cbn [pages]; [safe|].
  pose proof py_safe_process_docs. unfold flush, submit. safe.
Qed.

Lemma py_safe_classify_loop ra dr bs tot : 0 < bs -> py_safe (classify_loop (W:=W) ra dr bs tot).
Proof.
  intros Hbs s. unfold classify_loop, mbind.
  pose proof (py_safe_pages (loop_fuel bs tot) ra dr bs tot 0 stats0 [] s) as Hs.
  destruct (pages_enough ra dr bs tot (loop_fuel bs tot) 0 stats0 [] s (loop_fuel bs tot) Hbs)
    as [_ Hn]; [unfold loop_fuel; lia | unfold loop_fuel; lia |].
  destruct (pages (loop_fuel bs tot) ra dr bs tot 0 stats0 [] s) as [[e|[[st b]|]] s'];
    [exact Hs | | exfalso; apply Hn; reflexivity].
  assert (Hf : py_safe (final_flush (W:=W) dr st b)) by (unfold final_flush, submit; safe).
  exact (Hf s').
Qed.

(** every run of the script finishes: with [--stats], or with a
    positive batch size, [main] returns or raises a Python exception; the
    page loop never needs more than [loop_fuel] rounds, so the model
    never reports [FuelExhausted]. *)
Theorem main_finishes (a : args) (s : state W) :
  (a_stats a = true \/ 0 < a_batch_size a) -> fst (main a s) <> inl FuelExhausted.
Proof.
  intros Ha. unfold main. pose proof py_safe_print_all.
  destruct (a_stats a) eqn:Es.
  - assert (Hs : py_safe (W:=W) Report.show_stats)
      by (unfold Report.show_stats, Report.print_sorted; safe).
    exact (py_exn_not_fuel _ (Hs s)).
  - destruct Ha as [Ha|Ha]; [discriminate|].
    pose proof (py_safe_classify_loop (a_all a) (a_dry_run a) (a_batch_size a)) as Hl.
    assert (Hr : py_safe (run_classification (W:=W) (a_all a) (a_dry_run a) (a_batch_size a))).
    { unfold run_classification, print_results, Report.print_sorted. safe. }
    exact (py_exn_not_fuel _ (Hr s)).
Qed.

End Finishes.

(** ** Runs on the in-memory index *)

#[local] Existing Instance Index.azure_backend.

(** The [i]-th document of a test index: an owner statement in the
    folders of the community "Vista", not yet classified. *)
Definition vdoc (i : nat) : Index.sdoc :=
  Index.mk_sdoc (show (Z.of_nat i)) (Some "R0460131L0199873_statement.pdf")
    (Some "/sites/AssociationDocs/Vista/Statements/") None None None None None.

Definition vista (n : nat) (fails : list Z) : Index.azure :=
  Index.mk_azure (map vdoc (seq 0 n)) fails false.

Definition start (w : Index.azure) : state Index.azure := mk_state w [] [] 0.

(** A request as (endpoint, skip or number of updates, top). *)
Definition request (e : event) : string * Z * Z :=
  match e with
  | EvSearch b => ("search", sb_skip b, sb_top b)
  | EvIndex us => ("index", zlen us, 0)
  | EvFacets => ("facets", 0, 0)
  end.

Definition left_unclassified (s : state Index.azure) : nat :=
  length (filter Index.unclassified (Index.docs (world s))).

(** specification scenario 6 with [--all]: 250 documents in batches
    of 100 take 3 pages (skips 0, 100, 200) and 3 batch writes of 100,
    100 and 50 updates, and leave no document unclassified. *)
Theorem scenario6_all_live :
  let r := run_classification true false 100 (start (vista 250 [])) in
  fst r = inr tt /\
  map request (trace (snd r)) =
    [("search", 0, 1); ("search", 0, 100); ("index", 100, 0); ("search", 100, 100);
     ("index", 100, 0); ("search", 200, 100); ("index", 50, 0)] /\
  left_unclassified (snd r) = 0%nat.
Proof. vm_compute. repeat split. Qed.

(** specification scenario 6 as written (unclassified only, live)
    fails: each flush shrinks the filtered set while [skip] still
    advances by 100, so the page at skip 100 holds the last 50 of the
    150 documents left and the page at skip 200 is empty.  The run
    processes 150 documents, writes 100 and 50, and leaves 100
    unclassified. *)
Theorem unclassified_live_skips :
  let r := run_classification false false 100 (start (vista 250 [])) in
  fst r = inr tt /\
  map request (trace (snd r)) =
    [("search", 0, 1); ("search", 0, 100); ("index", 100, 0); ("search", 100, 100);
     ("search", 200, 100); ("index", 50, 0)] /\
  left_unclassified (snd r) = 100%nat /\
  In "Total processed: 150" (out (snd r)).
Proof. vm_compute. repeat split. right. vm_compute. tauto. Qed.

(** a dry run of scenario 6 reads the 3 pages and writes nothing:
    the index is unchanged and all 250 documents are reported. *)
Theorem scenario6_dry_run :
  let r := run_classification false true 100 (start (vista 250 [])) in
  fst r = inr tt /\
  map request (trace (snd r)) =
    [("search", 0, 1); ("search", 0, 100); ("search", 100, 100); ("search", 200, 100)] /\
  world (snd r) = vista 250 [] /\
  In "Total processed: 250" (out (snd r)).
Proof. vm_compute. repeat split. right. vm_compute. tauto. Qed.

Lemma main_finishes_witness :
  (a_stats (mk_args true false false 100) = true \/ 0 < a_batch_size (mk_args true false false 100)) /\
  fst (main (mk_args true false false 100) (start (vista 250 []))) <> inl FuelExhausted.
Proof.
  split; [right; simpl; lia|].
  apply (main_finishes (mk_args true false false 100) (start (vista 250 []))). right. simpl. lia.
Defined.

Lemma incr_spec_witness :
  dict_find (incr [("ARC", 2)] "Pool") "Pool" = Some 1 /\
  dict_find (incr [("ARC", 2)] "Pool") "ARC" = Some 2.
Proof.
  split; [exact (proj1 (incr_spec [("ARC", 2)] "Pool")) |].
  apply (proj1 (proj2 (incr_spec [("ARC", 2)] "Pool")) "ARC"). discriminate.
Defined.

Lemma loop_terminates_witness :
  pages 9 true false 100 250 0 stats0 [] (start (vista 250 [])) =
    pages (loop_fuel 100 250) true false 100 250 0 stats0 [] (start (vista 250 [])) /\
  fst (pages (loop_fuel 100 250) true false 100 250 0 stats0 [] (start (vista 250 []))) <> inr None.
Proof. apply (loop_terminates true false 100 250 stats0 [] (start (vista 250 [])) 9); [lia | vm_compute; lia]. Defined.

Lemma search_error_crashes_witness :
  fst (pages 5 true false 100 250 100 stats0 [] (start (vista 250 [100]))) = inl ValueError.
Proof.
  apply (search_error_crashes 4 true false 100 250 100 stats0 [] (start (vista 250 [100]))
           503 "Service Unavailable"); [lia | reflexivity].
Defined.

Lemma count_error_crashes_witness :
  fst (run_classification true false 100 (start (vista 250 [0]))) = inl ValueError.
Proof.
  apply (count_error_crashes true false 100 (start (vista 250 [0])) 503 "Service Unavailable").
  reflexivity.
Defined.

Definition stored_doc : jobj :=
  Index.to_jobj (Index.mk_sdoc "7" (Some "R0460131L0199873_statement.pdf") (Some "/Statements/")
                               None None (Some "Vista") None None).

Lemma process_doc_update_witness :
  exists st' b' s', process_doc stats0 [] stored_doc (start (vista 0 [])) = (inr (st', b'), s') /\
  doc_ok stats0 [] stored_doc (st', b').
Proof.
  destruct (process_doc stats0 [] stored_doc (start (vista 0 []))) as [[e|[st' b']] s'] eqn:E.
  - vm_compute in E. discriminate.
  - exists st', b', s'. split; [reflexivity|]. exact (process_doc_update _ _ _ _ _ _ _ E).
Defined.

(** A document of the index without a name, as the first one of a run. *)
Definition nameless_doc : jobj :=
  Index.to_jobj (Index.mk_sdoc "1" None (Some "/Minutes/") None None None None None).

Lemma none_name_crashes_witness :
  dict_get nameless_doc "metadata_spo_item_name" (Some "") = None /\ processed stats0 < 10 /\
  fst (process_doc stats0 [] nameless_doc (start (Index.mk_azure [] [] false))) = inl TypeError.
Proof.
  split; [reflexivity|]. split; [reflexivity|].
  apply (none_name_crashes stats0 [] nameless_doc (start (Index.mk_azure [] [] false))); reflexivity.
Defined.

End Orchestrator.
