(* ===== verification/Answer.v ===== *)
(** * The answer-extraction helpers

    The pure helpers of src/src/optimized_extraction.py: the constant
    tables [STOP_WORDS], [FOLLOW_UP_SUGGESTIONS] and [CATEGORY_KEYWORDS]
    (verbatim), [detect_query_category], [get_follow_up_questions],
    [calculate_confidence_score], [build_document_context] and
    [generate_not_found_response].  Python's [in] on strings is a
    substring test ([str_contains]); [str.split()] splits at runs of
    white space ([str_split]); a [set] of words is a duplicate-free list;
    a dict of the model's answer or of a document is a [jobj] of string
    or null fields. *)

From Stdlib Require Import String Ascii List Arith ZArith Lia Bool.
From S2P Require Import Prelude Regex Client Report.
Import ListNotations.
Import Client.
Open Scope py_scope.
Open Scope string_scope.

Module Answer.

(** ** Strings and sets of words *)

Fixpoint contains_l (p l : list ascii) : bool :=
  is_prefix p l || match l with [] => false | _ :: l' => contains_l p l' end.

(** [sub in s] *)
Definition str_contains (sub s : string) : bool := contains_l (chars sub) (chars s).

(** The words of a list of characters; [cur] is the current word,
    reversed. *)
Fixpoint split_l (l cur : list ascii) : list (list ascii) :=
  match l with
  | [] => match cur with [] => [] | _ => [rev cur] end
  | a :: l' =>
      if is_space a
      then match cur with [] => split_l l' [] | _ => rev cur :: split_l l' [] end
      else split_l l' (a :: cur)
  end.

(** [s.split()] *)
Definition str_split (s : string) : list string := map of_chars (split_l (chars s) []).

Definition mem (w : string) (l : list string) : bool := existsb (String.eqb w) l.

(** [set(words)] *)
Definition to_set (l : list string) : list string := nodup string_dec l.

(** [len(a & b)] *)
Definition inter_len (a b : list string) : nat := length (filter (fun w => mem w b) (to_set a)).

Fixpoint assoc {A} (k : string) (l : list (string * A)) : option A :=
  match l with
  | [] => None
  | (k', v) :: l' => if String.eqb k k' then Some v else assoc k l'
  end.

(** ** The tables *)

(** [STOP_WORDS], lines 34-38. *)
Definition STOP_WORDS : list string :=
  ["what"; "is"; "the"; "are"; "for"; "in"; "at"; "a"; "an"; "how"; "can"; "i"; "my"; "do"; "does"; "about"; "where"; "when"; "why"; "which"; "who"; "there"; "that"; "this"; "be"; "to"; "of"; "and"; "or"; "on"; "it"].

(** [FOLLOW_UP_SUGGESTIONS], lines 138-195. *)
Definition FOLLOW_UP_SUGGESTIONS : list (string * list string) :=
  [("fence", ["What fence materials are approved?"; "Is ARC approval required for fence installation?"; "Can I have a fence in my front yard?"; "What is the setback requirement for fences?"; "Can I have a chain-link fence?"]);
   ("pool", ["What are the pool guest policies?"; "How do I get a pool key or fob?"; "Are glass containers allowed at the pool?"; "Can I reserve the pool area for a party?"; "What are the pool supervision requirements?"]);
   ("parking", ["How long can guests park in the community?"; "Where is guest parking located?"; "Can I park an RV or trailer on my property?"; "What vehicles are prohibited?"; "Can I park a commercial vehicle at my home?"]);
   ("pet", ["How many pets are allowed per household?"; "What is the pet weight limit?"; "Are there breed restrictions?"; "What are the leash requirements?"; "Are exotic pets allowed?"]);
   ("architectural", ["What modifications require ARC approval?"; "How long does ARC approval take?"; "What is the ARC submission process?"; "Can I paint my house a different color?"; "What exterior changes need approval?"]);
   ("assessment", ["When are assessments due?"; "What payment methods are accepted?"; "Is there a late fee for overdue assessments?"; "What does my assessment cover?"; "Can I set up automatic payments?"]);
   ("rental", ["What is the minimum lease term?"; "Do I need to register my tenant?"; "Are short-term rentals (Airbnb) allowed?"; "What are landlord responsibilities?"; "Is there a rental cap in the community?"]);
   ("general", ["What are the CC&Rs for this community?"; "How do I contact my community manager?"; "Where can I find community documents?"; "What is the violation process?"; "How do I submit an ARC request?"])].

(** [CATEGORY_KEYWORDS], lines 198-206. *)
Definition CATEGORY_KEYWORDS : list (string * list string) :=
  [("fence", ["fence"; "fencing"; "height"; "stain"; "color"; "wrought iron"; "chain link"; "wood fence"; "privacy fence"; "barrier"]);
   ("pool", ["pool"; "swimming"; "hours"; "guest"; "lifeguard"; "hot tub"; "spa"; "pool key"; "pool fob"; "swim"]);
   ("parking", ["parking"; "vehicle"; "tow"; "rv"; "boat"; "trailer"; "commercial vehicle"; "guest parking"; "overnight"; "driveway"]);
   ("pet", ["pet"; "dog"; "cat"; "animal"; "breed"; "leash"; "barking"; "exotic"; "weight limit"; "pets allowed"]);
   ("architectural", ["arc"; "architectural"; "modification"; "approval"; "exterior"; "paint"; "roof"; "solar"; "pergola"; "deck"; "patio"]);
   ("rental", ["rental"; "rent"; "lease"; "tenant"; "airbnb"; "short-term"; "subletting"; "landlord"; "renter"]);
   ("assessment", ["assessment"; "dues"; "fee"; "payment"; "late fee"; "transfer fee"; "special assessment"; "hoa fee"; "annual fee"])].

(** ** [detect_query_category], lines 213-225 *)

(** [sum(1 for kw in keywords if kw in query_lower)] *)
Definition score (query_lower : string) (keywords : list string) : nat :=
  length (filter (fun kw => str_contains kw query_lower) keywords).

(** The dict [scores]: the categories with a positive score, in the
    order of [CATEGORY_KEYWORDS]. *)
Definition scores (query_lower : string) : list (string * nat) :=
  filter (fun p : string * nat => Nat.ltb 0 (snd p))
         (map (fun p : string * list string => (fst p, score query_lower (snd p))) CATEGORY_KEYWORDS).

(** [max(d, key=d.get)]: the first key of largest value. *)
Fixpoint max_first (best : string * nat) (l : list (string * nat)) : string * nat :=
  match l with
  | [] => best
  | p :: l' => max_first (if Nat.ltb (snd best) (snd p) then p else best) l'
  end.

Definition detect_query_category (query : string) : string :=
  match scores (str_lower query) with
  | [] => "general"
  | p :: ps => fst (max_first p ps)
  end.

(** ** [get_follow_up_questions], lines 228-244 *)

(** [if not category: category = detect_query_category(query)] *)
Definition resolve_category (query : string) (category : option string) : string :=
  match category with
  | Some c => if truthy category then c else detect_query_category query
  | None => detect_query_category query
  end.

Definition suggestions_for (category : string) : list string :=
  match assoc category FOLLOW_UP_SUGGESTIONS with
  | Some l => l
  | None => match assoc "general" FOLLOW_UP_SUGGESTIONS with Some l => l | None => [] end
  end.

(** [len(set(q.lower().split()[:4]) & query_words) <= 2] *)
Definition few_overlap (query_words : list string) (q : string) : bool :=
  Nat.leb (inter_len (firstn 4 (str_split (str_lower q))) query_words) 2.

Definition get_follow_up_questions (query : string) (category : option string) : list string :=
  let category := resolve_category query category in
  let suggestions := suggestions_for category in
  let query_words := to_set (str_split (str_lower query)) in
  firstn 3 (filter (few_overlap query_words) suggestions).

(** ** [calculate_confidence_score], lines 247-303 *)

Open Scope Z_scope.

Definition numeric_questions : list string :=
  ["how many"; "limit"; "height"; "fee"; "how much"; "how long"; "maximum"; "minimum"].

(** [x.get(k, '') or ''] *)
Definition get_str (r : jobj) (k : string) : string :=
  opt_default (py_or (dict_get r k (Some "")) (Some "")) "".

(** Factor 1: keywords of the query found in the quote. *)
Definition keyword_points (r : jobj) (query : string) : Z :=
  let query_keywords := to_set (filter (fun w => negb (mem w STOP_WORDS)) (str_split (str_lower query))) in
  let quote := get_str r "quote" in
  if String.eqb quote "" then 0
  else
    let quote_lower := str_lower quote in
    let matches := Z.of_nat (length (filter (fun kw => str_contains kw quote_lower) query_keywords)) in
    Z.min 30 (matches * 10).

(** Factor 2: a number in the answer of a numeric question;
    [re.search] on [None] raises [TypeError]. *)
Definition numeric_points (r : jobj) (query : string) : res Z :=
  if existsb (fun kw => str_contains kw (str_lower query)) numeric_questions then
    match dict_get r "answer" (Some "") with
    | Some answer =>
        mo <- Re.re_search "\d+" answer false ;;
        ret (match mo with Some _ => 20 | None => -10 end)
    | None => raise TypeError
    end
  else ret 0.

(** Factor 3: a source section. *)
Definition section_points (r : jobj) : Z :=
  if truthy (dict_get r "source_section" None) then 15 else 0.

(** Factor 4: the kind of source document. *)
Definition document_points (r : jobj) : Z :=
  let doc_name := str_lower (get_str r "source_document") in
  if str_contains "ccr" doc_name || str_contains "declaration" doc_name || str_contains "covenant" doc_name then 20
  else if str_contains "rule" doc_name || str_contains "regulation" doc_name then 15
  else if str_contains "guideline" doc_name || str_contains "policy" doc_name then 10
  else if negb (String.eqb doc_name "") then 5
  else 0.

(** Factor 5: the length of the answer; [None.split()] raises
    [AttributeError]. *)
Definition length_points (r : jobj) : res Z :=
  match dict_get r "answer" (Some "") with
  | Some answer =>
      let word_count := length (str_split answer) in
      ret (if (5 <=? word_count)%nat && (word_count <=? 30)%nat then 15
           else if (word_count <? 5)%nat then 5 else 8)
  | None => raise AttributeError
  end.

(** The score of lines 251-295, the factors in the code's order. *)
Definition confidence_points (r : jobj) (query : string) : res Z :=
  let score := keyword_points r query in
  n <- numeric_points r query ;;
  let score := score + n + section_points r + document_points r in
  l <- length_points r ;;
  ret (score + l).

(** Lines 297-303. *)
Definition confidence_level (score : Z) : string :=
  if 70 <=? score then "high" else if 40 <=? score then "medium" else "low".

(** [calculate_confidence_score(extraction_result, query, documents)];
    [documents] is not read. *)
Definition calculate_confidence_score (r : jobj) (query : string) : res string :=
  score <- confidence_points r query ;;
  ret (confidence_level score).

Close Scope Z_scope.

(** ** [build_document_context], lines 306-338 *)

(** A document of the search results: its string fields, its
    [doc_type_info] ([None] when absent, [Some None] when null) and its
    [is_archived] flag. *)
Record rdoc := mk_rdoc {
  rd_fields : jobj;
  rd_type_info : option (option jobj);
  rd_archived : bool
}.

Definition doc_header (i : nat) (title : option string) (archived : bool)
  (community doc_type url : option string) : string :=
  let header := Report.nl ++ Report.rule60 ++ Report.nl ++ "DOCUMENT " ++ show (Z.of_nat (S i)) ++ ": " ++ py_fmt title in
  let header := if archived then header ++ " [ARCHIVED - may be outdated]" else header in
  let header := if truthy community then header ++ Report.nl ++ "Community: " ++ py_fmt community else header in
  let header := header ++ Report.nl ++ "Type: " ++ py_fmt doc_type in
  if truthy url then header ++ Report.nl ++ "URL: " ++ py_fmt url else header.

(** [content[:max] + "...[truncated]"] when longer than [max]. *)
Definition truncate (max_chars : nat) (content : string) : string :=
  if Nat.ltb max_chars (String.length content) then str_take max_chars content ++ "...[truncated]"
  else content.

(** One part of the context: the body of the loop for document [i]. *)
Definition doc_part (max_chars i : nat) (d : rdoc) : res string :=
  let title := dict_get (rd_fields d) "title" (Some "Unknown Document") in
  content <- match dict_get (rd_fields d) "content" (Some "") with
             | Some c => ret (str_strip c)
             | None => raise AttributeError
             end ;;
  doc_type <- match rd_type_info d with
              | None => ret (Some "Document")
              | Some (Some o) => ret (dict_get o "label" (Some "Document"))
              | Some None => raise AttributeError
              end ;;
  let community := dict_get (rd_fields d) "community" (Some "") in
  let url := dict_get (rd_fields d) "url" (Some "") in
  let header := doc_header i title (rd_archived d) community doc_type url in
  let content := truncate max_chars content in
  ret (if String.eqb content ""
       then header ++ Report.nl ++ Report.nl ++ "(No text content available)" ++ Report.nl
       else header ++ Report.nl ++ Report.nl ++ "CONTENT:" ++ Report.nl ++ content ++ Report.nl).

(** The loop over [enumerate(documents[:5])] from index [i]. *)
Fixpoint parts (max_chars i : nat) (ds : list rdoc) : res (list string) :=
  match ds with
  | [] => ret []
  | d :: ds' =>
      p <- doc_part max_chars i d ;;
      ps <- parts max_chars (S i) ds' ;;
      ret (p :: ps)
  end.

Definition build_document_context (documents : list rdoc) (max_chars_per_doc : nat) : res string :=
  ps <- parts max_chars_per_doc 0 (firstn 5 documents) ;;
  ret (String.concat "" ps).

(** ** [generate_not_found_response], lines 341-374 *)

Definition next_steps : list (string * string) :=
  [("assessment", "Check your homeowner portal at psprop.net or your latest statement for current amounts.");
   ("pool", "Pool hours are typically posted at the facility and may vary seasonally. Check the homeowner portal or contact your manager.");
   ("architectural", "For ARC submissions and approvals, contact your community manager directly.");
   ("rental", "Rental policies may have specific requirements. Contact your community manager for details.");
   ("parking", "Parking policies are often enforced on-site. Check community signage or contact your manager.");
   ("general", "Visit the homeowner portal at psprop.net or contact your community manager.")].

(** The dict the function returns. *)
Record answer := mk_answer {
  found : bool;
  answer_text : string;
  confidence : string;
  quote : option string;
  source_document : option string;
  source_section : option string;
  answer_type : string;
  related_info : option string;
  recommended_action : option string;
  follow_up_questions : list string
}.

Definition generate_not_found_response {A} (query : string) (documents_searched : list A)
  (category : option string) : answer :=
  let category := resolve_category query category in
  let next_step := match assoc category next_steps with
                   | Some n => n
                   | None => opt_default (assoc "general" next_steps) ""
                   end in
  let follow_ups := get_follow_up_questions query (Some category) in
  mk_answer false
    ("I couldn't find specific information about that in the available documents. " ++ next_step)
    "low" None None None "not_found"
    (Some ("Searched " ++ show (Z.of_nat (length documents_searched)) ++ " documents but no direct answer was found."))
    (Some next_step) follow_ups.

(** ** Category detection *)

Local Open Scope list_scope.

Lemma max_first_zero_skip b l :
  max_first b (filter (fun p : string * nat => Nat.ltb 0 (snd p)) l) = max_first b l.
Proof.
  revert b. induction l as [|p l IH]; intros b; [reflexivity|]. simpl.
  destruct (Nat.ltb_spec 0 (snd p)); simpl; rewrite IH; [reflexivity|].
  destruct (Nat.ltb_spec (snd b) (snd p)); [lia | reflexivity].
Qed.

(** [max_first b l] is [b] when nothing in [l] beats it, otherwise the
    first element of [l] of largest value. *)
Lemma max_first_spec b l :
  (max_first b l = b /\ forall y, In y l -> snd y <= snd b) \/
  exists pre post, l = pre ++ max_first b l :: post /\ snd b < snd (max_first b l) /\
    (forall y, In y pre -> snd y < snd (max_first b l)) /\
    (forall y, In y post -> snd y <= snd (max_first b l)).
Proof.
  revert b. induction l as [|p l IH]; intros b; [left; split; [reflexivity | intros _ []]|].
  simpl. destruct (Nat.ltb_spec (snd b) (snd p)) as [Hlt|Hge].
  - right. destruct (IH p) as [[-> Hall] | (pre & post & E & Hp & Hpre & Hpost)].
    + exists [], l. split; [reflexivity|]. split; [exact Hlt|]. split; [intros _ []| exact Hall].
    + exists (p :: pre), post. split; [rewrite E at 1; reflexivity|]. split; [lia|].
      split; [|exact Hpost]. intros y [<-|Hy]; [exact Hp | apply Hpre, Hy].
  - destruct (IH b) as [[-> Hall] | (pre & post & E & Hp & Hpre & Hpost)].
    + left. split; [reflexivity|]. intros y [<-|Hy]; [exact Hge | apply Hall, Hy].
    + right. exists (p :: pre), post. split; [rewrite E at 1; reflexivity|]. split; [exact Hp|].
      split; [|exact Hpost]. intros y [<-|Hy]; [lia | apply Hpre, Hy].
Qed.

Definition category_scores (query : string) : list (string * nat) :=
  map (fun p : string * list string => (fst p, score (str_lower query) (snd p))) CATEGORY_KEYWORDS.

Lemma detect_max_first query :
  detect_query_category query = fst (max_first ("general", 0) (category_scores query)).
Proof.
  unfold detect_query_category, category_scores. rewrite <- max_first_zero_skip. unfold scores.
  destruct (filter _ _) as [|p ps] eqn:E; [reflexivity|].
  assert (Hp : In p (filter (fun p : string * nat => Nat.ltb 0 (snd p))
                       (map (fun p : string * list string => (fst p, score (str_lower query) (snd p)))
                            CATEGORY_KEYWORDS))) by (rewrite E; left; reflexivity).
  apply filter_In in Hp as [_ Hp]. simpl. rewrite Hp. reflexivity.
Qed.

(** C31: [detect_query_category] returns "general" exactly when no
    keyword of any category occurs in the lower-cased query, and
    otherwise the first category of [CATEGORY_KEYWORDS] with the largest
    number of keywords occurring in it ([max] keeps the first maximum). *)
Theorem detect_query_category_spec query :
  (detect_query_category query = "general" /\
   forall y, In y (category_scores query) -> snd y = 0%nat) \/
  exists pre n post,
    category_scores query = pre ++ (detect_query_category query, n) :: post /\ (0 < n)%nat /\
    (forall y, In y pre -> (snd y < n)%nat) /\ (forall y, In y post -> (snd y <= n)%nat).
Proof.
  rewrite detect_max_first.
  destruct (max_first_spec ("general", 0%nat) (category_scores query))
    as [[-> Hall] | (pre & post & E & Hp & Hpre & Hpost)].
  - left. split; [reflexivity|]. intros y Hy. specialize (Hall y Hy). simpl in Hall. lia.
  - right. exists pre, (snd (max_first ("general", 0%nat) (category_scores query))), post.
    rewrite <- surjective_pairing. auto.
Qed.

(** keywords are matched as substrings, so words that contain a
    keyword steer the category: "current" contains "rent" and the
    question about an assessment is a rental question; "March"
    contains "arc" and the question about dues is architectural. *)
Example detect_substring_misroutes :
  detect_query_category "What is the current assessment?" = "rental" /\
  detect_query_category "When are the March dues?" = "architectural" /\
  detect_query_category "What is the fence height limit?" = "fence".
Proof. vm_compute. repeat split. Qed.

(** ** Follow-up questions *)


(** ** The confidence score *)

Lemma digits_compile : exists r, Re.compile "\d+" = Some r.
Proof. eexists. vm_compute. reflexivity. Qed.

Lemma numeric_points_ok r q a :
  dict_get r "answer" (Some "") = Some a ->
  exists n, numeric_points r q = inr n /\ (-10 <= n <= 20)%Z.
Proof.
  intros Ha. unfold numeric_points. destruct (existsb _ _); [|exists 0%Z; split; [reflexivity | lia]].
  rewrite Ha. destruct digits_compile as [re Hre]. unfold Re.re_search. rewrite Hre. simpl.
  destruct (Re.search false re (chars a)); eexists; (split; [reflexivity | lia]).
Qed.

Lemma length_points_ok r a :
  dict_get r "answer" (Some "") = Some a -> exists n, length_points r = inr n /\ (5 <= n <= 15)%Z.
Proof.
  intros Ha. unfold length_points. rewrite Ha.
  destruct (_ && _); [|destruct (_ <? _)%nat]; eexists; (split; [reflexivity | lia]).
Qed.

Lemma keyword_points_bounds r q : (0 <= keyword_points r q <= 30)%Z.
Proof. unfold keyword_points. destruct (String.eqb _ _); lia. Qed.

Lemma section_points_bounds r : (0 <= section_points r <= 15)%Z.
Proof. unfold section_points. destruct (truthy _); lia. Qed.

Lemma document_points_bounds r : (0 <= document_points r <= 20)%Z.
Proof. unfold document_points. repeat (destruct (_ || _) || destruct (negb _)); lia. Qed.

(** C32: the confidence score of an extraction lies between -5 and 100:
    factor 1 gives 0 to 30, factor 2 -10 to 20, factor 3 0 or 15,
    factor 4 0 to 20 and factor 5 5 to 15. *)
Theorem confidence_points_bounds r q s :
  confidence_points r q = inr s -> (-5 <= s <= 100)%Z.
Proof.
  unfold confidence_points. intros H.
  pose proof (keyword_points_bounds r q). pose proof (section_points_bounds r).
  pose proof (document_points_bounds r).
  destruct (dict_get r "answer" (Some "")) as [a|] eqn:Ha.
  - destruct (numeric_points_ok r q a Ha) as (n & Hn & Hb1).
    destruct (length_points_ok r a Ha) as (l & Hl & Hb2).
    rewrite Hn, Hl in H. simpl in H. injection H as <-. lia.
  - unfold numeric_points, length_points in H. rewrite Ha in H.
    destruct (existsb _ _); discriminate.
Qed.

Lemma confidence_points_bounds_witness :
  confidence_points [("answer", Some "6 feet maximum height from natural grade.")]
                    "What is the fence height limit?" = inr 35%Z /\ (-5 <= 35 <= 100)%Z.
Proof.
  split; [vm_compute; reflexivity|].
  apply (confidence_points_bounds [("answer", Some "6 feet maximum height from natural grade.")]
           "What is the fence height limit?"). vm_compute. reflexivity.
Defined.

(** C33: [calculate_confidence_score] returns "high", "medium" or "low"
    whenever the answer is a string (or absent); a null answer raises
    [TypeError] (numeric questions) or [AttributeError]. *)
Theorem confidence_levels r q :
  (forall a, dict_get r "answer" (Some "") = Some a ->
     exists l, calculate_confidence_score r q = inr l /\ In l ["high"; "medium"; "low"]) /\
  (dict_get r "answer" (Some "") = None ->
     calculate_confidence_score r q = inl TypeError \/ calculate_confidence_score r q = inl AttributeError).
Proof.
  unfold calculate_confidence_score, confidence_points. split.
  - intros a Ha. destruct (numeric_points_ok r q a Ha) as (n & -> & _).
    destruct (length_points_ok r a Ha) as (l & -> & _). simpl.
    eexists. split; [reflexivity|]. unfold confidence_level.
    destruct (70 <=? _)%Z; [|destruct (40 <=? _)%Z]; simpl; auto.
  - intros Ha. unfold numeric_points, length_points. rewrite Ha.
    destruct (existsb _ _); auto.
Qed.

Lemma confidence_levels_witness :
  exists l, calculate_confidence_score [("answer", Some "Six feet.")] "fence height?" = inr l /\
            In l ["high"; "medium"; "low"].
Proof. apply (proj1 (confidence_levels [("answer", Some "Six feet.")] "fence height?") "Six feet."). reflexivity. Defined.

(** the query is split at white space only, so a keyword keeps the
    punctuation next to it: in "What is the pet weight limit?" the
    keyword is "limit?", which a quote saying "limit" does not contain;
    the same extraction scores 65 ("medium") for the question and 75
    ("high") for the question without its question mark. *)
Example keyword_punctuation :
  let r := [("answer", Some "50 pounds maximum per pet.");
            ("quote", Some "pet weight limit is 50 pounds");
            ("source_document", Some "Pet Policy.pdf")] in
  confidence_points r "What is the pet weight limit?" = inr 65%Z /\
  calculate_confidence_score r "What is the pet weight limit?" = inr "medium" /\
  calculate_confidence_score r "What is the pet weight limit" = inr "high".
Proof. vm_compute. repeat split. Qed.

(** ** The document context *)

(** A document the loop cannot format: null content or null
    [doc_type_info]. *)
Definition bad_doc (d : rdoc) : Prop :=
  dict_get (rd_fields d) "content" (Some "") = None \/ rd_type_info d = Some None.

Lemma doc_part_result m i d :
  (bad_doc d /\ doc_part m i d = inl AttributeError) \/ (~ bad_doc d /\ exists p, doc_part m i d = inr p).
Proof.
  unfold doc_part, bad_doc. destruct (dict_get (rd_fields d) "content" (Some "")) as [c|];
    [|left; split; [left; reflexivity | reflexivity]].
  destruct (rd_type_info d) as [[o|]|]; simpl.
  - right. split; [intros [H|H]; discriminate | eexists; reflexivity].
  - left. split; [right; reflexivity | reflexivity].
  - right. split; [intros [H|H]; discriminate | eexists; reflexivity].
Qed.

Lemma parts_result m i ds :
  ((exists d, In d ds /\ bad_doc d) /\ parts m i ds = inl AttributeError) \/
  ((forall d, In d ds -> ~ bad_doc d) /\ exists ps, parts m i ds = inr ps).
Proof.
  revert i. induction ds as [|d ds IH]; intros i; simpl.
  - right. split; [intros _ [] | eexists; reflexivity].
  - destruct (doc_part_result m i d) as [[Hb ->] | [Hg [p ->]]].
    + left. split; [exists d; auto | reflexivity].
    + simpl. destruct (IH (S i)) as [[(d' & Hd' & Hb) ->] | [Hall [ps ->]]].
      * left. split; [exists d'; auto | reflexivity].
      * right. split; [intros d' [<-|Hd']; auto | eexists; reflexivity].
Qed.

(** C35: [build_document_context] raises [AttributeError] exactly when one
    of the first five documents has a null content or a null
    [doc_type_info] (the code calls [.strip()] and [.get] on them), and
    otherwise returns the context; documents after the fifth are never
    read: appending documents to a list of five or more changes
    nothing. *)
Theorem build_context_errors ds m :
  ((exists d, In d (firstn 5 ds) /\ bad_doc d) <-> build_document_context ds m = inl AttributeError) /\
  ((forall d, In d (firstn 5 ds) -> ~ bad_doc d) -> exists c, build_document_context ds m = inr c) /\
  (forall extra, (5 <= length ds)%nat -> build_document_context (ds ++ extra) m = build_document_context ds m).
Proof.
  unfold build_document_context.
  assert (Hx : forall extra, (5 <= length ds)%nat -> firstn 5 (ds ++ extra) = firstn 5 ds).
  { intros extra Hl. rewrite firstn_app. replace (5 - length ds) with 0 by lia.
    simpl. rewrite app_nil_r. reflexivity. }
  split; [|split].
  - destruct (parts_result m 0 (firstn 5 ds)) as [[Hb ->] | [Hg [ps ->]]].
    + split; [reflexivity | auto].
    + simpl. split; [intros (d & Hd & Hb); exfalso; exact (Hg d Hd Hb) | discriminate].
  - intros Hg. destruct (parts_result m 0 (firstn 5 ds)) as [[(d & Hd & Hb) _] | [_ [ps ->]]].
    + exfalso. exact (Hg d Hd Hb).
    + eexists. reflexivity.
  - intros extra Hl. rewrite (Hx extra Hl). reflexivity.
Qed.

Lemma build_context_errors_witness :
  exists c, build_document_context [mk_rdoc [("title", Some "CCR.pdf"); ("content", Some "Fences.")] None false] 3000 = inr c.
Proof.
  apply (proj1 (proj2 (build_context_errors [mk_rdoc [("title", Some "CCR.pdf"); ("content", Some "Fences.")] None false] 3000))).
  intros d [<-|[]] [H|H]; discriminate.
Defined.

End Answer.
