(* ===== verification/Harness.v ===== *)
(** * The query test harness

    src/scripts/run_300_tests.py: the table [TEST_QUERIES] (verbatim),
    the four result evaluators ([evaluate_homeowner_result],
    [evaluate_document_result], [evaluate_unified_result],
    [evaluate_edge_case]), the choice of endpoint and evaluator for a
    query, and the statistics [run_tests] accumulates.  [test_endpoint]
    turns the outcome of [requests.get] into the result dict; the GET
    itself and the clock are the section variable [server]; a response
    body is a JSON value ([json]) with Python's [dict.get], truthiness,
    [len] and slicing on it (Json.v).  The progress lines, [time.sleep]
    and the results file are not modelled. *)

From Stdlib Require Import String Ascii List Arith ZArith Lia Bool.
From S2P Require Import Prelude Client Json.
Import ListNotations.
Import Client Json.
Open Scope py_scope.
Open Scope string_scope.

Module Harness.


(** [v[:n]] as a string of the details: a string is cut, a list is cut
    (and shown by Python's [str]), anything else raises. *)
Inductive details :=
| DStr (s : string)
| DList (l : list json).

Definition jslice (v : json) (n : nat) : res details :=
  match v with
  | JStr s => ret (DStr (str_take n s))
  | JArr l => ret (DList (firstn n l))
  | _ => raise TypeError
  end.

(** ** Results and evaluators *)

(** The dict [test_endpoint] returns. *)
Record test_result := mk_result {
  status_code : Z;
  elapsed_ms : Z;
  response : json;      (** [resp.json()] or [None] *)
  error : option string
}.

Definition status := string.

Definition http_error (r : test_result) : status * details :=
  ("ERROR", DStr ("HTTP " ++ show (status_code r))).

(** Lines 479-494. *)
Definition evaluate_homeowner_result (r : test_result) : res (status * details) :=
  if negb (Z.eqb (status_code r) 200) then ret (http_error r)
  else if negb (jtruthy (response r)) then ret ("ERROR", DStr "No response body")
  else
    homeowners <- jget (response r) "homeowners" (JArr []) ;;
    count <- jlen homeowners ;;
    ret (if 0 <? count then ("FOUND", DStr (show count ++ " result(s)"))
         else ("NOT_FOUND", DStr "No matches"))%Z.

(** Lines 497-521. *)
Definition evaluate_document_result (r : test_result) : res (status * details) :=
  if negb (Z.eqb (status_code r) 200) then ret (http_error r)
  else if negb (jtruthy (response r)) then ret ("ERROR", DStr "No response body")
  else
    ai_answer <- jget (response r) "ai_answer" (JObj []) ;;
    found <- (if jtruthy ai_answer then jget ai_answer "found" JNull else ret JNull) ;;
    if jtruthy ai_answer && jtruthy found then
      a <- jget ai_answer "answer" (JStr "") ;;
      d <- jslice a 100 ;;
      ret ("AI_ANSWER", d)
    else
      semantic <- jget (response r) "semantic_answers" (JArr []) ;;
      if jtruthy semantic then
        first <- jidx0 semantic ;;
        t <- jget first "text" (JStr "") ;;
        d <- jslice t 100 ;;
        ret ("SEMANTIC", d)
      else
        docs <- jget (response r) "documents" (JArr []) ;;
        if jtruthy docs then
          n <- jlen docs ;;
          ret ("DOCS_ONLY", DStr (show n ++ " document(s)"))
        else ret ("NOT_FOUND", DStr "No results").

(** Lines 524-547. *)
Definition evaluate_unified_result (r : test_result) : res (status * details) :=
  if negb (Z.eqb (status_code r) 200) then ret (http_error r)
  else if negb (jtruthy (response r)) then ret ("ERROR", DStr "No response body")
  else
    homeowners <- jget (response r) "homeowners" (JArr []) ;;
    docs <- jget (response r) "documents" (JArr []) ;;
    ai_answer <- jget (response r) "ai_answer" (JObj []) ;;
    p1 <- (if jtruthy homeowners then n <- jlen homeowners ;; ret [show n ++ " homeowners"] else ret []) ;;
    p2 <- (if jtruthy docs then n <- jlen docs ;; ret [show n ++ " docs"] else ret []) ;;
    found <- (if jtruthy ai_answer then jget ai_answer "found" JNull else ret JNull) ;;
    let p3 := if jtruthy ai_answer && jtruthy found then ["AI answer"] else [] in
    let results := (p1 ++ p2 ++ p3)%list in
    ret (match results with
         | [] => ("NOT_FOUND", DStr "No results")
         | _ => ("FOUND", DStr (String.concat ", " results))
         end).

(** Lines 550-554. *)
Definition evaluate_edge_case (r : test_result) : res (status * details) :=
  if Z.eqb (status_code r) 200 || Z.eqb (status_code r) 400
  then ret ("HANDLED", DStr ("HTTP " ++ show (status_code r)))
  else ret (http_error r).

(** ** The query table *)

Record query_info := mkq { q : string; qtype : string; desc : string }.

(** [TEST_QUERIES], lines 18-445. *)
Definition TEST_QUERIES : list (string * list query_info) :=
 [
  (* lines 23-35 *)
  ("phone_searches", [mkq "512-555-1234" "phone" "Standard phone with dashes";
     mkq "5125551234" "phone" "Phone without formatting";
     mkq "(512) 555-1234" "phone" "Phone with parentheses";
     mkq "512.555.1234" "phone" "Phone with dots";
     mkq "555-1234" "phone" "7-digit phone";
     mkq "1234" "phone" "4-digit (should fail)";
     mkq "+1 512 555 1234" "phone" "International format";
     mkq "512 555 1234" "phone" "Phone with spaces";
     mkq "5128896300" "phone" "Real area code search";
     mkq "737-555-0100" "phone" "Austin 737 area code"]);
  (* lines 37-48 *)
  ("address_searches", [mkq "100 Main Street" "address" "Standard address";
     mkq "1234 Oak Drive" "address" "Common street name";
     mkq "500 Falcon Pointe" "address" "Address with community name";
     mkq "7016 Walkup" "address" "Partial address";
     mkq "123 Vista Verde Dr" "address" "Abbreviated street type";
     mkq "100 N Main St" "address" "Directional address";
     mkq "1000 Ranch Road" "address" "Ranch road address";
     mkq "apt 5" "address" "Apartment only (edge case)";
     mkq "100 Main, Austin" "address" "Address with city";
     mkq "Falcon" "address" "Community name as address"]);
  (* lines 50-61 *)
  ("name_searches", [mkq "Smith" "name" "Common last name";
     mkq "John Smith" "name" "Full name";
     mkq "johnson" "name" "Lowercase name";
     mkq "WILLIAMS" "name" "Uppercase name";
     mkq "O'Brien" "name" "Name with apostrophe";
     mkq "Garcia-Lopez" "name" "Hyphenated name";
     mkq "Van Der Berg" "name" "Multi-word last name";
     mkq "Jr." "name" "Suffix only (edge case)";
     mkq "Mary Jane Watson" "name" "Three-word name";
     mkq "J Smith" "name" "Initial + last name"]);
  (* lines 63-74 *)
  ("account_searches", [mkq "FAL51515" "account" "Standard account with prefix";
     mkq "AMC12345" "account" "Avalon account";
     mkq "51515" "account" "Account without prefix";
     mkq "12345" "account" "Short account number";
     mkq "VIS99999" "account" "Vista Vera account";
     mkq "fal51515" "account" "Lowercase account";
     mkq "CCH0001" "account" "Chandler Creek account";
     mkq "HER" "account" "Prefix only";
     mkq "000123" "account" "Account with leading zeros";
     mkq "SAGE1234" "account" "Sage account"]);
  (* lines 76-87 *)
  ("community_searches", [mkq "Falcon Pointe" "community" "Full community name";
     mkq "falcon pointe" "community" "Lowercase community";
     mkq "AVALON" "community" "Uppercase community";
     mkq "Chandler Creek" "community" "Two-word community";
     mkq "Heritage Park" "community" "Common community";
     mkq "Vista Vera" "community" "Vista community";
     mkq "La Ventana" "community" "Spanish name";
     mkq "Switch Willow" "community" "Less common community";
     mkq "Highpointe" "community" "Single word community";
     mkq "Wildhorse Ranch" "community" "Ranch community"]);
  (* lines 89-100 *)
  ("unit_searches", [mkq "unit 5" "unit" "Unit search";
     mkq "Unit 100" "unit" "Capitalized unit";
     mkq "lot 12" "unit" "Lot search";
     mkq "#5" "unit" "Hash unit notation";
     mkq "unit 5A" "unit" "Alphanumeric unit";
     mkq "UNIT 200" "unit" "Uppercase unit";
     mkq "lot A" "unit" "Letter lot";
     mkq "apt 101" "unit" "Apartment";
     mkq "suite 300" "unit" "Suite";
     mkq "#1A" "unit" "Hash alphanumeric"]);
  (* lines 106-117 *)
  ("fence_queries", [mkq "fence height falcon pointe" "doc" "Fence height specific community";
     mkq "fence stain avalon" "doc" "Fence stain (known good)";
     mkq "what color can I paint my fence" "doc" "Natural language fence";
     mkq "fence materials" "doc" "Fence materials general";
     mkq "wrought iron fence" "doc" "Specific fence type";
     mkq "chain link fence allowed" "doc" "Chain link question";
     mkq "fence setback requirements" "doc" "Fence setback";
     mkq "max fence height" "doc" "Maximum height";
     mkq "fence between neighbors" "doc" "Neighbor fence";
     mkq "replacing fence" "doc" "Fence replacement"]);
  (* lines 119-130 *)
  ("pool_queries", [mkq "pool hours falcon pointe" "doc" "Pool hours specific";
     mkq "pool rules heritage park" "doc" "Pool rules (known good)";
     mkq "can I bring guests to the pool" "doc" "Pool guests question";
     mkq "pool key" "doc" "Pool key info";
     mkq "swimming pool rules" "doc" "General pool rules";
     mkq "hot tub hours" "doc" "Hot tub/spa hours";
     mkq "pool closing time" "doc" "Pool closing";
     mkq "pool party reservation" "doc" "Pool party";
     mkq "children at the pool" "doc" "Pool children rules";
     mkq "pool guest limit" "doc" "Guest limits"]);
  (* lines 132-143 *)
  ("pet_queries", [mkq "pet policy falcon pointe" "doc" "Pet policy specific";
     mkq "dog breed restrictions" "doc" "Breed restrictions";
     mkq "how many pets can I have" "doc" "Pet limit question";
     mkq "pet weight limit" "doc" "Pet weight";
     mkq "leash rules" "doc" "Leash requirements";
     mkq "barking dog" "doc" "Barking complaints";
     mkq "exotic pets" "doc" "Exotic animals";
     mkq "cat restrictions" "doc" "Cat rules";
     mkq "pet registration" "doc" "Pet registration";
     mkq "animals allowed" "doc" "General animal rules"]);
  (* lines 145-156 *)
  ("parking_queries", [mkq "parking rules" "doc" "General parking";
     mkq "guest parking" "doc" "Guest parking";
     mkq "overnight parking" "doc" "Overnight rules";
     mkq "rv parking" "doc" "RV parking";
     mkq "boat storage" "doc" "Boat/trailer parking";
     mkq "commercial vehicle" "doc" "Commercial vehicles";
     mkq "towing policy" "doc" "Towing";
     mkq "garage requirements" "doc" "Garage parking";
     mkq "street parking restrictions" "doc" "Street parking";
     mkq "visitor parking permit" "doc" "Visitor permits"]);
  (* lines 158-169 *)
  ("rental_queries", [mkq "rental restrictions falcon pointe" "doc" "Rental restrictions specific";
     mkq "can I rent my house" "doc" "Rental question";
     mkq "airbnb allowed" "doc" "Short-term rental";
     mkq "lease requirements" "doc" "Lease requirements";
     mkq "tenant rules" "doc" "Tenant rules";
     mkq "minimum lease term" "doc" "Lease term";
     mkq "rental cap" "doc" "Rental percentage cap";
     mkq "landlord responsibilities" "doc" "Landlord duties";
     mkq "subletting" "doc" "Subletting rules";
     mkq "short term rental ban" "doc" "STR ban"]);
  (* lines 171-182 *)
  ("arc_queries", [mkq "arc application" "doc" "ARC application";
     mkq "architectural guidelines" "doc" "Guidelines";
     mkq "exterior modifications" "doc" "Exterior mods";
     mkq "paint colors approved" "doc" "Paint colors";
     mkq "solar panels" "doc" "Solar panels";
     mkq "roof replacement approval" "doc" "Roof replacement";
     mkq "patio cover" "doc" "Patio cover";
     mkq "pergola requirements" "doc" "Pergola";
     mkq "window replacement" "doc" "Window replacement";
     mkq "landscaping approval" "doc" "Landscaping"]);
  (* lines 188-219 *)
  ("unified_searches", [mkq "John Smith Falcon Pointe" "unified" "Name + community";
     mkq "balance due Smith" "unified" "Balance inquiry";
     mkq "what are my dues" "unified" "Dues question";
     mkq "annual assessment amount" "unified" "Assessment amount";
     mkq "HOA fees chandler creek" "unified" "HOA fees";
     mkq "late fee policy" "unified" "Late fees";
     mkq "transfer fee" "unified" "Transfer fees";
     mkq "when are dues due" "unified" "Due date";
     mkq "special assessment" "unified" "Special assessment";
     mkq "budget falcon pointe" "unified" "Budget document";
     mkq "board meeting" "unified" "Board meeting info";
     mkq "contact property manager" "unified" "Manager contact";
     mkq "CC&Rs falcon pointe" "unified" "CC&Rs request";
     mkq "bylaws" "unified" "Bylaws request";
     mkq "rules and regulations" "unified" "Rules document";
     mkq "violation appeal" "unified" "Violation appeal";
     mkq "fine schedule" "unified" "Fine amounts";
     mkq "collections policy" "unified" "Collections";
     mkq "insurance requirements" "unified" "Insurance";
     mkq "tree removal" "unified" "Tree removal";
     mkq "mailbox replacement" "unified" "Mailbox";
     mkq "holiday decorations" "unified" "Decorations";
     mkq "noise restrictions" "unified" "Noise rules";
     mkq "trash pickup" "unified" "Trash schedule";
     mkq "recycling" "unified" "Recycling info";
     mkq "gate code" "unified" "Gate code";
     mkq "amenity hours" "unified" "Amenity hours";
     mkq "clubhouse reservation" "unified" "Clubhouse";
     mkq "playground rules" "unified" "Playground";
     mkq "speed limit" "unified" "Speed limit"]);
  (* lines 226-237 *)
  ("phone_searches_2", [mkq "512-261-3750" "phone" "Real Austin phone format";
     mkq "5122613750" "phone" "Real phone no dashes";
     mkq "(512) 261-3750" "phone" "Real phone with parens";
     mkq "261-3750" "phone" "7-digit local";
     mkq "512-444" "phone" "Partial phone (too short)";
     mkq "18005551234" "phone" "Toll-free format";
     mkq "512-251-6122" "phone" "PSPM office number";
     mkq "512 251 6122" "phone" "Office with spaces";
     mkq "2516122" "phone" "7-digit office";
     mkq "512-867-5309" "phone" "Jenny's number"]);
  (* lines 240-256 *)
  ("address_searches_2", [mkq "123 Elm Street" "address" "Generic street";
     mkq "456 Cedar Lane" "address" "Lane address";
     mkq "789 Pine Court" "address" "Court address";
     mkq "1001 Pecan" "address" "Partial street name";
     mkq "2000 S Congress" "address" "South Congress";
     mkq "3500 Bee Cave Rd" "address" "Bee Cave Road";
     mkq "100 E 6th St" "address" "Downtown pattern";
     mkq "Lakeway" "address" "City as address";
     mkq "78738" "address" "ZIP code search";
     mkq "Hills" "address" "Partial community";
     mkq "100 Loop" "address" "Loop address";
     mkq "Ranch Rd 620" "address" "Ranch road";
     mkq "FM 1431" "address" "Farm to market";
     mkq "IH 35" "address" "Interstate";
     mkq "Mopac" "address" "Highway name"]);
  (* lines 259-275 *)
  ("name_searches_2", [mkq "Martinez" "name" "Hispanic surname";
     mkq "Nguyen" "name" "Vietnamese surname";
     mkq "Patel" "name" "Indian surname";
     mkq "Kim" "name" "Korean surname";
     mkq "Lee" "name" "Common Asian surname";
     mkq "Rodriguez" "name" "Common Hispanic";
     mkq "De La Cruz" "name" "Multi-word Hispanic";
     mkq "McDonald" "name" "Mc prefix";
     mkq "O'Connor" "name" "O' prefix";
     mkq "St. James" "name" "Saint prefix";
     mkq "van Heusen" "name" "Dutch prefix";
     mkq "Robert J" "name" "First + initial";
     mkq "A. Smith" "name" "Initial + last";
     mkq "Mrs. Johnson" "name" "With title";
     mkq "Dr. Brown" "name" "Doctor title"]);
  (* lines 278-289 *)
  ("account_searches_2", [mkq "HOL12345" "account" "Hills of Lakeway prefix";
     mkq "HIL00100" "account" "Hillcrest prefix";
     mkq "GRE50000" "account" "Greenlawn prefix";
     mkq "SUM10001" "account" "Summer Creek prefix";
     mkq "LAK20000" "account" "Lakeline prefix";
     mkq "99999" "account" "High number";
     mkq "00001" "account" "Low number with zeros";
     mkq "1" "account" "Single digit";
     mkq "ABC" "account" "Letters only";
     mkq "123ABC" "account" "Mixed format"]);
  (* lines 292-308 *)
  ("community_searches_2", [mkq "Hillcrest" "community" "Hillcrest";
     mkq "Greenlawn" "community" "Greenlawn Place";
     mkq "Summer Creek" "community" "Summer Creek";
     mkq "Lakeline Oaks" "community" "Lakeline Oaks";
     mkq "Steiner Ranch" "community" "Steiner Ranch";
     mkq "Eagle Ridge" "community" "Eagle Ridge";
     mkq "Bent Tree" "community" "Bent Tree";
     mkq "Colonial Trails" "community" "Colonial Trails";
     mkq "Enclave" "community" "Enclave partial";
     mkq "Forest Creek" "community" "Forest Creek";
     mkq "Boulevard" "community" "Boulevard";
     mkq "Coachlight" "community" "Coachlight";
     mkq "Sage" "community" "Sage partial";
     mkq "Oaks" "community" "Generic oaks";
     mkq "Ranch" "community" "Generic ranch"]);
  (* lines 311-322 *)
  ("unit_searches_2", [mkq "unit 1" "unit" "Unit 1";
     mkq "lot 1" "unit" "Lot 1";
     mkq "#100" "unit" "Hash 100";
     mkq "unit 999" "unit" "High unit number";
     mkq "lot 500" "unit" "High lot number";
     mkq "apt 1A" "unit" "Apt alphanumeric";
     mkq "suite A" "unit" "Suite letter only";
     mkq "bldg 2" "unit" "Building number";
     mkq "phase 1" "unit" "Phase number";
     mkq "#B2" "unit" "Letter-number combo"]);
  (* lines 325-336 *)
  ("governance_queries", [mkq "board meeting minutes" "doc" "Meeting minutes";
     mkq "annual meeting" "doc" "Annual meeting";
     mkq "proxy form" "doc" "Proxy voting";
     mkq "board election" "doc" "Board elections";
     mkq "quorum requirements" "doc" "Quorum";
     mkq "voting procedures" "doc" "Voting";
     mkq "board member duties" "doc" "Board duties";
     mkq "executive session" "doc" "Executive session";
     mkq "robert's rules" "doc" "Parliamentary";
     mkq "term limits" "doc" "Term limits"]);
  (* lines 339-350 *)
  ("financial_queries", [mkq "reserve fund" "doc" "Reserve fund";
     mkq "operating budget" "doc" "Operating budget";
     mkq "financial statements" "doc" "Financials";
     mkq "audit report" "doc" "Audit";
     mkq "payment plan" "doc" "Payment plan";
     mkq "lien process" "doc" "Lien";
     mkq "foreclosure" "doc" "Foreclosure";
     mkq "delinquent accounts" "doc" "Delinquent";
     mkq "assessment increase" "doc" "Assessment increase";
     mkq "reserve study" "doc" "Reserve study"]);
  (* lines 353-364 *)
  ("maintenance_queries", [mkq "common area maintenance" "doc" "Common area";
     mkq "irrigation schedule" "doc" "Irrigation";
     mkq "tree trimming" "doc" "Tree trimming";
     mkq "lawn care" "doc" "Lawn care";
     mkq "weed control" "doc" "Weed control";
     mkq "fence repair" "doc" "Fence repair";
     mkq "road maintenance" "doc" "Road maintenance";
     mkq "drainage issues" "doc" "Drainage";
     mkq "street lights" "doc" "Street lights";
     mkq "sidewalk repair" "doc" "Sidewalk"]);
  (* lines 367-378 *)
  ("violation_queries", [mkq "violation notice" "doc" "Violation notice";
     mkq "fine amount" "doc" "Fine amount";
     mkq "hearing process" "doc" "Hearing";
     mkq "appeal deadline" "doc" "Appeal deadline";
     mkq "compliance deadline" "doc" "Compliance";
     mkq "repeat violation" "doc" "Repeat violation";
     mkq "enforcement policy" "doc" "Enforcement";
     mkq "courtesy notice" "doc" "Courtesy notice";
     mkq "cure period" "doc" "Cure period";
     mkq "violation photos" "doc" "Photos"]);
  (* lines 381-392 *)
  ("legal_queries", [mkq "master insurance policy" "doc" "Master insurance";
     mkq "liability coverage" "doc" "Liability";
     mkq "certificate of insurance" "doc" "COI";
     mkq "property damage claim" "doc" "Property damage";
     mkq "legal action" "doc" "Legal action";
     mkq "attorney fees" "doc" "Attorney fees";
     mkq "indemnification" "doc" "Indemnification";
     mkq "waiver form" "doc" "Waiver";
     mkq "release of liability" "doc" "Release";
     mkq "disclosure requirements" "doc" "Disclosure"]);
  (* lines 395-406 *)
  ("amenity_queries", [mkq "tennis court reservation" "doc" "Tennis court";
     mkq "basketball court" "doc" "Basketball";
     mkq "fitness center" "doc" "Fitness center";
     mkq "walking trails" "doc" "Walking trails";
     mkq "playground hours" "doc" "Playground hours";
     mkq "picnic area" "doc" "Picnic area";
     mkq "pavilion rental" "doc" "Pavilion";
     mkq "bbq grill" "doc" "BBQ grill";
     mkq "dog park" "doc" "Dog park";
     mkq "community garden" "doc" "Community garden"]);
  (* lines 409-425 *)
  ("edge_cases", [mkq "" "auto" "Empty query";
     mkq "   " "auto" "Whitespace only";
     mkq "a" "auto" "Single character";
     mkq "the" "auto" "Stop word only";
     mkq "123456789012345" "auto" "Long number";
     mkq "!@#$%^&*()" "auto" "Special characters";
     mkq "SELECT * FROM users" "auto" "SQL injection attempt";
     mkq "<script>alert('xss')</script>" "auto" "XSS attempt";
     mkq "' OR '1'='1" "auto" "SQL injection 2";
     mkq "AAAAAAAAAAAAAAAAAAAAAAAAAAAAAAAAAAAAAAAA" "auto" "Repeated chars";
     mkq "test@test.com" "auto" "Email as query";
     mkq "www.google.com" "auto" "URL as query";
     mkq "what is the meaning of life" "doc" "Philosophical";
     mkq "hello world" "auto" "Greeting";
     mkq "falconpointe" "auto" "No space community"]);
  (* lines 428-444 *)
  ("unified_searches_2", [mkq "delinquent avalon" "unified" "Delinquent + community";
     mkq "balance heritage park" "unified" "Balance + community";
     mkq "pool chandler creek" "unified" "Pool + community";
     mkq "fence vista vera" "unified" "Fence + community";
     mkq "pet highpointe" "unified" "Pet + community";
     mkq "parking switch willow" "unified" "Parking + community";
     mkq "rental la ventana" "unified" "Rental + community";
     mkq "arc summer creek" "unified" "ARC + community";
     mkq "rules hillcrest" "unified" "Rules + community";
     mkq "board greenlawn" "unified" "Board + community";
     mkq "dues lakeline" "unified" "Dues + community";
     mkq "violation bent tree" "unified" "Violation + community";
     mkq "gate eagle ridge" "unified" "Gate + community";
     mkq "trash colonial trails" "unified" "Trash + community";
     mkq "amenity steiner ranch" "unified" "Amenity + community"])
 ].

(** ** The run *)

Definition in_list (x : string) (l : list string) : bool := existsb (String.eqb x) l.

Inductive evaluator := EvHomeowner | EvDocument | EvUnified | EvEdge.

Definition evaluate (e : evaluator) (r : test_result) : res (status * details) :=
  match e with
  | EvHomeowner => evaluate_homeowner_result r
  | EvDocument => evaluate_document_result r
  | EvUnified => evaluate_unified_result r
  | EvEdge => evaluate_edge_case r
  end.

(** The endpoint, parameters and evaluator of a query, lines 590-605. *)
Definition route (category : string) (qi : query_info)
  : string * list (string * string) * evaluator :=
  let query_type := qtype qi in
  if in_list query_type ["phone"; "address"; "name"; "account"; "community"; "unit"] then
    ("/api/search",
     [("q", q qi); ("type", if String.eqb query_type "general" then "auto" else query_type)],
     EvHomeowner)
  else if String.eqb query_type "doc" then
    ("/api/unified-search", [("q", q qi); ("mode", "document")], EvDocument)
  else if String.eqb query_type "auto" then
    ("/api/search", [("q", q qi)],
     if String.eqb category "edge_cases" then EvEdge else EvHomeowner)
  else ("/api/unified-search", [("q", q qi); ("mode", "auto")], EvUnified).

(** The counters of one category, [category_stats[category]]. *)
Record cat_stats := mk_cstats {
  total : Z; found : Z; not_found : Z; error_count : Z; handled : Z
}.

Definition cstats0 : cat_stats := mk_cstats 0 0 0 0 0.

(** Lines 612-625. *)
Definition tally (c : cat_stats) (st : status) : cat_stats :=
  let t := (total c + 1)%Z in
  if in_list st ["FOUND"; "AI_ANSWER"; "SEMANTIC"; "DOCS_ONLY"]
  then mk_cstats t (found c + 1) (not_found c) (error_count c) (handled c)
  else if String.eqb st "NOT_FOUND"
  then mk_cstats t (found c) (not_found c + 1) (error_count c) (handled c)
  else if String.eqb st "HANDLED"
  then mk_cstats t (found c) (not_found c) (error_count c) (handled c + 1)
  else mk_cstats t (found c) (not_found c) (error_count c + 1) (handled c).

(** [category_stats[category]] updated through the [defaultdict]: a new
    category is appended with zero counters. *)
Fixpoint stats_update (d : list (string * cat_stats)) (category : string) (st : status)
  : list (string * cat_stats) :=
  match d with
  | [] => [(category, tally cstats0 st)]
  | (k, c) :: d' =>
      if String.eqb k category then (k, tally c st) :: d' else (k, c) :: stats_update d' category st
  end.

(** A stored result, lines 628-637. *)
Record row := mk_row {
  r_category : string; r_query : string; r_type : string; r_desc : string;
  r_status : status; r_details : details; r_elapsed : Z; r_response : json
}.

(** ** The request *)



Section Run.
(** [test_endpoint(endpoint, params)]: the service's answer. *)
Variable server : string -> list (string * string) -> test_result.

(** The inner loop over the queries of a category, lines 584-640. *)
Fixpoint run_queries (category : string) (qs : list query_info)
  (acc : list row * list (string * cat_stats)) : res (list row * list (string * cat_stats)) :=
  match qs with
  | [] => ret acc
  | qi :: qs' =>
      let '(endpoint, params, ev) := route category qi in
      let result := server endpoint params in
      '(st, d) <- evaluate ev result ;;
      let cs := stats_update (snd acc) category st in
      let rows := (fst acc ++ [mk_row category (q qi) (qtype qi) (desc qi) st d
                                      (elapsed_ms result) (response result)])%list in
      run_queries category qs' (rows, cs)
  end.

Fixpoint run_categories (tq : list (string * list query_info))
  (acc : list row * list (string * cat_stats)) : res (list row * list (string * cat_stats)) :=
  match tq with
  | [] => ret acc
  | (category, qs) :: tq' =>
      acc <- run_queries category qs acc ;;
      run_categories tq' acc
  end.

(** [run_tests()], lines 557-690: [None] when the health check fails. *)
Definition run_tests : res (option (list row * list (string * cat_stats))) :=
  let health := server "/api/search" [("q", "test")] in
  if negb (Z.eqb (status_code health) 200 || Z.eqb (status_code health) 400) then ret None
  else
    r <- run_categories TEST_QUERIES ([], []) ;;
    ret (Some r).

End Run.

(** The totals of the summary, lines 650-664:
    (found, not found, errors, handled). *)
Definition summary (cs : list (string * cat_stats)) : Z * Z * Z * Z :=
  fold_left (fun '(f, n, e, h) p =>
               (f + found (snd p), n + not_found (snd p), e + error_count (snd p), h + handled (snd p))%Z)
            cs (0, 0, 0, 0)%Z.

(** ** Properties of the harness *)

Local Open Scope Z_scope.

Definition consistent (c : cat_stats) : Prop :=
  total c = found c + not_found c + error_count c + handled c.

Definition sum_totals (cs : list (string * cat_stats)) : Z :=
  fold_right (fun p a => total (snd p) + a) 0 cs.

Definition n_queries (tq : list (string * list query_info)) : nat :=
  fold_right (fun p a => (length (snd p) + a)%nat) 0%nat tq.

Lemma tally_consistent c st : consistent c -> consistent (tally c st).
Proof.
  unfold consistent, tally. intros Hc.
  destruct (in_list _ _); [|destruct (String.eqb st "NOT_FOUND"); [|destruct (String.eqb st "HANDLED")]];
    simpl; lia.
Qed.

Lemma tally_total c st : total (tally c st) = total c + 1.
Proof.
  unfold tally. destruct (in_list _ _); [|destruct (String.eqb st "NOT_FOUND"); [|destruct (String.eqb st "HANDLED")]];
    reflexivity.
Qed.

Lemma stats_update_inv d category st :
  Forall (fun p => consistent (snd p)) d ->
  Forall (fun p => consistent (snd p)) (stats_update d category st) /\
  sum_totals (stats_update d category st) = sum_totals d + 1.
Proof.
  induction d as [|[k c] d IH]; intros Hd; simpl.
  - split; [constructor; [apply tally_consistent; reflexivity | constructor]|].
    unfold sum_totals. simpl. rewrite tally_total. simpl. lia.
  - inv Hd. destruct (String.eqb k category).
    + split; [constructor; [apply tally_consistent; assumption | assumption]|].
      unfold sum_totals. simpl. rewrite tally_total. lia.
    + destruct (IH H2) as [Hf Hs]. split; [constructor; assumption|].
      unfold sum_totals in *. simpl. rewrite Hs. lia.
Qed.

(** The invariant of the loops: one row per query run, one count per
    row, each category's counters consistent. *)
Definition acc_ok (acc : list row * list (string * cat_stats)) : Prop :=
  Forall (fun p => consistent (snd p)) (snd acc) /\ sum_totals (snd acc) = zlen (fst acc).

Section Loops.
Variable server : string -> list (string * string) -> test_result.

Lemma run_queries_inv category qs acc acc' :
  acc_ok acc -> run_queries server category qs acc = inr acc' ->
  acc_ok acc' /\ zlen (fst acc') = zlen (fst acc) + Z.of_nat (length qs).
Proof.
  revert acc. induction qs as [|qi qs IH]; intros acc [Hf Hs] E; simpl in E.
  - injection E as <-. split; [split; assumption | simpl; lia].
  - destruct (route category qi) as [[endpoint params] ev].
    destruct (evaluate ev (server endpoint params)) as [e|[st d]]; [discriminate|]. simpl in E.
    destruct (stats_update_inv (snd acc) category st Hf) as [Hf' Hs'].
    apply IH in E as [Hok Hlen]; [|split; [exact Hf' | simpl; rewrite zlen_snoc, Hs', Hs; reflexivity]].
    split; [exact Hok|]. rewrite Hlen. simpl. rewrite zlen_snoc. lia.
Qed.

Lemma run_categories_inv tq acc acc' :
  acc_ok acc -> run_categories server tq acc = inr acc' ->
  acc_ok acc' /\ zlen (fst acc') = zlen (fst acc) + Z.of_nat (n_queries tq).
Proof.
  revert acc. induction tq as [|[category qs] tq IH]; intros acc Hok E; simpl in E.
  - injection E as <-. split; [exact Hok | simpl; lia].
  - destruct (run_queries server category qs acc) as [e|acc1] eqn:E1; [discriminate|]. simpl in E.
    destruct (run_queries_inv _ _ _ _ Hok E1) as [Hok1 Hl1].
    destruct (IH _ Hok1 E) as [Hok2 Hl2]. split; [exact Hok2|].
    rewrite Hl2, Hl1. simpl n_queries. lia.
Qed.

End Loops.

Lemma summary_sum cs :
  Forall (fun p => consistent (snd p)) cs ->
  let '(f, n, e, h) := summary cs in f + n + e + h = sum_totals cs.
Proof.
  unfold summary. intros Hcs.
  assert (Hgen : forall f n e h,
    let '(f', n', e', h') := fold_left (fun '(f, n, e, h) p =>
               (f + found (snd p), n + not_found (snd p), e + error_count (snd p), h + handled (snd p)))
            cs (f, n, e, h) in f' + n' + e' + h' = f + n + e + h + sum_totals cs).
  { induction Hcs as [|[k c] cs Hc _ IH]; intros f n e h; simpl; [lia|].
    specialize (IH (f + found c) (n + not_found c) (e + error_count c) (h + handled c)).
    destruct (fold_left _ cs _) as [[[f' n'] e'] h']. unfold consistent in Hc. simpl in Hc. lia. }
  specialize (Hgen 0 0 0 0). destruct (fold_left _ cs _) as [[[f' n'] e'] h']. lia.
Qed.

(** the suite run by [run_tests] holds 315 queries in 27 categories,
    not the 300 its title and file name announce. *)
Example test_queries_count :
  length TEST_QUERIES = 27%nat /\ n_queries TEST_QUERIES = 315%nat.
Proof. vm_compute. split; reflexivity. Qed.

(** C19: the accounting of [run_tests]: a run that completes stores one
    row per query of [TEST_QUERIES] (315), every category's total is
    the sum of its found, not-found, error and handled counts, and the
    summary's four totals add up to 315. *)
Theorem run_tests_accounting server rows cs :
  run_tests server = inr (Some (rows, cs)) ->
  length rows = 315%nat /\ Forall (fun p => consistent (snd p)) cs /\
  (let '(f, n, e, h) := summary cs in f + n + e + h = 315).
Proof.
  unfold run_tests. intros E.
  destruct (_ || _); cbn [negb] in E; [|discriminate].
  destruct (run_categories server TEST_QUERIES ([], [])) as [e|[rows' cs']] eqn:Er;
    unfold bind, ret in E; [discriminate|].
  injection E as <- <-.
  assert (H0 : acc_ok ([], [])) by (split; [constructor | reflexivity]).
  destruct (run_categories_inv server _ _ _ H0 Er) as [[Hf Hs] Hl].
  change (n_queries TEST_QUERIES) with 315%nat in Hl. cbn [fst snd] in Hl, Hs.
  unfold zlen in Hl, Hs; cbn [length] in Hl.
  split; [lia|]. split; [exact Hf|].
  pose proof (summary_sum cs' Hf) as Hsum. destruct (summary cs') as [[[f n] e] h]. lia.
Qed.

(** A service that finds one homeowner for every request. *)
Definition one_hit (_ : string) (_ : list (string * string)) : test_result :=
  mk_result 200 5 (JObj [("homeowners", JArr [JNum 1]); ("documents", JArr [])]) None.

Lemma run_tests_accounting_witness :
  exists rows cs, run_tests one_hit = inr (Some (rows, cs)) /\
  length rows = 315%nat /\ Forall (fun p => consistent (snd p)) cs /\
  (let '(f, n, e, h) := summary cs in f + n + e + h = 315).
Proof.
  destruct (run_tests one_hit) as [e|[[rows cs]|]] eqn:E; [vm_compute in E; discriminate| |vm_compute in E; discriminate].
  exists rows, cs. split; [reflexivity|]. exact (run_tests_accounting one_hit rows cs E).
Defined.

(** C20: an HTTP failure never makes an evaluator raise: the homeowner,
    document and unified evaluators score any status other than 200 as
    "ERROR" with "HTTP <status>", and the edge-case evaluator scores 200
    and 400 as "HANDLED" and every other status as "ERROR". *)
Theorem evaluators_on_http_status r :
  (status_code r <> 200 ->
     forall ev, ev <> EvEdge -> evaluate ev r = inr (http_error r)) /\
  (evaluate EvEdge r = inr ("HANDLED", DStr ("HTTP " ++ show (status_code r))) <->
     status_code r = 200 \/ status_code r = 400) /\
  (status_code r <> 200 -> status_code r <> 400 -> evaluate EvEdge r = inr (http_error r)).
Proof.
  split; [|split].
  - intros Hs ev Hev. destruct ev; [| | |congruence]; simpl;
      unfold evaluate_homeowner_result, evaluate_document_result, evaluate_unified_result;
      rewrite (proj2 (Z.eqb_neq _ _) Hs); reflexivity.
  - simpl. unfold evaluate_edge_case, http_error.
    destruct (Z.eqb_spec (status_code r) 200), (Z.eqb_spec (status_code r) 400); simpl;
      split; intros H; auto; try (injection H as H; discriminate H); try (destruct H; contradiction).
  - intros H1 H2. simpl. unfold evaluate_edge_case.
    rewrite (proj2 (Z.eqb_neq _ _) H1), (proj2 (Z.eqb_neq _ _) H2). reflexivity.
Qed.

Lemma evaluators_on_http_status_witness :
  evaluate EvDocument (mk_result 503 10 JNull (Some "down")) = inr (http_error (mk_result 503 10 JNull (Some "down"))).
Proof.
  apply (proj1 (evaluators_on_http_status (mk_result 503 10 JNull (Some "down")))); [discriminate | discriminate].
Defined.



(** the only edge case routed away from [evaluate_edge_case] is the
    query "what is the meaning of life", typed "doc": a 400 answer to it
    counts as an error where the other edge cases count it as handled;
    no query of the table has type "general", so the branch mapping it
    to "auto" is never taken. *)
Example edge_case_routing :
  map q (filter (fun qi => match route "edge_cases" qi with (_, EvEdge) => false | _ => true end)
                (match find (fun p => String.eqb (fst p) "edge_cases") TEST_QUERIES with
                 | Some p => snd p | None => [] end)) = ["what is the meaning of life"] /\
  forallb (fun p => forallb (fun qi => negb (String.eqb (qtype qi) "general")) (snd p)) TEST_QUERIES = true /\
  evaluate EvDocument (mk_result 400 3 JNull (Some "bad request")) = inr ("ERROR", DStr "HTTP 400").
Proof. vm_compute. repeat split. Qed.

End Harness.
