(* ===== verification/Api.v ===== *)
(** * The answer-extraction pipeline

    [extract_answer_with_claude_v2] (lines 381-478) and
    [synthesize_multiple_documents] (lines 517-564) of
    src/src/optimized_extraction.py.  The HTTP call to the Anthropic API,
    [json.loads] and the instantiation of the two prompt templates are
    the parameters of a section: the templates are constant text the code
    only formats, and the call and the parser are outside the
    repository (Prompt.v models the templates and shows that formatting
    them never raises).  Everything else is the code: the guards, the
    [try]/[except] blocks as a [res] computation whose failures become
    [None], the search for the JSON object in the reply with [re.search],
    and the validation of the parsed result, which calls
    [calculate_confidence_score], [get_follow_up_questions] and
    [detect_query_category] of Answer.v. *)

From Stdlib Require Import String Ascii List Arith ZArith Lia Bool.
From S2P Require Import Prelude Regex Client Json Answer.
Import ListNotations.
Import Client Json Answer.
Open Scope py_scope.
Open Scope string_scope.

Module Api.

(** What [requests.post(...)] gives: a response with its status, text
    and decoded JSON body ([None] when [resp.json()] fails), or one of
    the two exceptions the code catches. *)
Inductive http_outcome :=
| Resp (status : Z) (text : string) (body : option json)
| Timeout
| Failure.

(** The value [extract_answer_with_claude_v2] returns: [None], the dict
    of [generate_not_found_response], or the validated dict of the
    model's answer. *)
Inductive extraction :=
| XNone
| XNotFound (a : answer)
| XResult (r : list (string * json)).

(** [resp.json()['content'][0]['text']]: [None] when a key, the index
    or the type is wrong (the [except Exception] branch), or when the
    text is not a string ([re.search] then raises). *)
Definition content_text (body : option json) : option string :=
  match body with
  | Some (JObj o) =>
      match jfind "content" o with
      | Some (JArr (JObj c :: _)) =>
          match jfind "text" c with Some (JStr t) => Some t | _ => None end
      | _ => None
      end
  | _ => None
  end.

(** [json_match = re.search(r'\{[\s\S]*\}', content)] and
    [json_match.group()] *)
Definition json_span (content : string) : res (option string) :=
  mo <- Re.re_search "\{[\s\S]*\}" content false ;;
  ret (option_map (fun m => Re.match_str m content) mo).

(** ** The view of the result that [calculate_confidence_score] reads *)

(** [x.get(k, '') or ''] followed by [.lower()]: a falsy value is [''],
    a string is itself, any other value has no [.lower()]. *)
Definition str_view (v : json) : res (option string) :=
  if jtruthy v then match v with JStr s => ret (Some s) | _ => raise AttributeError end
  else ret (Some "").

(** The answer is passed to [re.search] (factor 2, numeric questions
    only) and to [.split()] (factor 5): [None] raises there (in
    Answer.v); another non-string value raises here, [TypeError] in
    [re.search] for a numeric question, [AttributeError] in [.split()]
    otherwise (the factors between them raise [AttributeError] or
    nothing). *)
Definition answer_view (query : string) (v : json) : res (option string) :=
  match v with
  | JStr s => ret (Some s)
  | JNull => ret None
  | _ => raise (if existsb (fun kw => str_contains kw (str_lower query)) numeric_questions
                then TypeError else AttributeError)
  end.

(** [source_section] is only tested for truthiness. *)
Definition section_view (v : json) : option string :=
  if jtruthy v then Some "section" else None.

Definition conf_view (r : list (string * json)) (query : string) : res jobj :=
  q <- str_view (jfind_d "quote" r (JStr "")) ;;
  a <- answer_view query (jfind_d "answer" r (JStr "")) ;;
  d <- str_view (jfind_d "source_document" r (JStr "")) ;;
  ret [("quote", q); ("answer", a); ("source_section", section_view (jfind_d "source_section" r JNull));
       ("source_document", d)].

(** [result['confidence'] in ['high', 'medium', 'low']] *)
Definition is_level (v : json) : bool :=
  match v with JStr c => existsb (String.eqb c) ["high"; "medium"; "low"] | _ => false end.

(** The validation of lines 441-464 on the parsed dict. *)
Definition validate (query : string) (r : list (string * json)) : res (list (string * json)) :=
  let r := if jtruthy (jfind_d "answer" r JNull) then r
           else jset (jset r "answer" (JStr "No specific information found in the available documents."))
                     "found" (JBool false) in
  r <- (if negb (jhas "confidence" r) || negb (is_level (jfind_d "confidence" r JNull))
        then v <- conf_view r query ;;
             c <- calculate_confidence_score v query ;;
             ret (jset r "confidence" (JStr c))
        else ret r) ;;
  let r := if negb (jhas "follow_up_questions" r) || negb (jtruthy (jfind_d "follow_up_questions" r JNull))
           then jset r "follow_up_questions" (JArr (map JStr (get_follow_up_questions query None)))
           else r in
  let r := jsetdefault r "found" (JBool false) in
  let r := jsetdefault r "quote" JNull in
  let r := jsetdefault r "source_document" JNull in
  let r := jsetdefault r "source_section" JNull in
  let r := jsetdefault r "answer_type"
             (JStr (if jtruthy (jfind_d "found" r JNull) then "definitive" else "not_found")) in
  let r := jsetdefault r "related_info" JNull in
  ret (jset r "extraction_type" (JStr (detect_query_category query))).

(** [community or "Not specified"] *)
Definition community_or (community : option string) : string :=
  match community with Some c => if truthy community then c else "Not specified"
                  | None => "Not specified" end.

Section Calls.

(** [ANTHROPIC_API_KEY] *)
Variable api_key : string.
(** [requests.post("https://api.anthropic.com/v1/messages", ...)] with
    the prompt as the message *)
Variable post_messages : string -> http_outcome.
(** [json.loads]: [None] for [JSONDecodeError] *)
Variable json_loads : string -> option json.
(** [EXTRACTION_PROMPT_V2.format(query=..., community=..., doc_context=...)] *)
Variable extraction_prompt : string -> string -> string -> string.
(** [SYNTHESIS_PROMPT.format(query=..., community=..., doc_summaries=...)] *)
Variable synthesis_prompt : string -> string -> string -> string.

(** The body of the [try] of lines 412-478: [None] on every failure. *)
Definition ask (query prompt : string) : res (option (list (string * json))) :=
  match post_messages prompt with
  | Resp status _ body =>
      if negb (Z.eqb status 200) then ret None
      else
        match content_text body with
        | None => ret None
        | Some content =>
            span <- json_span content ;;
            match span with
            | None => ret None
            | Some j =>
                match json_loads j with
                | None => ret None
                | Some (JObj r) => r' <- validate query r ;; ret (Some r')
                | Some _ => raise AttributeError
                end
            end
        end
  | Timeout => ret None
  | Failure => ret None
  end.

(** [except Exception: return None] *)
Definition catch_all {A} (r : res (option A)) : option A :=
  match r with inr o => o | inl _ => None end.

(** [extract_answer_with_claude_v2(query, documents, community)] *)
Definition extract_answer_with_claude_v2 (query : string) (documents : list rdoc)
  (community : option string) : res extraction :=
  if String.eqb api_key "" then ret XNone
  else
    match documents with
    | [] => ret (XNotFound (generate_not_found_response query (@nil rdoc)
                             (Some (detect_query_category query))))
    | _ =>
        doc_context <- build_document_context documents 3000 ;;
        let prompt := extraction_prompt query (community_or community) doc_context in
        ret (match catch_all (ask query prompt) with
             | Some r => XResult r
             | None => XNone
             end)
    end.

(** One summary of lines 529-533: [content[:2000]] slices [None] with a
    [TypeError]. *)
Definition doc_summary (i : nat) (d : rdoc) : res string :=
  let title := dict_get (rd_fields d) "title" (Some "Unknown") in
  content <- match dict_get (rd_fields d) "content" (Some "") with
             | Some c => ret (str_take 2000 c)
             | None => raise TypeError
             end ;;
  ret ("[" ++ show (Z.of_nat (S i)) ++ "] " ++ py_fmt title ++ String newline EmptyString ++
       content ++ String newline EmptyString).

Fixpoint summaries (i : nat) (ds : list rdoc) : res (list string) :=
  match ds with
  | [] => ret []
  | d :: ds' => s <- doc_summary i d ;; ss <- summaries (S i) ds' ;; ret (s :: ss)
  end.

(** The reply of the synthesis call (lines 552-561). *)
Definition ask_synthesis (prompt : string) : res (option json) :=
  match post_messages prompt with
  | Resp status _ body =>
      if negb (Z.eqb status 200) then ret None
      else
        match content_text body with
        | None => ret None
        | Some content =>
            span <- json_span content ;;
            ret (match span with Some j => json_loads j | None => None end)
        end
  | _ => ret None
  end.

(** [synthesize_multiple_documents(query, documents, community)] *)
Definition synthesize_multiple_documents (query : string) (documents : list rdoc)
  (community : option string) : res (option json) :=
  if String.eqb api_key "" || Nat.ltb (length documents) 2 then ret None
  else
    ss <- summaries 0 (firstn 5 documents) ;;
    let prompt := synthesis_prompt query (community_or community)
                    (String.concat (String newline EmptyString) ss) in
    ret (catch_all (ask_synthesis prompt)).

End Calls.

(** ** The validated result *)

(** The keys every validated result has. *)
Definition expected_keys : list string :=
  ["answer"; "found"; "confidence"; "quote"; "source_document"; "source_section";
   "answer_type"; "related_info"; "follow_up_questions"; "extraction_type"].

Lemma confidence_level_is_level s : is_level (JStr (confidence_level s)) = true.
Proof. unfold confidence_level. destruct (70 <=? s)%Z; [|destruct (40 <=? s)%Z]; reflexivity. Qed.

Lemma calculate_is_level r q c : calculate_confidence_score r q = inr c -> is_level (JStr c) = true.
Proof. unfold calculate_confidence_score. intros H. unbind. injection H as <-. apply confidence_level_is_level. Qed.

Lemma jtruthy_jhas k r : jtruthy (jfind_d k r JNull) = true -> jhas k r = true.
Proof. unfold jfind_d, jhas. destruct (jfind k r); [reflexivity | discriminate]. Qed.

Lemma orb_negb_false a b : negb a || negb b = false -> a = true /\ b = true.
Proof. destruct a, b; simpl; auto; discriminate. Qed.

(** The answer step of lines 442-444 leaves a truthy answer. *)
Lemma answer_step_truthy r :
  jtruthy (jfind_d "answer" (if jtruthy (jfind_d "answer" r JNull) then r
     else jset (jset r "answer" (JStr "No specific information found in the available documents."))
               "found" (JBool false)) JNull) = true.
Proof.
  destruct (jtruthy (jfind_d "answer" r JNull)) eqn:E; [exact E|].
  autorewrite with jsonrw. reflexivity.
Qed.

(** The confidence step of lines 447-448 leaves a level. *)
Lemma confidence_step query r r' :
  (if negb (jhas "confidence" r) || negb (is_level (jfind_d "confidence" r JNull))
   then v <- conf_view r query ;; c <- calculate_confidence_score v query ;; ret (jset r "confidence" (JStr c))
   else ret r) = inr r' ->
  (jhas "confidence" r = true /\ is_level (jfind_d "confidence" r JNull) = true /\ r' = r) \/
  (exists c, is_level (JStr c) = true /\ r' = jset r "confidence" (JStr c)).
Proof.
  destruct (_ || _) eqn:E; intros H; unbind.
  - right. injection H as <-. eauto using calculate_is_level.
  - left. apply orb_negb_false in E as [E1 E2]. injection H as <-. auto.
Qed.

(** The validation keeps the answer truthy and the confidence a level,
    puts every expected key, and records the query's category. *)
Lemma validate_shape query r r' :
  validate query r = inr r' ->
  jtruthy (jfind_d "answer" r' JNull) = true /\
  is_level (jfind_d "confidence" r' JNull) = true /\
  forallb (fun k => jhas k r') expected_keys = true /\
  jfind "extraction_type" r' = Some (JStr (detect_query_category query)).
Proof.
  unfold validate. intros E. unbind. injection E as <-.
  pose proof (answer_step_truthy r) as H1.
  set (r1 := if jtruthy (jfind_d "answer" r JNull) then r else _) in *.
  apply jtruthy_jhas in H1 as H1'.
  apply confidence_step in Ha as [(Hc1 & Hc2 & ->) | (c & Hc & ->)];
  match goal with |- context [if ?b then _ else _] => destruct b eqn:Ef end;
  try (apply orb_negb_false in Ef as [Ef _]; autorewrite with jsonrw in Ef);
  unfold expected_keys; cbn [forallb];
  autorewrite with jsonrw; rewrite ?jfind_jset_same, ?H1, ?H1', ?Hc1, ?Hc2, ?Ef; auto.
Qed.

(** The keys the validation writes over. *)
Definition overwritten_keys : list string :=
  ["answer"; "found"; "confidence"; "follow_up_questions"; "extraction_type"].

Lemma not_in_overwritten k :
  ~ In k overwritten_keys ->
  k <> "answer" /\ k <> "found" /\ k <> "confidence" /\ k <> "follow_up_questions" /\ k <> "extraction_type".
Proof. unfold overwritten_keys. simpl. intuition. Qed.

(** Every other key the model's dict has keeps the model's value. *)
Lemma validate_keeps query r r' k x :
  ~ In k overwritten_keys -> validate query r = inr r' -> jfind k r = Some x -> jfind k r' = Some x.
Proof.
  intros Hk E Hx. apply not_in_overwritten in Hk as (H1 & H2 & H3 & H4 & H5).
  unfold validate in E. unbind. injection E as <-.
  apply confidence_step in Ha as [(_ & _ & ->) | (c & _ & ->)];
  match goal with |- context [if ?b then _ else _] => destruct b end;
  repeat first [ apply jfind_jsetdefault_some | rewrite jfind_jset_other by assumption ];
  destruct (jtruthy _); rewrite ?jfind_jset_other by assumption; exact Hx.
Qed.

(** The summaries of [synthesize_multiple_documents] fail exactly on a
    null content, with [TypeError]. *)
Definition null_content (d : rdoc) : Prop := dict_get (rd_fields d) "content" (Some "") = None.

Lemma summaries_result i ds :
  ((exists d, In d ds /\ null_content d) /\ summaries i ds = inl TypeError) \/
  ((forall d, In d ds -> ~ null_content d) /\ exists ss, summaries i ds = inr ss).
Proof.
  unfold null_content. revert i. induction ds as [|d ds IH]; intros i; simpl.
  - right. split; [intros _ [] | eexists; reflexivity].
  - unfold doc_summary. destruct (dict_get (rd_fields d) "content" (Some "")) as [c|] eqn:Ec.
    + simpl. destruct (IH (S i)) as [[(d' & Hd' & Hb) ->] | [Hall [ss ->]]].
      * left. split; [exists d'; auto | reflexivity].
      * right. split; [intros d' [<-|Hd']; [congruence | auto] | eexists; reflexivity].
    + left. split; [exists d; auto | reflexivity].
Qed.

Section Props.

Variable api_key : string.
Variable post_messages : string -> http_outcome.
Variable json_loads : string -> option json.
Variable extraction_prompt : string -> string -> string -> string.
Variable synthesis_prompt : string -> string -> string -> string.

Lemma ask_some query prompt r :
  ask post_messages json_loads query prompt = inr (Some r) -> exists r0, validate query r0 = inr r.
Proof.
  unfold ask. destruct (post_messages prompt) as [st t b| |]; try discriminate.
  destruct (negb (st =? 200)%Z); [discriminate|].
  destruct (content_text b) as [c|]; [|discriminate]. intros E. unbind.
  destruct a as [j|]; [|discriminate].
  destruct (json_loads j) as [[]|]; try discriminate. unbind. injection E as <-. eauto.
Qed.

Lemma catch_all_some {A} (m : res (option A)) x : catch_all m = Some x -> m = inr (Some x).
Proof. destruct m; simpl; congruence. Qed.

(** C17: [synthesize_multiple_documents] returns [None] without an API
    key or with fewer than two documents; the only exception that escapes
    is the [TypeError] of slicing a null content among the first five
    documents; otherwise it returns. *)
Theorem synthesize_outcomes query docs community :
  let synth := synthesize_multiple_documents api_key post_messages json_loads synthesis_prompt in
  ((api_key = "" \/ length docs < 2) -> synth query docs community = inr None) /\
  (forall e, synth query docs community = inl e ->
     e = TypeError /\ exists d, In d (firstn 5 docs) /\ null_content d) /\
  ((forall d, In d (firstn 5 docs) -> ~ null_content d) -> exists o, synth query docs community = inr o).
Proof.
  intros synth. unfold synth, synthesize_multiple_documents. split; [|split].
  - intros [->| Hl]; [reflexivity|]. apply Nat.ltb_lt in Hl. rewrite Hl, orb_true_r. reflexivity.
  - intros e. destruct (_ || _); [discriminate|].
    destruct (summaries_result 0 (firstn 5 docs)) as [[Hb ->] | [_ [ss ->]]];
      simpl; [intros [= <-]; auto | discriminate].
  - intros Hg. destruct (_ || _); [eexists; reflexivity|].
    destruct (summaries_result 0 (firstn 5 docs)) as [[(d & Hd & Hb) _] | [_ [ss ->]]];
      [exfalso; exact (Hg d Hd Hb) | eexists; reflexivity].
Qed.

Let extract := extract_answer_with_claude_v2 api_key post_messages json_loads extraction_prompt.

(** C14: a dict [extract_answer_with_claude_v2] returns has a truthy
    answer, a confidence among "high", "medium" and "low", every key of
    [expected_keys], and the detected category of the query as its
    [extraction_type]. *)
Theorem extract_result_shape query docs community r :
  extract query docs community = inr (XResult r) ->
  jtruthy (jfind_d "answer" r JNull) = true /\
  is_level (jfind_d "confidence" r JNull) = true /\
  forallb (fun k => jhas k r) expected_keys = true /\
  jfind "extraction_type" r = Some (JStr (detect_query_category query)).
Proof.
  unfold extract, extract_answer_with_claude_v2.
  destruct (String.eqb _ _); [discriminate|]. destruct docs; [discriminate|].
  intros E. unbind. injection E as E.
  destruct (catch_all _) eqn:Ec; [|discriminate]. injection E as <-.
  apply catch_all_some, ask_some in Ec as (m0 & Hv). exact (validate_shape _ _ _ Hv).
Qed.

(** C15: without an API key the result is [None]; with a key and no
    documents it is the not-found response for the query's category; the
    only exception that escapes is the [AttributeError] of
    [build_document_context] on a bad document among the first five; a
    timeout, a failed request or a status other than 200 gives [None]. *)
Theorem extract_answer_outcomes query docs community :
  (api_key = "" -> extract query docs community = inr XNone) /\
  (api_key <> "" -> docs = [] ->
     extract query docs community =
     inr (XNotFound (generate_not_found_response query (@nil rdoc) (Some (detect_query_category query))))) /\
  (forall e, extract query docs community = inl e ->
     e = AttributeError /\ exists d, In d (firstn 5 docs) /\ bad_doc d) /\
  (forall ctx, api_key <> "" -> docs <> [] -> build_document_context docs 3000 = inr ctx ->
     match post_messages (extraction_prompt query (community_or community) ctx) with
     | Resp status _ _ => status <> 200%Z
     | _ => True
     end ->
     extract query docs community = inr XNone).
Proof.
  unfold extract, extract_answer_with_claude_v2. split; [|split; [|split]].
  - intros ->. reflexivity.
  - intros Hk ->. destruct (String.eqb_spec api_key ""); [contradiction | reflexivity].
  - intros e. destruct (String.eqb _ _); [discriminate|]. destruct docs as [|d ds]; [discriminate|].
    unfold build_document_context.
    destruct (parts_result 3000 0 (firstn 5 (d :: ds))) as [[Hb ->] | [_ [ps ->]]];
      simpl; [intros [= <-]; auto | discriminate].
  - intros ctx Hk Hd Hc Hp. destruct (String.eqb_spec api_key ""); [contradiction|].
    destruct docs; [contradiction|]. rewrite Hc. cbn [bind]. unfold ask.
    destruct (post_messages _) as [st t b| |]; [|reflexivity|reflexivity].
    destruct (Z.eqb_spec st 200); [contradiction | reflexivity].
Qed.

(** C16: on the successful path (a 200 response whose text holds a JSON
    object that parses to a dict) the result is the validation of that
    dict, or [None] when the validation raises. *)
Theorem extract_answer_success query docs community ctx text body t j r0 :
  api_key <> "" -> docs <> [] -> build_document_context docs 3000 = inr ctx ->
  post_messages (extraction_prompt query (community_or community) ctx) = Resp 200 text body ->
  content_text body = Some t -> json_span t = inr (Some j) -> json_loads j = Some (JObj r0) ->
  extract query docs community =
  inr (match validate query r0 with inr r => XResult r | inl _ => XNone end).
Proof.
  intros Hk Hd Hc Hp Ht Hs Hl. unfold extract, extract_answer_with_claude_v2.
  destruct (String.eqb_spec api_key ""); [contradiction|]. destruct docs; [contradiction|].
  rewrite Hc. cbn [bind]. unfold ask. rewrite Hp. cbn [Z.eqb negb Pos.eqb].
  rewrite Ht, Hs. cbn [bind]. rewrite Hl. destruct (validate query r0); reflexivity.
Qed.

End Props.

(** ** Witnesses on a concrete reply *)

Definition demo_reply : string -> http_outcome :=
  fun _ => Resp 200 "ok" (Some (JObj [("content", JArr [JObj [("text", JStr "Result: {j} end")]])])).

Definition demo_loads : string -> option json :=
  fun _ => Some (JObj [("answer", JStr "Fences may be 6 feet.");
                       ("quote", JStr "no fence higher than six feet");
                       ("source_document", JStr "CCR.pdf")]).

Definition demo_docs : list rdoc :=
  [mk_rdoc [("title", Some "CCR.pdf"); ("content", Some "Fences.")] None false].

Definition demo_prompt (q c d : string) : string := q ++ c ++ d.

Definition demo_result : list (string * json) :=
  [("answer", JStr "Fences may be 6 feet.");
   ("quote", JStr "no fence higher than six feet");
   ("source_document", JStr "CCR.pdf");
   ("confidence", JStr "medium");
   ("follow_up_questions",
    JArr [JStr "What fence materials are approved?";
          JStr "Is ARC approval required for fence installation?";
          JStr "Can I have a fence in my front yard?"]);
   ("found", JBool false); ("source_section", JNull);
   ("answer_type", JStr "not_found"); ("related_info", JNull);
   ("extraction_type", JStr "fence")].

Lemma extract_result_shape_witness :
  extract_answer_with_claude_v2 "key" demo_reply demo_loads demo_prompt
    "How tall can my fence be?" demo_docs None = inr (XResult demo_result) /\
  jtruthy (jfind_d "answer" demo_result JNull) = true /\
  is_level (jfind_d "confidence" demo_result JNull) = true /\
  forallb (fun k => jhas k demo_result) expected_keys = true /\
  jfind "extraction_type" demo_result = Some (JStr (detect_query_category "How tall can my fence be?")).
Proof.
  split; [vm_compute; reflexivity|].
  apply (extract_result_shape "key" demo_reply demo_loads demo_prompt
           "How tall can my fence be?" demo_docs None demo_result).
  vm_compute. reflexivity.
Defined.

Lemma extract_answer_outcomes_witness :
  extract_answer_with_claude_v2 "" demo_reply demo_loads demo_prompt "fence?" demo_docs None = inr XNone /\
  extract_answer_with_claude_v2 "key" (fun _ => Timeout) demo_loads demo_prompt "fence?" demo_docs None
    = inr XNone.
Proof.
  split.
  - apply (proj1 (extract_answer_outcomes "" demo_reply demo_loads demo_prompt "fence?" demo_docs None)).
    reflexivity.
  - apply (proj2 (proj2 (proj2 (extract_answer_outcomes "key" (fun _ => Timeout) demo_loads demo_prompt
             "fence?" demo_docs None))) (String.concat "" (match parts 3000 0 demo_docs with inr ps => ps | inl _ => [] end)));
      [discriminate | discriminate | vm_compute; reflexivity | exact I].
Defined.

Lemma extract_answer_success_witness :
  extract_answer_with_claude_v2 "key" demo_reply demo_loads demo_prompt "How tall can my fence be?" demo_docs None =
  inr (match validate "How tall can my fence be?" [("answer", JStr "Fences may be 6 feet.");
                       ("quote", JStr "no fence higher than six feet");
                       ("source_document", JStr "CCR.pdf")] with inr r => XResult r | inl _ => XNone end).
Proof.
  eapply (extract_answer_success "key" demo_reply demo_loads demo_prompt
            "How tall can my fence be?" demo_docs None _ "ok" _ "Result: {j} end" "{j}");
    [discriminate | discriminate | vm_compute; reflexivity | reflexivity | reflexivity
    | vm_compute; reflexivity | reflexivity].
Defined.

Lemma synthesize_outcomes_witness :
  synthesize_multiple_documents "key" demo_reply demo_loads demo_prompt "fence?" demo_docs None = inr None.
Proof. apply (proj1 (synthesize_outcomes "key" demo_reply demo_loads demo_prompt "fence?" demo_docs None)). right. simpl. lia. Defined.

Lemma validate_keeps_witness :
  match validate "How tall can my fence be?" [("answer", JStr "Six feet."); ("quote", JStr "six feet")] with
  | inr r' => jfind "quote" r' = Some (JStr "six feet")
  | inl _ => False
  end.
Proof.
  destruct (validate _ _) as [e|r'] eqn:E; [vm_compute in E; discriminate|].
  apply (validate_keeps "How tall can my fence be?" [("answer", JStr "Six feet."); ("quote", JStr "six feet")]
           r' "quote" (JStr "six feet")); [vm_compute; intuition discriminate | exact E | reflexivity].
Defined.

Lemma jfind_jsetdefault_absent l k v : jhas k l = false -> jfind k (jsetdefault l k v) = Some v.
Proof. unfold jsetdefault. intros ->. apply jfind_jset_same. Qed.

(** Reads a key back through the [jset] and [jsetdefault] steps of the
    validation that write other keys. *)
Ltac jfind_other :=
  repeat first [rewrite jfind_jset_other by discriminate
               | rewrite jfind_jsetdefault_other by discriminate].

(** C18: a reply whose dict has a truthy answer but neither a "found" nor
    an "answer_type" key keeps its answer and is returned with [found]
    False and [answer_type] "not_found": the [setdefault('found', False)]
    of line 453 runs before the [answer_type] of line 457 is derived
    from it, so an answer the model gives without the flag is labelled
    as not found. *)
Theorem answer_without_found_is_not_found query r r' :
  validate query r = inr r' ->
  jtruthy (jfind_d "answer" r JNull) = true -> jhas "found" r = false -> jhas "answer_type" r = false ->
  jfind "answer" r' = jfind "answer" r /\ jfind "found" r' = Some (JBool false) /\
  jfind "answer_type" r' = Some (JStr "not_found").
Proof.
  intros E Hans Hf Ht. unfold validate in E. rewrite Hans in E. unbind. injection E as <-.
  apply confidence_step in Ha as [(_ & _ & ->) | (c & _ & ->)];
    match goal with |- context [if ?b then jset _ "follow_up_questions" _ else _] => destruct b end;
    jfind_other; (split; [reflexivity|]);
    (split; [apply jfind_jsetdefault_absent; autorewrite with jsonrw; exact Hf|]);
    jfind_other; rewrite jfind_jsetdefault_absent by (autorewrite with jsonrw; exact Ht);
    autorewrite with jsonrw; unfold jfind_d; rewrite jfind_jsetdefault_absent
      by (autorewrite with jsonrw; exact Hf); reflexivity.
Qed.

Lemma answer_without_found_is_not_found_witness :
  exists r', validate "How tall can my fence be?" [("answer", JStr "Fences may be 6 feet.")] = inr r' /\
  jfind "answer" r' = Some (JStr "Fences may be 6 feet.") /\ jfind "found" r' = Some (JBool false) /\
  jfind "answer_type" r' = Some (JStr "not_found").
Proof.
  destruct (validate "How tall can my fence be?" [("answer", JStr "Fences may be 6 feet.")]) as [e|r'] eqn:E;
    [vm_compute in E; discriminate|].
  exists r'. split; [reflexivity|].
  apply (answer_without_found_is_not_found _ _ _ E); reflexivity.
Defined.

(** the search [\{[\s\S]*\}] is greedy: a reply with a JSON object
    followed by text in braces gives the span from the first "{" to the
    last "}", which [json.loads] rejects, so the answer is lost. *)
Example json_span_greedy :
  json_span "Answer: {a} see {b}." = inr (Some "{a} see {b}").
Proof. vm_compute. reflexivity. Qed.

End Api.
