(* ===== verification/Pyfmt.v ===== *)
(** * Python's text conversions of JSON values

    What the Power BI scripts (src/scripts/explore_*.py) do to the values
    of a DAX result when they print them: [str(v)] ([py_str]), the
    [repr] of the elements of a list or dict ([py_repr], with
    [py_repr_str] for strings: quote choice and escapes), the format
    specification [','] of [f"{count:,}"] ([format_comma]: thousands
    separators on an [int], [TypeError] or [ValueError] on other values),
    and [sorted] on a list of strings ([py_sorted], Python's order on code
    points).  Numbers are the integers of [json]; Power BI's decimals are
    outside the model (Json.v). *)

From Stdlib Require Import String Ascii List ZArith NArith Lia Bool Sorted Permutation RelationClasses.
From Stdlib Require Import DecimalString DecimalZ.
From S2P Require Import Prelude Client Json.
Import ListNotations.
Import Client Json.
Open Scope py_scope.
Open Scope string_scope.

Module Pyfmt.

(** The double quote, which a Rocq string literal cannot hold alone. *)
Definition dq : string := String (ascii_of_nat 34) EmptyString.
Definition sq : ascii := ascii_of_nat 39.
Definition backslash : ascii := ascii_of_nat 92.

Definition hex_digit (n : nat) : ascii :=
  if Nat.ltb n 10 then ascii_of_nat (48 + n) else ascii_of_nat (87 + n).

(** Characters [str.isprintable] rejects, on Latin-1: the C0 controls,
    DEL, the C1 controls, NO-BREAK SPACE and SOFT HYPHEN. *)
Definition unprintable (c : ascii) : bool :=
  let n := nat_of_ascii c in Nat.ltb n 32 || (Nat.leb 127 n && Nat.leb n 160) || Nat.eqb n 173.

(** One character of [repr(s)] with quote [q]. *)
Definition repr_char (q c : ascii) : list ascii :=
  if Ascii.eqb c q || Ascii.eqb c backslash then [backslash; c]
  else if Ascii.eqb c (ascii_of_nat 9) then [backslash; "t"%char]
  else if Ascii.eqb c (ascii_of_nat 10) then [backslash; "n"%char]
  else if Ascii.eqb c (ascii_of_nat 13) then [backslash; "r"%char]
  else if unprintable c then
    [backslash; "x"%char; hex_digit (nat_of_ascii c / 16); hex_digit (nat_of_ascii c mod 16)]
  else [c].

(** [repr(s)]: single quotes, unless the string holds a single quote and
    no double quote. *)
Definition py_repr_str (s : string) : string :=
  let l := chars s in
  let q := if existsb (Ascii.eqb sq) l && negb (existsb (Ascii.eqb (ascii_of_nat 34)) l)
           then ascii_of_nat 34 else sq in
  of_chars ([q] ++ flat_map (repr_char q) l ++ [q]).

Definition py_bool (b : bool) : string := if b then "True" else "False".

(** [repr(v)] *)
Fixpoint py_repr (v : json) : string :=
  match v with
  | JNull => "None"
  | JBool b => py_bool b
  | JNum z => show z
  | JStr s => py_repr_str s
  | JArr l => "[" ++ String.concat ", " (map py_repr l) ++ "]"
  | JObj o => "{" ++ String.concat ", " (map (fun p => py_repr_str (fst p) ++ ": " ++ py_repr (snd p)) o) ++ "}"
  end.

(** [str(v)]: a string is itself, everything else its [repr]. *)
Definition py_str (v : json) : string :=
  match v with JStr s => s | _ => py_repr v end.

(** ** [format(n, ',')] *)

(** A comma after every three digits, counted from the right, on the
    reversed digits. *)
Fixpoint group3 (l : list ascii) : list ascii :=
  match l with
  | a :: b :: c :: ((_ :: _) as rest) => a :: b :: c :: ","%char :: group3 rest
  | _ => l
  end.

Definition comma_int (n : Z) : string :=
  (if (n <? 0)%Z then "-" else "") ++ of_chars (rev (group3 (rev (chars (show (Z.abs n)))))).

(** [f"{v:,}"]: [bool] is an [int] subclass; [None], lists and dicts
    have no such format ([TypeError]), a [str] rejects it ([ValueError]). *)
Definition format_comma (v : json) : res string :=
  match v with
  | JNum z => ret (comma_int z)
  | JBool b => ret (if b then "1" else "0")
  | JStr _ => raise ValueError
  | _ => raise TypeError
  end.

(** [int(s.replace(',', ''))] *)
Definition uncomma (s : string) : string :=
  of_chars (filter (fun c => negb (Ascii.eqb c ","%char)) (chars s)).

Definition py_int (s : string) : option Z := option_map Z.of_int (NilZero.int_of_string s).

(** ** [sorted] on strings *)

Fixpoint insert_str (a : string) (l : list string) : list string :=
  match l with
  | [] => [a]
  | b :: l' => if String.leb a b then a :: l else b :: insert_str a l'
  end.

Fixpoint py_sorted (l : list string) : list string :=
  match l with
  | [] => []
  | a :: l' => insert_str a (py_sorted l')
  end.

Definition str_le (a b : string) : Prop := String.leb a b = true.

(** ** Lemmas *)

Lemma show_sign n : show n = (if (n <? 0)%Z then "-" else "") ++ show (Z.abs n).
Proof. destruct n; reflexivity. Qed.

Lemma uint_no_comma d : ~ In ","%char (chars (NilEmpty.string_of_uint d)).
Proof. induction d; simpl; intuition discriminate. Qed.

Lemma nz_uint_no_comma d : ~ In ","%char (chars (NilZero.string_of_uint d)).
Proof. destruct d; try exact (uint_no_comma _). simpl. intuition discriminate. Qed.

Lemma show_abs_no_comma n : ~ In ","%char (chars (show (Z.abs n))).
Proof. destruct n; exact (nz_uint_no_comma _). Qed.

Lemma group3_filter l :
  ~ In ","%char l -> filter (fun c => negb (Ascii.eqb c ","%char)) (group3 l) = filter (fun c => negb (Ascii.eqb c ","%char)) l.
Proof.
  intros Hl. remember (length l) as n eqn:En. revert l Hl En.
  induction n as [n IH] using lt_wf_ind; intros l Hl En.
  destruct l as [|a [|b [|c [|d r]]]]; try reflexivity.
  change (group3 (a :: b :: c :: d :: r)) with (a :: b :: c :: ","%char :: group3 (d :: r)).
  cbn [filter]. rewrite (IH (length (d :: r))); [| simpl in En |- *; lia | intros H; apply Hl; simpl; tauto | reflexivity].
  reflexivity.
Qed.

Lemma filter_no_comma l : ~ In ","%char l -> filter (fun c => negb (Ascii.eqb c ","%char)) l = l.
Proof.
  induction l as [|a l IH]; simpl; intros H; [reflexivity|].
  destruct (Ascii.eqb_spec a ","%char) as [->|]; [exfalso; tauto|]. simpl. rewrite IH; tauto.
Qed.

Lemma in_rev_iff {A} (x : A) l : In x (rev l) <-> In x l.
Proof. split; [apply in_rev | intros H; apply in_rev; rewrite rev_involutive; exact H]. Qed.

Lemma to_int_nonnil n : Z.to_int n <> Decimal.Pos Decimal.Nil /\ Z.to_int n <> Decimal.Neg Decimal.Nil.
Proof.
  destruct n; cbn; split; try discriminate;
    pose proof (DecimalPos.Unsigned.to_uint_nonnil p); congruence.
Qed.

Lemma str_le_trans a b c : str_le a b -> str_le b c -> str_le a c.
Proof.
  unfold str_le, String.leb. revert b c.
  induction a as [|x a IH]; intros [|y b] [|z c]; simpl; auto; try discriminate.
  unfold Ascii.compare.
  destruct (N.compare_spec (N_of_ascii x) (N_of_ascii y));
  destruct (N.compare_spec (N_of_ascii y) (N_of_ascii z));
  destruct (N.compare_spec (N_of_ascii x) (N_of_ascii z));
  intros Hab Hbc; try discriminate; try reflexivity; try (exfalso; lia).
  exact (IH b c Hab Hbc).
Qed.

#[export] Instance str_le_Transitive : Transitive str_le := str_le_trans.

Lemma str_le_total a b : str_le a b \/ str_le b a.
Proof. exact (String.leb_total a b). Qed.

Lemma insert_str_perm a l : Permutation (a :: l) (insert_str a l).
Proof.
  induction l as [|b l IH]; simpl; [auto|]. destruct (String.leb a b); [auto|].
  transitivity (b :: a :: l); [apply perm_swap | constructor; exact IH].
Qed.

Lemma insert_str_sorted a l : Sorted str_le l -> Sorted str_le (insert_str a l).
Proof.
  induction 1 as [|b l Hs IH Hhd]; simpl; [auto|].
  destruct (String.leb a b) eqn:E; [constructor; auto|].
  assert (Hba : str_le b a) by (destruct (str_le_total a b); unfold str_le in *; congruence).
  constructor; [exact IH|].
  destruct l as [|c l']; simpl; [constructor; exact Hba|].
  inversion Hhd; subst. destruct (String.leb a c); constructor; assumption.
Qed.

(** Two sorted permutations of each other are equal: the order is total
    and antisymmetric. *)
Lemma sorted_perm_unique l1 l2 :
  Sorted str_le l1 -> Sorted str_le l2 -> Permutation l1 l2 -> l1 = l2.
Proof.
  intros S1 S2 P. apply Sorted_StronglySorted in S1; [|exact str_le_Transitive].
  apply Sorted_StronglySorted in S2; [|exact str_le_Transitive].
  revert l2 S2 P. induction S1 as [|a t St IH Ha]; intros l2 S2 P.
  - symmetry. apply Permutation_nil, P.
  - destruct S2 as [|b u Su Hb]; [apply Permutation_sym, Permutation_nil in P; discriminate|].
    assert (a = b) as <-.
    { assert (Hb1 : In b (a :: t)) by (apply (Permutation_in _ (Permutation_sym P)); left; reflexivity).
      assert (Ha1 : In a (b :: u)) by (apply (Permutation_in _ P); left; reflexivity).
      destruct Hb1 as [->|Hb']; [reflexivity|]. destruct Ha1 as [->|Ha']; [reflexivity|].
      apply String.leb_antisym; [exact (proj1 (Forall_forall _ _) Ha b Hb') | exact (proj1 (Forall_forall _ _) Hb a Ha')]. }
    f_equal. apply IH; [exact Su | exact (Permutation_cons_inv P)].
Qed.

(** [sorted(cols)] on strings: [py_sorted] returns a sorted
    permutation of its argument, and it is the only one, so it is
    Python's [sorted] whatever sorting algorithm Python uses. *)
Theorem py_sorted_spec l :
  Sorted str_le (py_sorted l) /\ Permutation l (py_sorted l) /\
  (forall l', Sorted str_le l' -> Permutation l l' -> l' = py_sorted l).
Proof.
  assert (Hs : Sorted str_le (py_sorted l)) by (induction l; simpl; auto using insert_str_sorted).
  assert (Hp : Permutation l (py_sorted l)).
  { clear Hs. induction l as [|a l IH]; simpl; [auto|].
    transitivity (a :: py_sorted l); [constructor; exact IH | apply insert_str_perm]. }
  split; [exact Hs | split; [exact Hp|]].
  intros l' Hs' Hp'. apply sorted_perm_unique; [exact Hs' | exact Hs |].
  transitivity l; [apply Permutation_sym; exact Hp' | exact Hp].
Qed.

(** [f"{n:,}"] on an [int] round-trips through
    [int(s.replace(',', ''))]: removing the separators gives [str(n)] back,
    which parses to [n]. *)
Theorem comma_int_roundtrip n :
  uncomma (comma_int n) = show n /\ py_int (uncomma (comma_int n)) = Some n.
Proof.
  assert (Hnc : ~ In ","%char (rev (chars (show (Z.abs n)))))
    by (rewrite in_rev_iff; apply show_abs_no_comma).
  assert (Hu : uncomma (comma_int n) = show n).
  { unfold uncomma, comma_int. rewrite chars_app, filter_app, chars_of_chars, filter_rev,
      (group3_filter _ Hnc), (filter_no_comma _ Hnc), rev_involutive.
    assert (Hs : forall b : bool, filter (fun c => negb (Ascii.eqb c ","%char)) (chars (if b then "-" else "")) =
                           chars (if b then "-" else "")) by (intros []; reflexivity).
    rewrite Hs, <- chars_app, of_chars_chars, <- show_sign. reflexivity. }
  split; [exact Hu|]. rewrite Hu. unfold py_int, show. destruct (to_int_nonnil n) as [H1 H2].
  rewrite (NilZero.isi _ H1 H2). simpl. rewrite DecimalZ.of_to. reflexivity.
Qed.

Lemma py_sorted_spec_witness : ["ARC"; "Calls"] = py_sorted ["Calls"; "ARC"].
Proof.
  apply (proj2 (proj2 (py_sorted_spec ["Calls"; "ARC"]))).
  - repeat constructor.
  - apply perm_swap.
Defined.

End Pyfmt.
