(* ===== verification/Dax.v ===== *)
(** * The Power BI client of the exploration scripts

    What src/scripts/explore_activity_data.py,
    explore_activity_data_v2.py and explore_m360_owner_activity.py share:
    reading the [power_bi] section of the configuration, acquiring a
    token with MSAL, [run_dax] (a DAX query posted to the dataset's
    [executeQueries] endpoint, the rows of the first table of the first
    result on a 200, [None] and an error line otherwise) and the loop
    that probes a list of table names with [COUNTROWS].

    A script is a computation of the monad [io]: the trace of its events
    (the queries it posts and the lines it prints) threaded through, and
    a result or the exception that ends the script.  The configuration,
    MSAL and the HTTP endpoint are the variables of a section: the
    configuration file and the services are outside the repository. *)

From Stdlib Require Import String Ascii List ZArith Lia Bool.
From S2P Require Import Prelude Client Json Pyfmt Answer.
Import ListNotations.
Import Client Json Pyfmt Answer.
Open Scope py_scope.
Open Scope string_scope.

Module Dax.

(** What [requests.post(...)] gives: a response with its status, text
    and [resp.json()] ([None] when the body is not JSON), or a failed
    request. *)
Inductive dax_outcome :=
| DResp (status : Z) (text : string) (body : option json)
| DFail.

Inductive event :=
| EQuery (url auth query : string)   (** a POST to [url] with [Authorization: auth] *)
| EPrint (line : string).            (** a [print] *)

(** ** The monad *)

Definition io (A : Type) : Type := list event -> res A * list event.

Definition iret {A} (a : A) : io A := fun t => (inr a, t).

Definition ibind {A B} (m : io A) (k : A -> io B) : io B :=
  fun t => match m t with
           | (inr a, t') => k a t'
           | (inl e, t') => (inl e, t')
           end.

Definition ilift {A} (r : res A) : io A := fun t => (r, t).

Definition emit (e : event) : io unit := fun t => (inr tt, (t ++ [e])%list).

Definition say (line : string) : io unit := emit (EPrint line).

Declare Scope dax_scope.
Delimit Scope dax_scope with dax.
Notation "'let*' x ':=' m 'in' k" := (ibind m (fun x => k))
  (at level 10, x name, m at level 100, k at level 200) : dax_scope.
Notation "'let*' ' p ':=' m 'in' k" := (ibind m (fun x => match x with p => k end))
  (at level 10, p pattern, m at level 100, k at level 200) : dax_scope.
Open Scope dax_scope.

(** [for x in l: f(x)] *)
Fixpoint iter {A} (l : list A) (f : A -> io unit) : io unit :=
  match l with
  | [] => iret tt
  | x :: l' => let* _ := f x in iter l' f
  end.

(** [for i, x in enumerate(l, start)] *)
Fixpoint iteri {A} (i : nat) (l : list A) (f : nat -> A -> io unit) : io unit :=
  match l with
  | [] => iret tt
  | x :: l' => let* _ := f i x in iteri (S i) l' f
  end.

Definition when (b : bool) (m : io unit) : io unit := if b then m else iret tt.

(** ** Text *)

Definition nl : string := String newline EmptyString.

Fixpoint rep (n : nat) (s : string) : string :=
  match n with O => "" | S n' => s ++ rep n' s end.

(** [print("=" * 70)] *)
Definition bar : string := rep 70 "=".

(** [any(x in s for x in keys)] *)
Definition any_in (keys : list string) (s : string) : bool :=
  existsb (fun x => str_contains x s) keys.

(** [[c for c in cols if any(x in c.lower() for x in keys)]] *)
Definition matching_cols (keys cols : list string) : list string :=
  filter (fun c => any_in keys (str_lower c)) cols.

(** [f"EVALUATE ROW(\"count\", COUNTROWS('{table}'))"] *)
Definition count_query (table : string) : string :=
  "EVALUATE ROW(" ++ dq ++ "count" ++ dq ++ ", COUNTROWS('" ++ table ++ "'))".

(** [resp.json()['results'][0]['tables'][0]['rows']] *)
Definition rows_of (b : json) : res json :=
  r <- jsub b "results" ;; r0 <- jidx0 r ;; t <- jsub r0 "tables" ;; t0 <- jidx0 t ;; jsub t0 "rows".

(** [list(rows[0].values())[0]] *)
Definition first_value (rows : json) : res json :=
  r0 <- jidx0 rows ;; vs <- jvalues r0 ;;
  match vs with v :: _ => ret v | [] => raise IndexError end.

Definition dax_url (workspace dataset : string) : string :=
  "https://api.powerbi.com/v1.0/myorg/groups/" ++ workspace ++ "/datasets/" ++ dataset ++ "/executeQueries".

Section Client.

(** [json.load(f)] of the configuration file *)
Variable config : json.
(** [msal.ConfidentialClientApplication(client_id, authority=...,
    client_credential=...).acquire_token_for_client(...)]: the dict MSAL
    returns, or the exception it raises. *)
Variable msal_token : json -> string -> json -> res json.
(** [requests.post(url, headers=..., json={'queries': [{'query': q}], ...})] *)
Variable post : string -> string -> string -> dax_outcome.

(** Lines 10-31 of each script: the [power_bi] section, the token and the
    [Authorization] header; [result['access_token']] is a [KeyError] when
    MSAL returns an error dict. *)
Definition authorize : io (json * string) :=
  let* pbi := ilift (jsub config "power_bi") in
  let* client_id := ilift (jsub pbi "client_id") in
  let* tenant_id := ilift (jsub pbi "tenant_id") in
  let* secret := ilift (jsub pbi "client_secret") in
  let* result := ilift (msal_token client_id ("https://login.microsoftonline.com/" ++ py_str tenant_id) secret) in
  let* token := ilift (jsub result "access_token") in
  iret (pbi, "Bearer " ++ py_str token).

(** [run_dax(workspace_id, dataset_id, query, label)]: the error line
    shows the first [cut] characters of the response text. *)
Definition run_dax (cut : nat) (auth workspace dataset query label : string) : io json :=
  let url := dax_url workspace dataset in
  let* _ := emit (EQuery url auth query) in
  match post url auth query with
  | DFail => ilift (raise ConnectionError)
  | DResp status text body =>
      if Z.eqb status 200 then
        match body with
        | Some b => ilift (rows_of b)
        | None => ilift (raise ValueError)
        end
      else
        let* _ := say ("    [" ++ label ++ "] Error " ++ show status ++ ": " ++ str_take cut text) in
        iret JNull
  end.

(** The probe of a list of tables: [for table in tables: rows =
    run_dax(count_query(table), table); if rows: count =
    list(rows[0].values())[0]; print(f"{indent}FOUND: '{table}' with
    {count:,} rows"); after(table)].  It returns the tables found. *)
Fixpoint probe (dax : string -> string -> io json) (indent : string) (after : string -> io unit)
  (tables : list string) : io (list string) :=
  match tables with
  | [] => iret []
  | table :: tables' =>
      let* rows := dax (count_query table) table in
      let* found :=
        (if jtruthy rows then
           let* count := ilift (first_value rows) in
           let* c := ilift (format_comma count) in
           let* _ := say (indent ++ "FOUND: '" ++ table ++ "' with " ++ c ++ " rows") in
           let* _ := after table in
           iret [table]
         else iret []) in
      let* rest := probe dax indent after tables' in
      iret (found ++ rest)%list
  end.

End Client.

(** ** A program logic: invariants of the trace *)

Section Logic.

Variable P : event -> Prop.

(** [m] keeps [P] on every event of the trace. *)
Definition ikeeps {A} (m : io A) : Prop := forall t, Forall P t -> Forall P (snd (m t)).

Lemma ikeeps_ret {A} (a : A) : ikeeps (iret a).
Proof. intros t Ht. exact Ht. Qed.

Lemma ikeeps_lift {A} (r : res A) : ikeeps (ilift r).
Proof. intros t Ht. exact Ht. Qed.

Lemma ikeeps_bind {A B} (m : io A) (k : A -> io B) :
  ikeeps m -> (forall a, ikeeps (k a)) -> ikeeps (ibind m k).
Proof.
  intros Hm Hk t Ht. unfold ibind. specialize (Hm t Ht).
  destruct (m t) as [[e|a] t']; [exact Hm | exact (Hk a t' Hm)].
Qed.

(** Binding a pure result keeps what the continuation keeps on it. *)
Lemma ikeeps_bind_lift {A B} (r : res A) (k : A -> io B) :
  (forall a, r = inr a -> ikeeps (k a)) -> ikeeps (ibind (ilift r) k).
Proof. intros Hk t Ht. unfold ibind, ilift. destruct r as [e|a]; [exact Ht | exact (Hk a eq_refl t Ht)]. Qed.

Lemma ikeeps_emit e : P e -> ikeeps (emit e).
Proof. intros He t Ht. unfold emit. simpl. apply Forall_app. auto. Qed.

Lemma ikeeps_iter {A} (l : list A) (f : A -> io unit) :
  (forall x, In x l -> ikeeps (f x)) -> ikeeps (iter l f).
Proof.
  induction l as [|x l IH]; intros Hf; simpl; [apply ikeeps_ret|].
  apply ikeeps_bind; [apply Hf; left; reflexivity | intros _; apply IH; intros y Hy; apply Hf; right; exact Hy].
Qed.

Lemma ikeeps_iteri {A} i (l : list A) (f : nat -> A -> io unit) :
  (forall j x, In x l -> ikeeps (f j x)) -> ikeeps (iteri i l f).
Proof.
  revert i. induction l as [|x l IH]; intros i Hf; simpl; [apply ikeeps_ret|].
  apply ikeeps_bind; [apply Hf; left; reflexivity | intros _; apply IH; intros j y Hy; apply Hf; right; exact Hy].
Qed.

Lemma ikeeps_when b (m : io unit) : ikeeps m -> ikeeps (when b m).
Proof. destruct b; [auto | intros _; apply ikeeps_ret]. Qed.

End Logic.

Create HintDb ikeeps discriminated.

(** Split an [ikeeps] goal along the structure of the program. *)
Ltac ikeep0 :=
  repeat (match goal with
          | |- forall _, _ => intro
          | |- ikeeps _ (ibind (ilift _) _) => apply ikeeps_bind_lift
          | |- ikeeps _ (ibind _ _) => apply ikeeps_bind
          | |- ikeeps _ (iret _) => apply ikeeps_ret
          | |- ikeeps _ (ilift _) => apply ikeeps_lift
          | |- ikeeps _ (iter _ _) => apply ikeeps_iter
          | |- ikeeps _ (iteri _ _ _) => apply ikeeps_iteri
          | |- ikeeps _ (when _ _) => apply ikeeps_when
          | |- ikeeps _ (say _) => apply ikeeps_emit
          | |- ikeeps _ (emit _) => apply ikeeps_emit
          | |- ikeeps _ (match ?x with _ => _ end) => destruct x
          | |- ikeeps _ (if ?b then _ else _) => destruct b
          end || (progress eauto with ikeeps)).

(** The events a query may carry: the token's header and an allowed URL. *)
Definition auth_ok (auth : string) (url_ok : string -> Prop) (e : event) : Prop :=
  match e with EQuery u a _ => a = auth /\ url_ok u | EPrint _ => True end.

Lemma auth_ok_print auth url_ok line : auth_ok auth url_ok (EPrint line).
Proof. exact I. Qed.

Lemma auth_ok_query auth (url_ok : string -> Prop) url q : url_ok url -> auth_ok auth url_ok (EQuery url auth q).
Proof. intros H. split; [reflexivity | exact H]. Qed.

#[export] Hint Resolve auth_ok_print auth_ok_query ikeeps_ret : ikeeps.

(** The queries of a trace, in order. *)
Definition queries (t : list event) : list string :=
  flat_map (fun e => match e with EQuery _ _ q => [q] | EPrint _ => [] end) t.

Lemma queries_app t1 t2 : queries (t1 ++ t2) = (queries t1 ++ queries t2)%list.
Proof. apply flat_map_app. Qed.

(** The value [run_dax] returns for a reply. *)
Definition reply_rows (o : dax_outcome) : res json :=
  match o with
  | DFail => raise ConnectionError
  | DResp status _ body =>
      if Z.eqb status 200 then match body with Some b => rows_of b | None => raise ValueError end
      else ret JNull
  end.

Section ClientLemmas.

Variable config : json.
Variable msal_token : json -> string -> json -> res json.
Variable post : string -> string -> string -> dax_outcome.

(** [authorize] prints and sends nothing. *)
Lemma authorize_pure t :
  snd (authorize config msal_token t) = t /\ fst (authorize config msal_token t) = fst (authorize config msal_token []).
Proof.
  unfold authorize, ibind, ilift, iret.
  destruct (jsub config "power_bi") as [e|pbi]; [auto|].
  destruct (jsub pbi "client_id"); [auto|]. destruct (jsub pbi "tenant_id"); [auto|].
  destruct (jsub pbi "client_secret"); [auto|]. destruct (msal_token _ _ _) as [e|r]; [auto|].
  destruct (jsub r "access_token"); auto.
Qed.

(** [run_dax] appends its query, then only prints, and returns the rows
    of the reply. *)
Lemma run_dax_step cut auth ws ds q label t :
  exists ps, snd (run_dax post cut auth ws ds q label t) = (t ++ EQuery (dax_url ws ds) auth q :: ps)%list /\
             queries ps = [] /\
             fst (run_dax post cut auth ws ds q label t) = reply_rows (post (dax_url ws ds) auth q).
Proof.
  unfold run_dax, reply_rows, ibind, emit, ilift, iret, say. simpl.
  destruct (post _ _ _) as [st text [b|]|]; [destruct (st =? 200)%Z| destruct (st =? 200)%Z |];
    simpl; eexists; (split; [rewrite <- ?app_assoc; reflexivity | split; reflexivity]).
Qed.

Lemma ikeeps_run_dax P cut auth ws ds q label :
  P (EQuery (dax_url ws ds) auth q) -> (forall l, P (EPrint l)) -> ikeeps P (run_dax post cut auth ws ds q label).
Proof. intros Hq Hp. unfold run_dax. ikeep0. Qed.

Lemma ikeeps_probe P dax ind after tables :
  (forall q l, ikeeps P (dax q l)) -> (forall l, P (EPrint l)) -> (forall tb, ikeeps P (after tb)) ->
  ikeeps P (probe dax ind after tables).
Proof. intros Hd Hp Ha. induction tables as [|tb tbs IH]; simpl; ikeep0. Qed.

(** A query sent after [authorize] carries the header [authorize]
    built, to a URL the body allows. *)
Lemma authorized_queries {A} (B : json -> string -> io A) (U : json -> string -> Prop) url auth q :
  (forall pbi a, fst (authorize config msal_token []) = inr (pbi, a) -> ikeeps (auth_ok a (U pbi)) (B pbi a)) ->
  In (EQuery url auth q)
     (snd (ibind (authorize config msal_token) (fun x => match x with (pbi, a) => B pbi a end) [])) ->
  exists pbi, fst (authorize config msal_token []) = inr (pbi, auth) /\ U pbi url.
Proof.
  intros HB Hin. destruct (authorize_pure []) as [Ht _].
  unfold ibind in Hin. destruct (authorize config msal_token []) as [[e|[pbi a]] t] eqn:E;
    simpl in Ht, Hin; subst t; [contradiction|].
  pose proof (HB pbi a eq_refl [] (Forall_nil _)) as Hall.
  destruct (proj1 (Forall_forall _ _) Hall _ Hin) as [-> Hu]. exists pbi. split; [reflexivity | exact Hu].
Qed.

(** Whether the count query of a table answers truthy rows. *)
Definition table_found (o : dax_outcome) : bool :=
  match reply_rows o with inr r => jtruthy r | inl _ => false end.

(** C23: the probe loop with nothing after a hit (sections [3] and [4] of
    the scripts, section [1] of the M360 script): when it completes, it
    has sent exactly one [COUNTROWS] query per table, in the order of the
    list, and returns the tables whose query answered truthy rows, in
    that order. *)
Theorem probe_found cut auth ws ds ind tables t found t' :
  probe (run_dax post cut auth ws ds) ind (fun _ => iret tt) tables t = (inr found, t') ->
  found = filter (fun tb => table_found (post (dax_url ws ds) auth (count_query tb))) tables /\
  queries t' = (queries t ++ map count_query tables)%list.
Proof.
  revert t found t'. induction tables as [|tb tbs IH]; intros t found t' H.
  - injection H as <- <-. rewrite app_nil_r. auto.
  - cbn [probe] in H. destruct (run_dax_step cut auth ws ds (count_query tb) tb t) as (ps & Et & Eq & Er).
    unfold ibind at 1 in H. destruct (run_dax post cut auth ws ds (count_query tb) tb t) as [[e|rows] t1];
      [discriminate|]. cbn [fst snd] in Et, Er. subst t1.
    cbn [filter]. unfold table_found at 1. rewrite <- Er.
    assert (Hb : exists t2 f, (if jtruthy rows then
                  let* count := ilift (first_value rows) in
                  let* c := ilift (format_comma count) in
                  let* _ := say (ind ++ "FOUND: '" ++ tb ++ "' with " ++ c ++ " rows") in
                  let* _ := iret tt in iret [tb] else iret []) (t ++ EQuery (dax_url ws ds) auth (count_query tb) :: ps)%list
                 = (f, t2) /\ queries t2 = queries (t ++ EQuery (dax_url ws ds) auth (count_query tb) :: ps)%list /\
                   (forall l, f = inr l -> l = if jtruthy rows then [tb] else [])).
    { destruct (jtruthy rows); [|do 2 eexists; split; [reflexivity | split; [reflexivity | intros l [= <-]; reflexivity]]].
      unfold ibind, ilift, iret, say, emit. destruct (first_value rows) as [e|cnt];
        [do 2 eexists; split; [reflexivity | split; [reflexivity | discriminate]]|].
      destruct (format_comma cnt) as [e|c]; [do 2 eexists; split; [reflexivity | split; [reflexivity | discriminate]]|].
      do 2 eexists. split; [reflexivity|]. split; [rewrite queries_app; simpl; rewrite app_nil_r; reflexivity|].
      intros l [= <-]. reflexivity. }
    destruct Hb as (t2 & f & Ef & Eq2 & Hf). unfold ibind at 1 in H. rewrite Ef in H.
    destruct f as [e|l]; [discriminate|]. unfold ibind in H.
    destruct (probe (run_dax post cut auth ws ds) ind (fun _ => iret tt) tbs t2) as [[e|rest] t3] eqn:Ep;
      [discriminate|]. injection H as <- <-.
    destruct (IH _ _ _ Ep) as [-> Eq3]. rewrite (Hf l eq_refl). split.
    + simpl. destruct (jtruthy rows); reflexivity.
    + rewrite Eq3, Eq2, queries_app. simpl. rewrite Eq, <- app_assoc. reflexivity.
Qed.

End ClientLemmas.

(** [ikeep0] with the client's operations. *)
Ltac ikeep :=
  repeat (match goal with
          | |- forall _, _ => intro
          | |- ikeeps _ (ibind (ilift _) _) => apply ikeeps_bind_lift
          | |- ikeeps _ (ibind _ _) => apply ikeeps_bind
          | |- ikeeps _ (iret _) => apply ikeeps_ret
          | |- ikeeps _ (ilift _) => apply ikeeps_lift
          | |- ikeeps _ (iter _ _) => apply ikeeps_iter
          | |- ikeeps _ (iteri _ _ _) => apply ikeeps_iteri
          | |- ikeeps _ (when _ _) => apply ikeeps_when
          | |- ikeeps _ (say _) => apply ikeeps_emit
          | |- ikeeps _ (emit _) => apply ikeeps_emit
          | |- ikeeps _ (run_dax _ _ _ _ _ _ _) => apply ikeeps_run_dax
          | |- ikeeps _ (probe _ _ _ _) => apply ikeeps_probe
          | |- ikeeps _ (match ?x with _ => _ end) => destruct x
          | |- ikeeps _ (if ?b then _ else _) => destruct b
          end || (progress eauto with ikeeps)).

(** C24: a table that exists but is empty crashes the probe: [COUNTROWS]
    of an empty table is blank, serialised as null, and
    [f"{count:,}"] on [None] raises [TypeError]; the tables after it are
    never probed. *)
Theorem probe_null_count dax ind after table tables t t' k o rs :
  dax (count_query table) table t = (inr (JArr (JObj ((k, JNull) :: o) :: rs)), t') ->
  probe dax ind after (table :: tables) t = (inl TypeError, t').
Proof. intros H. cbn [probe]. unfold ibind at 1. rewrite H. reflexivity. Qed.

#[export] Hint Resolve ikeeps_run_dax ikeeps_probe : ikeeps.

End Dax.
