(* ===== verification/Explore.v ===== *)
(** * The three Power BI exploration scripts

    src/scripts/explore_activity_data.py (both datasets),
    explore_activity_data_v2.py (the KPI dataset) and
    explore_m360_owner_activity.py (the M360 dataset of the
    configuration), statement by statement, as [io] computations of
    Dax.v over the same section variables (configuration, MSAL, HTTP).
    Each numbered section of a script is one definition; the script is
    their sequence after [authorize]. *)

From Stdlib Require Import String Ascii List ZArith Lia Bool.
From S2P Require Import Prelude Client Json Pyfmt Answer Dax.
Import ListNotations.
Import Client Json Pyfmt Answer Dax.
Open Scope py_scope.
Open Scope string_scope.
Open Scope dax_scope.

Module Explore.

(** ** Tables of the scripts *)

(** [DATASETS] of explore_activity_data.py, lines 34-43. *)
Definition DATASETS : list (string * (string * string)) :=
  [("M360", ("c5395f33-bd22-4d26-846f-5ad44c7ad108", "e17e4241-37b7-4d12-a2e8-8f4e6148ca03"));
   ("KPI", ("7def987c-e21b-4349-ac0f-731a4cf542d9", "1d0f8dce-cebc-4a87-9d4a-32aa04af03c7"))].

(** [WORKSPACE] and [DATASET] of explore_activity_data_v2.py, lines 30-32. *)
Definition KPI_WORKSPACE : string := "7def987c-e21b-4349-ac0f-731a4cf542d9".
Definition KPI_DATASET : string := "1d0f8dce-cebc-4a87-9d4a-32aa04af03c7".

Definition relevant_v1 : list string := ["inquiry"; "call"; "arc"; "billing"; "phone"].
Definition relevant_v2 : list string := ["inquiry"; "call"; "arc"; "billing"; "phone"; "request"].
Definition activity_keys : list string := ["inquiry"; "arc"; "call"; "note"; "activity"; "contact"].
Definition link_keys_v1 : list string := ["owner"; "account"; "acct"; "ownerid"; "accountid"; "propid"; "property"].
Definition owner_keys : list string := ["owner"; "property"; "account"; "propid"; "ownerid"; "acct"].

Definition call_tables : list string :=
  ["Calls"; "PhoneCalls"; "CallLog"; "pstn_calls"; "PhoneLog"; "ContactLog"].

Definition relevant_types : list string :=
  ["General Inquiry"; "Billing Inquiry"; "ARC"; "Phone Call"; "Inbound Call"].

Definition tables_to_try : list string :=
  ["OwnerActionItems"; "PropertyActionItems"; "OwnerActivity";
   "ActivityLog"; "OwnerHistory"; "ContactHistory"; "OwnerNotes";
   "Notes"; "OwnerContacts"; "ServiceRequests"; "ARCRequests";
   "ARC"; "ARCApplications"; "Inquiries"; "BillingInquiries";
   "GeneralInquiries"; "vOwnerActionItems"; "vwOwnerActivity"].

Definition activity_tables : list string :=
  ["pbi OwnerActivity"; "OwnerActivity"; "pbi Inquiries"; "Inquiries";
   "pbi GeneralInquiry"; "GeneralInquiry"; "pbi ActionItems"; "ActionItems";
   "pbi OwnerActionItems"; "OwnerActionItems"; "pbi Notes"; "Notes";
   "pbi OwnerNotes"; "OwnerNotes"; "pbi Calls"; "Calls";
   "pbi ARC"; "ARC"; "pbi ARCRequests"; "ARCRequests";
   "vwOwnerActivity"; "vwActionItems"; "vwInquiries";
   "Owner Activity"; "Action Items"; "Owner Notes"].

Definition test_cols : list string :=
  ["OwnerID"; "PropertyID"; "PropID"; "OwnerAcctNo"; "AccountNo"; "AcctNo"].

Definition owner_tables : list string :=
  ["pbi Owners"; "Owners"; "Owner"; "pbi Owner";
   "OwnerLedger"; "pbi OwnerLedger"; "vOwnerLedger"; "vOwnerLedger2";
   "OwnerContacts"; "pbi OwnerContacts"; "PropertyOwners";
   "OwnerHistory"; "OwnerCommunications"].

(** ** The DAX queries, verbatim *)

Definition q_top1 : string := "EVALUATE TOPN(1, ActionItemDetails)".

(** explore_activity_data.py, lines 78-85 *)
Definition q_types_v1 : string :=
  nl ++ "    EVALUATE" ++ nl ++ "    SUMMARIZECOLUMNS(" ++ nl ++ "        ActionItemDetails[ai_TypeDescr],"
  ++ nl ++ "        " ++ dq ++ "Count" ++ dq ++ ", COUNTROWS(ActionItemDetails)" ++ nl ++ "    )"
  ++ nl ++ "    ORDER BY [Count] DESC" ++ nl ++ "    ".

(** explore_activity_data.py, lines 118-125 *)
Definition q_sample (item_type : string) : string :=
  nl ++ "        EVALUATE" ++ nl ++ "        TOPN(2," ++ nl ++ "            FILTER(ActionItemDetails,"
  ++ nl ++ "                SEARCH(" ++ dq ++ item_type ++ dq ++ ", ActionItemDetails[ai_TypeDescr], 1, 0) > 0"
  ++ nl ++ "            )" ++ nl ++ "        )" ++ nl ++ "        ".

(** explore_activity_data_v2.py, lines 54-61 and 75-82 *)
Definition q_summarize (column : string) : string :=
  nl ++ "EVALUATE" ++ nl ++ "SUMMARIZECOLUMNS(" ++ nl ++ "    ActionItemDetails[" ++ column ++ "],"
  ++ nl ++ "    " ++ dq ++ "Count" ++ dq ++ ", COUNTROWS(ActionItemDetails)" ++ nl ++ ")"
  ++ nl ++ "ORDER BY [Count] DESC" ++ nl.

(** explore_activity_data_v2.py, lines 131-143 *)
Definition q_key_fields : string :=
  nl ++ "EVALUATE" ++ nl ++ "TOPN(5," ++ nl ++ "    SELECTCOLUMNS(ActionItemDetails,"
  ++ nl ++ "        " ++ dq ++ "AssocID" ++ dq ++ ", ActionItemDetails[AssocID],"
  ++ nl ++ "        " ++ dq ++ "AssocName" ++ dq ++ ", ActionItemDetails[AssocName],"
  ++ nl ++ "        " ++ dq ++ "ActionType" ++ dq ++ ", ActionItemDetails[ActionTypeDescr],"
  ++ nl ++ "        " ++ dq ++ "Category" ++ dq ++ ", ActionItemDetails[ActionCategoryDescription],"
  ++ nl ++ "        " ++ dq ++ "Created" ++ dq ++ ", ActionItemDetails[ActionItemCreatedDate],"
  ++ nl ++ "        " ++ dq ++ "Note" ++ dq ++ ", ActionItemDetails[LastNote]"
  ++ nl ++ "    )" ++ nl ++ ")" ++ nl.

(** explore_m360_owner_activity.py, lines 116-125 *)
Definition q_link_col (col : string) : string :=
  nl ++ "    EVALUATE" ++ nl ++ "    TOPN(3," ++ nl ++ "        SELECTCOLUMNS(ActionItemDetails,"
  ++ nl ++ "            " ++ dq ++ "ID" ++ dq ++ ", ActionItemDetails[ActionItemID],"
  ++ nl ++ "            " ++ dq ++ "Type" ++ dq ++ ", ActionItemDetails[ActionTypeDescr],"
  ++ nl ++ "            " ++ dq ++ "LinkCol" ++ dq ++ ", ActionItemDetails[" ++ col ++ "]"
  ++ nl ++ "        )" ++ nl ++ "    )" ++ nl ++ "    ".

(** [highlight = mark if any(x in s for x in keys) else ""] *)
Definition highlight (keys : list string) (s mark : string) : string :=
  if any_in keys s then mark else "".

(** The f-string of a list of strings, [{cols}]. *)
Definition show_list (l : list string) : string := py_str (JArr (map JStr l)).

Section Scripts.

Variable config : json.
Variable msal_token : json -> string -> json -> res json.
Variable post : string -> string -> string -> dax_outcome.

(** ** explore_activity_data.py *)

(** [run_dax] of lines 45-56 *)
Definition run_dax_v1 (auth ws ds query label : string) : io json := run_dax post 200 auth ws ds query label.

(** Section [1], lines 63-72 *)
Definition v1_columns (auth : string) : io unit :=
  let* _ := say (nl ++ "[1] ActionItemDetails Table - Columns:") in
  iter DATASETS (fun '(name, (ws, ds)) =>
    let* rows := run_dax_v1 auth ws ds q_top1 (name ++ " ActionItemDetails") in
    when (jtruthy rows)
      (let* r0 := ilift (jidx0 rows) in
       let* cols := ilift (jkeys r0) in
       let* _ := say (nl ++ "    " ++ name ++ " - " ++ show (zlen cols) ++ " columns:") in
       iter (py_sorted cols) (fun c => say ("        " ++ c)))).

(** Section [2], lines 74-96 *)
Definition v1_types (auth : string) : io unit :=
  let* _ := say (nl ++ bar) in
  let* _ := say "[2] Action Item Types (ai_TypeDescr values):" in
  iter DATASETS (fun '(name, (ws, ds)) =>
    let* rows := run_dax_v1 auth ws ds q_types_v1 (name ++ " Types") in
    when (jtruthy rows)
      (let* _ := say (nl ++ "    " ++ name ++ " Dataset:") in
       let* top := ilift (jtake 30 rows) in
       let* top := ilift (jiter top) in
       iter top (fun row =>
         let* type_name := ilift (jget row "ActionItemDetails[ai_TypeDescr]" (JStr "Unknown")) in
         let* count := ilift (jget row "[Count]" (JNum 0)) in
         let hl := highlight relevant_v1 (str_lower (py_str type_name)) " <-- RELEVANT" in
         let* c := ilift (format_comma count) in
         say ("        " ++ py_str type_name ++ ": " ++ c ++ hl)))).

(** Section [3], lines 98-109 *)
Definition v1_calls (auth : string) : io unit :=
  let* _ := say (nl ++ bar) in
  let* _ := say "[3] Looking for Call/Phone Tables:" in
  iter DATASETS (fun '(name, (ws, ds)) =>
    let* _ := say (nl ++ "    " ++ name ++ " Dataset:") in
    let* _ := probe (run_dax_v1 auth ws ds) "        " (fun _ => iret tt) call_tables in
    iret tt).

(** Section [4], lines 111-131 *)
Definition v1_samples (auth : string) : io unit :=
  let* _ := say (nl ++ bar) in
  let* _ := say "[4] Sample Records for Relevant Types:" in
  iter DATASETS (fun '(name, (ws, ds)) =>
    iter relevant_types (fun item_type =>
      let* rows := run_dax_v1 auth ws ds (q_sample item_type) (name ++ " " ++ item_type) in
      when (jtruthy rows)
        (let* _ := say (nl ++ "    " ++ name ++ " - '" ++ item_type ++ "' sample:") in
         let* r0 := ilift (jidx0 rows) in
         let* items := ilift (jitems r0) in
         iter items (fun '(k, v) => when (jtruthy v) (say ("        " ++ k ++ ": " ++ str_take 60 (py_str v))))))).

(** Section [5], lines 133-146 *)
Definition v1_links (auth : string) : io unit :=
  let* _ := say (nl ++ bar) in
  let* _ := say "[5] Owner/Account Link Fields in ActionItemDetails:" in
  iter DATASETS (fun '(name, (ws, ds)) =>
    let* rows := run_dax_v1 auth ws ds q_top1 name in
    when (jtruthy rows)
      (let* r0 := ilift (jidx0 rows) in
       let* cols := ilift (jkeys r0) in
       let link_cols := matching_cols link_keys_v1 cols in
       let* _ := say (nl ++ "    " ++ name ++ " - Potential link columns:") in
       iter link_cols (fun c =>
         let* sample_val := ilift (jget r0 c (JStr "N/A")) in
         say ("        " ++ c ++ ": " ++ py_str sample_val)))).

Definition done : io unit :=
  let* _ := say (nl ++ bar) in let* _ := say "DONE" in say bar.

(** The script, lines 1-152 *)
Definition explore_activity_data : io unit :=
  let* '(_, auth) := authorize config msal_token in
  let* _ := say bar in
  let* _ := say "EXPLORING POWER BI FOR HOMEOWNER ACTIVITY DATA" in
  let* _ := say bar in
  let* _ := v1_columns auth in
  let* _ := v1_types auth in
  let* _ := v1_calls auth in
  let* _ := v1_samples auth in
  let* _ := v1_links auth in
  done.

(** ** explore_activity_data_v2.py *)

(** [run_dax] of lines 34-45 *)
Definition run_dax_v2 (auth query label : string) : io json :=
  run_dax post 300 auth KPI_WORKSPACE KPI_DATASET query label.

(** Sections [1] and [2], lines 51-89: the rows of a SUMMARIZECOLUMNS
    count, highlighted with [keys] in section [1]. *)
Definition v2_counts (auth : string) (header column label : string) (keys : option (list string)) : io unit :=
  let* _ := say header in
  let* rows := run_dax_v2 auth (q_summarize column) label in
  when (jtruthy rows)
    (let* rows' := ilift (jiter rows) in
     iter rows' (fun row =>
       let* type_name := ilift (jget row ("ActionItemDetails[" ++ column ++ "]") (JStr "Unknown")) in
       let* count := ilift (jget row "[Count]" (JNum 0)) in
       let hl := match keys with
                 | Some ks => highlight ks (str_lower (py_str type_name)) " <-- RELEVANT"
                 | None => ""
                 end in
       let* c := ilift (format_comma count) in
       say ("    " ++ py_str type_name ++ ": " ++ c ++ hl))).

(** Section [3], lines 91-96 *)
Definition v2_sample (auth : string) : io unit :=
  let* _ := say (nl ++ "[3] Sample Record (all fields):") in
  let* rows := run_dax_v2 auth q_top1 "Sample" in
  when (jtruthy rows)
    (let* r0 := ilift (jidx0 rows) in
     let* items := ilift (jitems r0) in
     iter items (fun '(k, v) => say ("    " ++ k ++ ": " ++ py_str v))).

(** Section [5], lines 114-125 *)
Definition v2_info (auth : string) : io unit :=
  let* _ := say (nl ++ "[5] Trying to find all tables via INFO functions:") in
  iter [("INFO.TABLES()", "INFO.TABLES")] (fun '(q, label) =>
    let* rows := run_dax_v2 auth ("EVALUATE " ++ q) label in
    when (jtruthy rows)
      (let* _ := say ("    " ++ label ++ " worked! Tables found:") in
       let* rows' := ilift (jiter rows) in
       iter rows' (fun row => say ("        " ++ py_str row)))).

(** Section [6], lines 127-152 *)
Definition v2_records (auth : string) : io unit :=
  let* _ := say (nl ++ "[6] Check for Owner Link in ActionItemDetails:") in
  let* rows := run_dax_v2 auth q_key_fields "Sample with key fields" in
  when (jtruthy rows)
    (let* _ := say "    Sample records:" in
     let* rows' := ilift (jiter rows) in
     iteri 0 rows' (fun i row =>
       let* _ := say (nl ++ "    Record " ++ show (Z.of_nat (S i)) ++ ":") in
       let* items := ilift (jitems row) in
       iter items (fun '(k, v) =>
         let val := if jtruthy v then str_take 80 (py_str v) else "N/A" in
         say ("        " ++ k ++ ": " ++ val)))).

(** The script, lines 1-156 *)
Definition explore_activity_data_v2 : io unit :=
  let* '(_, auth) := authorize config msal_token in
  let* _ := say bar in
  let* _ := say "EXPLORING KPI DATASET FOR ACTIVITY DATA" in
  let* _ := say bar in
  let* _ := v2_counts auth (nl ++ "[1] All Action Types (ActionTypeDescr):") "ActionTypeDescr"
              "Action Types" (Some relevant_v2) in
  let* _ := v2_counts auth (nl ++ "[2] All Action Categories:") "ActionCategoryDescription"
              "Categories" None in
  let* _ := v2_sample auth in
  let* _ := say (nl ++ "[4] Looking for Owner-Level Activity Tables:") in
  let* _ := probe (run_dax_v2 auth) "    " (fun _ => iret tt) tables_to_try in
  let* _ := v2_info auth in
  let* _ := v2_records auth in
  done.

(** ** explore_m360_owner_activity.py *)

(** [run_dax] of lines 35-46, on the configured workspace and dataset *)
Definition run_dax_m360 (auth : string) (ws ds : json) (query label : string) : io json :=
  run_dax post 200 auth (py_str ws) (py_str ds) query label.

(** Section [2], lines 75-89 *)
Definition m360_homeowners (dax : string -> string -> io json) : io unit :=
  let* _ := say (nl ++ "[2] All columns in 'pbi Homeowners':") in
  let* rows := dax "EVALUATE TOPN(1, 'pbi Homeowners')" "pbi Homeowners sample" in
  when (jtruthy rows)
    (let* r0 := ilift (jidx0 rows) in
     let* cols := ilift (jkeys r0) in
     let* _ := say ("    Found " ++ show (zlen cols) ++ " columns:") in
     iter (py_sorted cols) (fun c =>
       let* val := ilift (jget r0 c JNull) in
       let val_str := if jtruthy val then str_take 50 (py_str val) else "NULL" in
       let hl := highlight activity_keys (str_lower c) " <-- ACTIVITY?" in
       say ("        " ++ c ++ ": " ++ val_str ++ hl))).

(** Section [3], lines 91-102 *)
Definition m360_owner_fields (dax : string -> string -> io json) : io unit :=
  let* _ := say (nl ++ "[3] ActionItemDetails in M360 - checking for owner fields:") in
  let* rows := dax q_top1 "ActionItemDetails" in
  when (jtruthy rows)
    (let* r0 := ilift (jidx0 rows) in
     let* cols := ilift (jkeys r0) in
     let owner_cols := matching_cols owner_keys cols in
     let* _ := say ("    Potential owner link columns: " ++ show_list owner_cols) in
     let* _ := say ("    All columns (" ++ show (zlen cols) ++ "):") in
     iter (py_sorted cols) (fun c => say ("        " ++ c))).

(** Section [4], lines 104-130; the query assigned at line 106 is never
    sent: the loop overwrites it. *)
Definition m360_link_cols (dax : string -> string -> io json) : io unit :=
  let* _ := say (nl ++ "[4] Checking for ActionItemDetails with Owner/Property ID:") in
  iter test_cols (fun col =>
    let* rows := dax (q_link_col col) ("ActionItemDetails." ++ col) in
    when (jtruthy rows)
      (let* _ := say (nl ++ "    FOUND column ActionItemDetails[" ++ col ++ "]!") in
       let* rows' := ilift (jiter rows) in
       iter rows' (fun row => say ("        " ++ py_str row)))).

(** The columns query of lines 146-151, for a table found in section [5]. *)
Definition m360_table_columns (dax : string -> string -> io json) (table : string) : io unit :=
  let* rows2 := dax ("EVALUATE TOPN(1, '" ++ table ++ "')") (table ++ " columns") in
  when (jtruthy rows2)
    (let* r0 := ilift (jidx0 rows2) in
     let* cols := ilift (jkeys r0) in
     say ("        Columns: " ++ show_list (firstn 10 cols) ++ "...")).

(** The script, lines 1-155 *)
Definition explore_m360_owner_activity : io unit :=
  let* '(pbi, auth) := authorize config msal_token in
  let* ws := ilift (jsub pbi "m360_workspace_id") in
  let* ds := ilift (jsub pbi "m360_dataset_id") in
  let* _ := say bar in
  let* _ := say "EXPLORING M360 DATASET FOR OWNER-LEVEL ACTIVITY" in
  let* _ := say ("Workspace: " ++ py_str ws) in
  let* _ := say ("Dataset: " ++ py_str ds) in
  let* _ := say bar in
  let* _ := say (nl ++ "[1] Looking for Activity Tables with Owner Data:") in
  let* found_tables := probe (run_dax_m360 auth ws ds) "    " (fun _ => iret tt) activity_tables in
  let* _ := m360_homeowners (run_dax_m360 auth ws ds) in
  let* _ := m360_owner_fields (run_dax_m360 auth ws ds) in
  let* _ := m360_link_cols (run_dax_m360 auth ws ds) in
  let* _ := say (nl ++ "[5] Looking for any table with 'Owner' or 'Property' in name:") in
  let* _ := probe (run_dax_m360 auth ws ds) "    " (m360_table_columns (run_dax_m360 auth ws ds)) owner_tables in
  done.

(** ** What the scripts send *)

(** C22: every DAX query a script sends carries the header
    [Bearer <access_token>] of the token [authorize] obtained, so no
    query leaves before MSAL has answered with a token (without one the
    script stops at [result['access_token']]); the URL is one of the
    two datasets of [DATASETS] (explore_activity_data.py), the KPI
    dataset (explore_activity_data_v2.py), or the configured M360
    workspace and dataset (explore_m360_owner_activity.py). *)
Theorem scripts_authorized url auth q :
  (In (EQuery url auth q) (snd (explore_activity_data [])) ->
     exists pbi, fst (authorize config msal_token []) = inr (pbi, auth) /\
     exists name ws ds, In (name, (ws, ds)) DATASETS /\ url = dax_url ws ds) /\
  (In (EQuery url auth q) (snd (explore_activity_data_v2 [])) ->
     exists pbi, fst (authorize config msal_token []) = inr (pbi, auth) /\
     url = dax_url KPI_WORKSPACE KPI_DATASET) /\
  (In (EQuery url auth q) (snd (explore_m360_owner_activity [])) ->
     exists pbi, fst (authorize config msal_token []) = inr (pbi, auth) /\
     exists ws ds, jsub pbi "m360_workspace_id" = inr ws /\ jsub pbi "m360_dataset_id" = inr ds /\
                   url = dax_url (py_str ws) (py_str ds)).
Proof.
  split; [|split]; intros Hin.
  - eapply (authorized_queries config msal_token (fun _ a => _)
              (fun _ u => exists name ws ds, In (name, (ws, ds)) DATASETS /\ u = dax_url ws ds)); [|exact Hin].
    intros pbi a _. unfold v1_columns, v1_types, v1_calls, v1_samples, v1_links, done, run_dax_v1.
    ikeep; apply auth_ok_query; cbv beta; eauto.
  - eapply (authorized_queries config msal_token (fun _ a => _)
              (fun _ u => u = dax_url KPI_WORKSPACE KPI_DATASET)); [|exact Hin].
    intros pbi a _. unfold v2_counts, v2_sample, v2_info, v2_records, done, run_dax_v2.
    ikeep; apply auth_ok_query; reflexivity.
  - eapply (authorized_queries config msal_token (fun pbi a => _)
              (fun pbi u => exists ws ds, jsub pbi "m360_workspace_id" = inr ws /\
                            jsub pbi "m360_dataset_id" = inr ds /\ u = dax_url (py_str ws) (py_str ds)));
      [|exact Hin].
    intros pbi a _. unfold m360_homeowners, m360_owner_fields, m360_link_cols, m360_table_columns, done, run_dax_m360.
    ikeep; apply auth_ok_query; cbv beta; eauto.
Qed.

End Scripts.

(** ** Scenarios on an in-memory Power BI service *)

(** A reply with [rows] as the first table of the first result. *)
Definition dax_body (rows : list json) : option json :=
  Some (JObj [("results", JArr [JObj [("tables", JArr [JObj [("rows", JArr rows)]])]])]).

Definition demo_config : json :=
  JObj [("power_bi", JObj [("client_id", JStr "c"); ("tenant_id", JStr "t"); ("client_secret", JStr "s");
                           ("m360_workspace_id", JStr "ws1"); ("m360_dataset_id", JStr "ds1")])].

Definition demo_msal (client_id : json) (authority : string) (secret : json) : res json :=
  ret (JObj [("access_token", JStr "tok")]).

(** A dataset with a table [Calls] of 1234567 rows, a one-row
    [pbi Homeowners] and [ActionItemDetails]; any other query is a 400. *)
Definition demo_post (url auth q : string) : dax_outcome :=
  if String.eqb q (count_query "Calls") then DResp 200 "" (dax_body [JObj [("[count]", JNum 1234567)]])
  else if String.eqb q "EVALUATE TOPN(1, 'pbi Homeowners')" then
    DResp 200 "" (dax_body [JObj [("OwnerName", JStr "Ann"); ("ParcelID", JStr "R123"); ("Balance", JNum 0)]])
  else if String.eqb q q_top1 then
    DResp 200 "" (dax_body [JObj [("ActionItemID", JNum 7); ("OwnerAcctNo", JNull)]])
  else DResp 400 "Table not found" None.

(** The same service where the table [Notes] exists and is empty. *)
Definition demo_post_empty (url auth q : string) : dax_outcome :=
  if String.eqb q (count_query "Notes") then DResp 200 "" (dax_body [JObj [("[count]", JNull)]])
  else demo_post url auth q.

Definition printed (t : list event) : list string :=
  flat_map (fun e => match e with EPrint l => [l] | EQuery _ _ _ => [] end) t.

(** explore_m360_owner_activity.py on the in-memory service: it
    completes after 47 queries; the count of [Calls] is printed with
    thousands separators; the column [Balance], whose value is 0, is
    printed as NULL ([if val] treats 0 as missing); [ParcelID] is
    flagged as an activity column because "arc" is a substring of
    "parcel"; the owner columns are printed as a Python list. *)
Example m360_scenario :
  let r := explore_m360_owner_activity demo_config demo_msal demo_post [] in
  fst r = inr tt /\ length (queries (snd r)) = 47%nat /\
  existsb (String.eqb "    FOUND: 'Calls' with 1,234,567 rows") (printed (snd r)) = true /\
  existsb (String.eqb "        Balance: NULL") (printed (snd r)) = true /\
  existsb (String.eqb "        ParcelID: R123 <-- ACTIVITY?") (printed (snd r)) = true /\
  existsb (String.eqb "    Potential owner link columns: ['OwnerAcctNo']") (printed (snd r)) = true.
Proof. vm_compute. repeat split. Qed.

(** explore_activity_data_v2.py stops with [TypeError] at the empty
    table [Notes] of section [4]: its [COUNTROWS] query is the last one
    sent, so the ten tables after it and sections [5] and [6] are never
    queried. *)
Example v2_empty_table_stops :
  let r := explore_activity_data_v2 demo_config demo_msal demo_post_empty [] in
  fst r = inl TypeError /\ last (queries (snd r)) "" = count_query "Notes" /\
  length (queries (snd r)) = 11%nat.
Proof. vm_compute. repeat split. Qed.

Lemma scripts_authorized_witness :
  exists pbi, fst (authorize demo_config demo_msal []) = inr (pbi, "Bearer tok") /\
  exists ws ds, jsub pbi "m360_workspace_id" = inr ws /\ jsub pbi "m360_dataset_id" = inr ds /\
                dax_url "ws1" "ds1" = dax_url (py_str ws) (py_str ds).
Proof.
  apply (proj2 (proj2 (scripts_authorized demo_config demo_msal demo_post
                         (dax_url "ws1" "ds1") "Bearer tok" (count_query "Calls")))).
  vm_compute. repeat (first [left; reflexivity | right]).
Defined.

Lemma probe_found_witness :
  ["Calls"] = filter (fun tb => table_found (demo_post (dax_url "w" "d") "Bearer tok" (count_query tb))) call_tables /\
  queries (snd (probe (run_dax demo_post 200 "Bearer tok" "w" "d") "    " (fun _ => iret tt) call_tables []))
  = ([] ++ map count_query call_tables)%list.
Proof.
  apply (probe_found demo_post 200 "Bearer tok" "w" "d" "    " call_tables []
           ["Calls"] (snd (probe (run_dax demo_post 200 "Bearer tok" "w" "d") "    " (fun _ => iret tt) call_tables []))).
  vm_compute. reflexivity.
Defined.

Lemma probe_null_count_witness :
  probe (run_dax demo_post_empty 300 "Bearer tok" KPI_WORKSPACE KPI_DATASET) "    " (fun _ => iret tt)
        ["Notes"; "OwnerContacts"] [] =
  (inl TypeError, [EQuery (dax_url KPI_WORKSPACE KPI_DATASET) "Bearer tok" (count_query "Notes")]).
Proof.
  apply (probe_null_count _ "    " (fun _ => iret tt) "Notes" ["OwnerContacts"] []
           [EQuery (dax_url KPI_WORKSPACE KPI_DATASET) "Bearer tok" (count_query "Notes")] "[count]" [] []).
  vm_compute. reflexivity.
Defined.

End Explore.
