(* ===== verification/Prompt.v ===== *)
(** * The prompt templates and [str.format]

    The two templates of src/src/optimized_extraction.py,
    [EXTRACTION_PROMPT_V2] (lines 44-131) and [SYNTHESIS_PROMPT] (lines
    485-516), kept verbatim with their doubled braces, and Python's
    [str.format] with keyword arguments as the code calls it (lines
    406-410 and 532-536).  [fmt] is CPython's markup iterator: it walks
    the template once, copies literal text, turns [{{] and [}}] into one
    brace, and looks a field up when its closing brace is read, so that
    the first error met from the left is the one raised ([ValueError] for
    a stray or unclosed brace, [KeyError] for a missing name,
    [IndexError] for an empty or numeric, positional, field).  Conversions
    ([!r]), format specs ([:>10]) and attribute or index access in a field
    are not modelled: the whole text between the braces is the key, and
    neither template has them.  [parse] is the same walk returning the
    pieces of the template instead of the text; [fmt_parse] shows that
    formatting a parsed template is substituting its pieces, which turns
    the theorems about the two templates into computations on their
    pieces. *)

From Stdlib Require Import String Ascii List Bool.
From S2P Require Import Prelude Pyfmt.
Import ListNotations.
Import Pyfmt.
Open Scope py_scope.
Open Scope string_scope.

Module Prompt.

Definition nl : string := String newline EmptyString.
Definition lbrace : ascii := "{".
Definition rbrace : ascii := "}".

(** ** [str.format] *)

(** Where the walk is: in literal text, just after a [{], just after a
    [}], or inside a field whose name so far is kept reversed. *)
Inductive fstate := Top | Open | Close | InField (name : list ascii).

(** The value of a field: an empty or numeric name is positional, and
    [format] is called with keyword arguments only. *)
Definition kw_lookup (kwargs : list (string * string)) (name : list ascii) : res (list ascii) :=
  match name with
  | [] => raise IndexError
  | c :: _ =>
      if is_digit c then raise IndexError
      else match find (fun kv => String.eqb (fst kv) (of_chars name)) kwargs with
           | Some (_, v) => ret (chars v)
           | None => raise KeyError
           end
  end.

Fixpoint fmt (kwargs : list (string * string)) (st : fstate) (l : list ascii) : res (list ascii) :=
  match l with
  | [] => match st with Top => ret [] | _ => raise ValueError end
  | c :: r =>
      match st with
      | Top =>
          if Ascii.eqb c lbrace then fmt kwargs Open r
          else if Ascii.eqb c rbrace then fmt kwargs Close r
          else x <- fmt kwargs Top r ;; ret (c :: x)
      | Open =>
          if Ascii.eqb c lbrace then x <- fmt kwargs Top r ;; ret (lbrace :: x)
          else if Ascii.eqb c rbrace then
            v <- kw_lookup kwargs [] ;; x <- fmt kwargs Top r ;; ret (v ++ x)%list
          else fmt kwargs (InField [c]) r
      | Close =>
          if Ascii.eqb c rbrace then x <- fmt kwargs Top r ;; ret (rbrace :: x)
          else raise ValueError
      | InField name =>
          if Ascii.eqb c rbrace then
            v <- kw_lookup kwargs (rev name) ;; x <- fmt kwargs Top r ;; ret (v ++ x)%list
          else if Ascii.eqb c lbrace then raise ValueError
          else fmt kwargs (InField (c :: name)) r
      end
  end.

(** [template.format] with keyword arguments. *)
Definition str_format (template : string) (kwargs : list (string * string)) : res string :=
  x <- fmt kwargs Top (chars template) ;; ret (of_chars x).

(** ** Pieces of a template *)

Inductive piece := PChar (c : ascii) | PField (name : list ascii).

Fixpoint parse (st : fstate) (l : list ascii) : option (list piece) :=
  match l with
  | [] => match st with Top => Some [] | _ => None end
  | c :: r =>
      match st with
      | Top =>
          if Ascii.eqb c lbrace then parse Open r
          else if Ascii.eqb c rbrace then parse Close r
          else option_map (cons (PChar c)) (parse Top r)
      | Open =>
          if Ascii.eqb c lbrace then option_map (cons (PChar lbrace)) (parse Top r)
          else if Ascii.eqb c rbrace then option_map (cons (PField [])) (parse Top r)
          else parse (InField [c]) r
      | Close =>
          if Ascii.eqb c rbrace then option_map (cons (PChar rbrace)) (parse Top r)
          else None
      | InField name =>
          if Ascii.eqb c rbrace then option_map (cons (PField (rev name))) (parse Top r)
          else if Ascii.eqb c lbrace then None
          else parse (InField (c :: name)) r
      end
  end.

Definition parse_template (t : string) : option (list piece) := parse Top (chars t).

Fixpoint subst (kwargs : list (string * string)) (ps : list piece) : res (list ascii) :=
  match ps with
  | [] => ret []
  | PChar c :: ps' => x <- subst kwargs ps' ;; ret (c :: x)
  | PField n :: ps' => v <- kw_lookup kwargs n ;; x <- subst kwargs ps' ;; ret (v ++ x)%list
  end.

Definition resolved (kwargs : list (string * string)) (p : piece) : bool :=
  match p with
  | PChar _ => true
  | PField n => match kw_lookup kwargs n with inr _ => true | inl _ => false end
  end.

Definition piece_text (kwargs : list (string * string)) (p : piece) : list ascii :=
  match p with
  | PChar c => [c]
  | PField n => match kw_lookup kwargs n with inr v => v | inl _ => [] end
  end.

Definition is_field (n : string) (p : piece) : bool :=
  match p with PField m => String.eqb (of_chars m) n | PChar _ => false end.

(** Text that formats to itself: every brace doubled. *)
Fixpoint escape (l : list ascii) : list ascii :=
  match l with
  | [] => []
  | c :: r =>
      if Ascii.eqb c lbrace then lbrace :: lbrace :: escape r
      else if Ascii.eqb c rbrace then rbrace :: rbrace :: escape r
      else c :: escape r
  end.

(** ** The templates *)

(** [EXTRACTION_PROMPT_V2], lines 44-131. *)
Definition EXTRACTION_PROMPT_V2 : string :=
  "You are an expert document analyst for PS Property Management." ++ nl
  ++ "A community manager needs a SPECIFIC answer from HOA documents." ++ nl
  ++ nl
  ++ "**QUESTION:** {query}" ++ nl
  ++ "**COMMUNITY:** {community}" ++ nl
  ++ nl
  ++ "**DOCUMENTS PROVIDED:**" ++ nl
  ++ "{doc_context}" ++ nl
  ++ nl
  ++ "---" ++ nl
  ++ nl
  ++ "## CRITICAL RULES (MUST FOLLOW):" ++ nl
  ++ nl
  ++ "### RULE 1: ONLY USE DOCUMENT CONTENT" ++ nl
  ++ "- Extract answers ONLY from the text provided above" ++ nl
  ++ "- If the answer is NOT explicitly stated, say so" ++ nl
  ++ "- NEVER invent, assume, or infer information" ++ nl
  ++ "- NEVER use general knowledge about HOAs" ++ nl
  ++ nl
  ++ "### RULE 2: BE CONCISE" ++ nl
  ++ "- Answer in 1-2 sentences maximum (under 30 words)" ++ nl
  ++ "- For numeric answers (heights, fees, limits): state the NUMBER first" ++ nl
  ++ "- Example: " ++ dq ++ "6 feet maximum" ++ dq ++ " not " ++ dq ++ "The community restricts fence heights to a maximum of six feet as outlined in the architectural guidelines" ++ dq ++ nl
  ++ nl
  ++ "### RULE 3: QUOTE EVIDENCE" ++ nl
  ++ "- Include the EXACT text from the document that supports your answer" ++ nl
  ++ "- If quoting a number, include surrounding context (5-15 words)" ++ nl
  ++ nl
  ++ "### RULE 4: RATE YOUR CONFIDENCE" ++ nl
  ++ "- HIGH: Answer is explicitly stated with exact numbers/rules" ++ nl
  ++ "- MEDIUM: Answer is implied or requires minor interpretation" ++ nl
  ++ "- LOW: Related info found but doesn't directly answer the question" ++ nl
  ++ nl
  ++ "---" ++ nl
  ++ nl
  ++ "## RESPONSE FORMAT (STRICT JSON):" ++ nl
  ++ nl
  ++ "Return ONLY this JSON structure, nothing else:" ++ nl
  ++ nl
  ++ "{{" ++ nl
  ++ "    " ++ dq ++ "found" ++ dq ++ ": true," ++ nl
  ++ "    " ++ dq ++ "answer" ++ dq ++ ": " ++ dq ++ "Direct answer starting with the key fact. 1-2 sentences max." ++ dq ++ "," ++ nl
  ++ "    " ++ dq ++ "confidence" ++ dq ++ ": " ++ dq ++ "high" ++ dq ++ "," ++ nl
  ++ "    " ++ dq ++ "quote" ++ dq ++ ": " ++ dq ++ "Exact text from document (5-30 words)" ++ dq ++ "," ++ nl
  ++ "    " ++ dq ++ "source_document" ++ dq ++ ": " ++ dq ++ "Filename.pdf" ++ dq ++ "," ++ nl
  ++ "    " ++ dq ++ "source_section" ++ dq ++ ": " ++ dq ++ "Article X.X or Section name" ++ dq ++ "," ++ nl
  ++ "    " ++ dq ++ "answer_type" ++ dq ++ ": " ++ dq ++ "definitive" ++ dq ++ "," ++ nl
  ++ "    " ++ dq ++ "related_info" ++ dq ++ ": " ++ dq ++ "Optional additional context" ++ dq ++ "," ++ nl
  ++ "    " ++ dq ++ "follow_up_questions" ++ dq ++ ": [" ++ dq ++ "Related question 1" ++ dq ++ ", " ++ dq ++ "Related question 2" ++ dq ++ "]" ++ nl
  ++ "}}" ++ nl
  ++ nl
  ++ "If NOT found:" ++ nl
  ++ nl
  ++ "{{" ++ nl
  ++ "    " ++ dq ++ "found" ++ dq ++ ": false," ++ nl
  ++ "    " ++ dq ++ "answer" ++ dq ++ ": " ++ dq ++ "The specific information was not found in the available documents." ++ dq ++ "," ++ nl
  ++ "    " ++ dq ++ "confidence" ++ dq ++ ": " ++ dq ++ "low" ++ dq ++ "," ++ nl
  ++ "    " ++ dq ++ "quote" ++ dq ++ ": null," ++ nl
  ++ "    " ++ dq ++ "source_document" ++ dq ++ ": null," ++ nl
  ++ "    " ++ dq ++ "source_section" ++ dq ++ ": null," ++ nl
  ++ "    " ++ dq ++ "answer_type" ++ dq ++ ": " ++ dq ++ "not_found" ++ dq ++ "," ++ nl
  ++ "    " ++ dq ++ "related_info" ++ dq ++ ": " ++ dq ++ "What WAS found that's related, if anything" ++ dq ++ "," ++ nl
  ++ "    " ++ dq ++ "follow_up_questions" ++ dq ++ ": [" ++ dq ++ "Alternative answerable question 1" ++ dq ++ ", " ++ dq ++ "Alternative answerable question 2" ++ dq ++ "]" ++ nl
  ++ "}}" ++ nl
  ++ nl
  ++ "---" ++ nl
  ++ nl
  ++ "## EXAMPLES:" ++ nl
  ++ nl
  ++ "QUESTION: " ++ dq ++ "What is the fence height limit?" ++ dq ++ nl
  ++ "DOCUMENT: " ++ dq ++ "...Fences shall not exceed six (6) feet in height from natural grade..." ++ dq ++ nl
  ++ nl
  ++ "CORRECT RESPONSE:" ++ nl
  ++ "{{" ++ nl
  ++ "    " ++ dq ++ "found" ++ dq ++ ": true," ++ nl
  ++ "    " ++ dq ++ "answer" ++ dq ++ ": " ++ dq ++ "6 feet maximum height from natural grade." ++ dq ++ "," ++ nl
  ++ "    " ++ dq ++ "confidence" ++ dq ++ ": " ++ dq ++ "high" ++ dq ++ "," ++ nl
  ++ "    " ++ dq ++ "quote" ++ dq ++ ": " ++ dq ++ "Fences shall not exceed six (6) feet in height from natural grade" ++ dq ++ "," ++ nl
  ++ "    " ++ dq ++ "source_document" ++ dq ++ ": " ++ dq ++ "Falcon Pointe CC&Rs.pdf" ++ dq ++ "," ++ nl
  ++ "    " ++ dq ++ "source_section" ++ dq ++ ": " ++ dq ++ "Article 7.3 - Fencing" ++ dq ++ "," ++ nl
  ++ "    " ++ dq ++ "answer_type" ++ dq ++ ": " ++ dq ++ "definitive" ++ dq ++ "," ++ nl
  ++ "    " ++ dq ++ "related_info" ++ dq ++ ": " ++ dq ++ "Front yard fences may have additional restrictions." ++ dq ++ "," ++ nl
  ++ "    " ++ dq ++ "follow_up_questions" ++ dq ++ ": [" ++ dq ++ "What fence materials are approved?" ++ dq ++ ", " ++ dq ++ "Is ARC approval required?" ++ dq ++ "]" ++ nl
  ++ "}}" ++ nl
  ++ nl
  ++ "---" ++ nl
  ++ nl
  ++ "Return ONLY the JSON. No markdown code blocks, no explanatory text.".

(** [SYNTHESIS_PROMPT], lines 485-516. *)
Definition SYNTHESIS_PROMPT : string :=
  "You are synthesizing information from MULTIPLE HOA documents." ++ nl
  ++ nl
  ++ "**QUESTION:** {query}" ++ nl
  ++ "**COMMUNITY:** {community}" ++ nl
  ++ nl
  ++ "**DOCUMENTS:**" ++ nl
  ++ "{doc_summaries}" ++ nl
  ++ nl
  ++ "---" ++ nl
  ++ nl
  ++ "## YOUR TASK:" ++ nl
  ++ "1. Identify ALL relevant information across documents" ++ nl
  ++ "2. Combine into a SINGLE coherent answer (under 50 words)" ++ nl
  ++ "3. Note if documents conflict (newer takes precedence)" ++ nl
  ++ "4. Cite which document each key fact comes from" ++ nl
  ++ nl
  ++ "## RESPONSE FORMAT (JSON):" ++ nl
  ++ "{{" ++ nl
  ++ "    " ++ dq ++ "found" ++ dq ++ ": true," ++ nl
  ++ "    " ++ dq ++ "answer" ++ dq ++ ": " ++ dq ++ "Synthesized answer" ++ dq ++ "," ++ nl
  ++ "    " ++ dq ++ "confidence" ++ dq ++ ": " ++ dq ++ "high/medium/low" ++ dq ++ "," ++ nl
  ++ "    " ++ dq ++ "sources" ++ dq ++ ": [" ++ nl
  ++ "        {{" ++ dq ++ "document" ++ dq ++ ": " ++ dq ++ "Doc name" ++ dq ++ ", " ++ dq ++ "contribution" ++ dq ++ ": " ++ dq ++ "What this doc added" ++ dq ++ ", " ++ dq ++ "quote" ++ dq ++ ": " ++ dq ++ "Exact text" ++ dq ++ "}}" ++ nl
  ++ "    ]," ++ nl
  ++ "    " ++ dq ++ "conflicts_found" ++ dq ++ ": false," ++ nl
  ++ "    " ++ dq ++ "conflict_note" ++ dq ++ ": null," ++ nl
  ++ "    " ++ dq ++ "follow_up_questions" ++ dq ++ ": [" ++ dq ++ "Question 1" ++ dq ++ ", " ++ dq ++ "Question 2" ++ dq ++ "]" ++ nl
  ++ "}}" ++ nl
  ++ nl
  ++ "Return ONLY JSON.".

(** Lines 406-410: the prompt of [extract_answer_with_claude_v2]. *)
Definition extraction_prompt (query community doc_context : string) : res string :=
  str_format EXTRACTION_PROMPT_V2
    [("query", query); ("community", community); ("doc_context", doc_context)].

(** Lines 532-536: the prompt of [synthesize_multiple_documents]. *)
Definition synthesis_prompt (query community doc_summaries : string) : res string :=
  str_format SYNTHESIS_PROMPT
    [("query", query); ("community", community); ("doc_summaries", doc_summaries)].

(** [s] occurs in [out]. *)
Definition occurs (s out : string) : Prop :=
  exists pre post, chars out = (pre ++ chars s ++ post)%list.

(** ** The escape round trip *)

(** Round trip of the brace escape: a text with every brace doubled
    formats back to the text, whatever the keyword arguments. *)
Theorem format_escape s kwargs : str_format (of_chars (escape (chars s))) kwargs = inr s.
Proof.
  assert (E : forall l, fmt kwargs Top (escape l) = inr l).
  { induction l as [|c r IH]; [reflexivity|]. simpl.
    destruct (Ascii.eqb c lbrace) eqn:E1; [|destruct (Ascii.eqb c rbrace) eqn:E2].
    - apply Ascii.eqb_eq in E1. subst c. simpl. rewrite IH. reflexivity.
    - apply Ascii.eqb_eq in E2. subst c. simpl. rewrite IH. reflexivity.
    - simpl. rewrite E1, E2, IH. reflexivity. }
  unfold str_format. rewrite chars_of_chars, E. simpl. rewrite of_chars_chars. reflexivity.
Qed.

(** ** Formatting through the pieces *)

Lemma fmt_parse kwargs st l ps :
  parse st l = Some ps -> fmt kwargs st l = subst kwargs ps.
Proof.
  revert st ps; induction l as [|c r IH]; intros st ps H.
  - destruct st; simpl in H; try discriminate. inv H. reflexivity.
  - destruct st; simpl in H |- *;
      destruct (Ascii.eqb c lbrace), (Ascii.eqb c rbrace); try discriminate; try (now apply IH);
      destruct (parse Top r) as [ps'|] eqn:E; inv H; simpl; try rewrite (IH _ _ E); reflexivity.
Qed.

Lemma subst_resolved kwargs ps :
  forallb (resolved kwargs) ps = true -> subst kwargs ps = inr (flat_map (piece_text kwargs) ps).
Proof.
  induction ps as [|[c|n] ps IH]; simpl; intros H; [reflexivity| |].
  - rewrite IH by exact H. reflexivity.
  - apply andb_prop in H as [Hn H].
    destruct (kw_lookup kwargs n); [discriminate|]. rewrite IH by exact H. reflexivity.
Qed.

Lemma flat_map_field kwargs ps n v :
  existsb (is_field n) ps = true -> kw_lookup kwargs (chars n) = inr (chars v) ->
  occurs v (of_chars (flat_map (piece_text kwargs) ps)).
Proof.
  intros H Hv. apply existsb_exists in H as ([c|m] & Hin & Hm); [discriminate|].
  apply String.eqb_eq in Hm. subst n. rewrite chars_of_chars in Hv.
  apply in_split in Hin as (l1 & l2 & ->).
  exists (flat_map (piece_text kwargs) l1), (flat_map (piece_text kwargs) l2).
  rewrite chars_of_chars, flat_map_app. cbn [flat_map piece_text]. rewrite Hv. reflexivity.
Qed.

(** A parsed template whose fields are all given formats to the
    substitution of its pieces, in which each given value occurs. *)
Lemma template_ok t kwargs ps :
  parse_template t = Some ps -> forallb (resolved kwargs) ps = true ->
  exists out, str_format t kwargs = inr out /\
    forall n v, existsb (is_field n) ps = true -> kw_lookup kwargs (chars n) = inr (chars v) ->
      occurs v out.
Proof.
  intros Hp Hr. exists (of_chars (flat_map (piece_text kwargs) ps)). split.
  - unfold str_format. rewrite (fmt_parse _ _ _ _ Hp), (subst_resolved _ _ Hr). reflexivity.
  - intros n v. apply flat_map_field.
Qed.

(** Applies [template_ok] to a concrete template: its pieces are
    computed, every field is checked to be given, and the three named
    fields are found among them. *)
Ltac template_facts t kw n1 n2 n3 :=
  let ps := eval vm_compute in (parse_template t) in
  match ps with
  | Some ?l =>
      let H := fresh "H" in
      destruct (template_ok t kw l) as (out & Hf & H);
      [vm_compute; reflexivity | vm_compute; reflexivity |];
      exists out; split; [exact Hf|];
      split; [|split];
      [apply (H n1) | apply (H n2) | apply (H n3)]; vm_compute; reflexivity
  end.

(** C30: Both templates format without raising for every query, community
    and document text: every brace of the JSON examples is doubled and
    every field is passed, and the formatted prompt holds each argument
    verbatim. *)
Theorem prompt_templates_ok query community docs :
  (exists out, extraction_prompt query community docs = inr out /\
     occurs query out /\ occurs community out /\ occurs docs out) /\
  (exists out, synthesis_prompt query community docs = inr out /\
     occurs query out /\ occurs community out /\ occurs docs out).
Proof.
  split.
  - template_facts EXTRACTION_PROMPT_V2
      [("query", query); ("community", community); ("doc_context", docs)]
      "query" "community" "doc_context".
  - template_facts SYNTHESIS_PROMPT
      [("query", query); ("community", community); ("doc_summaries", docs)]
      "query" "community" "doc_summaries".
Qed.

End Prompt.
